(** * Pulse Web Scraper: date normalisation, review extraction and pagination

    A shallow embedding of the review pipeline of the repository
    ([backend/utils/dateUtils.js], the three scrapers under
    [backend/scrapers/] and the [/scrape-reviews] handler of
    [backend/index.js]) together with the properties of its specification.

    Conventions of the embedding:
    - a JavaScript string is a [string] of 8-bit code units (the Latin-1
      range of the UTF-16 code units);
    - a JavaScript number that the code only uses as an integer is a [num]:
      [Some z] for the integer [z], [None] for [NaN];
    - a [Date] object is its time value, a [num] of milliseconds since the
      epoch ([None] is the Invalid Date);
    - a rating, the only fractional number of the program, is a [float]:
      an optional rational, [None] for [NaN];
    - the host's local time zone is its offset from UTC in milliseconds,
      [LocalTZA], a function of the instant: it changes where the zone
      changes its clocks;
    - browser automation is a state and exception monad over an abstract
      browser world, which also records the trace of Puppeteer calls;
    - the body of a request is JSON: each of its fields is any JSON value,
      absent fields included. *)

From Stdlib Require Import ZArith QArith List String Ascii Bool Arith Lia.
From Equations Require Import Equations.
Import ListNotations.
Local Open Scope string_scope.
Local Open Scope Z_scope.

(* ===================================================================== *)
(** * 1. Host built-ins: numbers and strings                              *)
(* ===================================================================== *)

(** A JavaScript number restricted to the integers the code computes with;
    [None] is [NaN]. *)
Definition num : Type := option Z.

Definition NaN : num := None.

Definition nadd (a b : num) : num :=
  match a, b with Some x, Some y => Some (x + y) | _, _ => None end.
Definition nsub (a b : num) : num :=
  match a, b with Some x, Some y => Some (x - y) | _, _ => None end.
Definition nmul (a b : num) : num :=
  match a, b with Some x, Some y => Some (x * y) | _, _ => None end.

(** [isNaN x]. *)
Definition isNaN (x : num) : bool :=
  match x with Some _ => false | None => true end.

(** A JavaScript number that may be fractional; [None] is [NaN]. *)
Definition float : Type := option Q.

(** [a >= b] and [a <= b] on numbers: every comparison with [NaN] is false. *)
Definition nge (a b : num) : bool :=
  match a, b with Some x, Some y => y <=? x | _, _ => false end.
Definition nle (a b : num) : bool :=
  match a, b with Some x, Some y => x <=? y | _, _ => false end.

Definition code (c : ascii) : nat := nat_of_ascii c.

Definition isDigit (c : ascii) : bool :=
  ((48 <=? code c) && (code c <=? 57))%nat.
Definition isUpper (c : ascii) : bool :=
  ((65 <=? code c) && (code c <=? 90))%nat.
Definition isLower (c : ascii) : bool :=
  ((97 <=? code c) && (code c <=? 122))%nat.
(** The class [[A-Za-z]]. *)
Definition isAlpha (c : ascii) : bool := isUpper c || isLower c.
(** White space and line terminators below U+0100: TAB, LF, VT, FF, CR,
    SP and NBSP; the class [\s] and the characters [trim] removes. *)
Definition isSpace (c : ascii) : bool :=
  ((9 <=? code c) && (code c <=? 13) || (code c =? 32) || (code c =? 160))%nat.

(** [String.prototype.toLowerCase], one code unit. *)
Definition lowerChar (c : ascii) : ascii :=
  if isUpper c then ascii_of_nat (code c + 32)
  else if ((192 <=? code c) && (code c <=? 222) && negb (code c =? 215))%nat
       then ascii_of_nat (code c + 32)
       else c.

Fixpoint toLowerCase (s : string) : string :=
  match s with
  | EmptyString => EmptyString
  | String c s' => String (lowerChar c) (toLowerCase s')
  end.

Fixpoint trimStart (s : string) : string :=
  match s with
  | EmptyString => EmptyString
  | String c s' => if isSpace c then trimStart s' else s
  end.

Fixpoint trimEnd (s : string) : string :=
  match s with
  | EmptyString => EmptyString
  | String c s' =>
      match trimEnd s' with
      | EmptyString => if isSpace c then EmptyString else String c EmptyString
      | t => String c t
      end
  end.

(** [String.prototype.trim]. *)
Definition trim (s : string) : string := trimEnd (trimStart s).

(** A string is falsy exactly when it is empty. *)
Definition truthy (s : string) : bool :=
  match s with EmptyString => false | _ => true end.

Definition digitVal (c : ascii) : Z := Z.of_nat (code c) - 48.
Definition digitChar (d : Z) : ascii := ascii_of_nat (48 + Z.to_nat d).

Fixpoint digitsValue (acc : Z) (s : string) : Z :=
  match s with
  | String c s' => if isDigit c then digitsValue (10 * acc + digitVal c) s' else acc
  | EmptyString => acc
  end.

Fixpoint allDigits (s : string) : bool :=
  match s with
  | String c s' => isDigit c && allDigits s'
  | EmptyString => true
  end.

(** [parseInt(s, 10)]: leading white space is skipped, an optional sign is
    read, then the longest prefix of decimal digits; [NaN] without a digit. *)
Definition parseInt (s : string) : num :=
  let body (t : string) : num :=
    match t with
    | String c _ => if isDigit c then Some (digitsValue 0 t) else None
    | EmptyString => None
    end in
  match trimStart s with
  | String "-" t => match body t with Some v => Some (- v) | None => None end
  | String "+" t => body t
  | t => body t
  end.

Fixpoint decimalDigits (fuel : nat) (n : Z) (acc : string) : string :=
  match fuel with
  | O => acc
  | S f =>
      let acc' := String (digitChar (n mod 10)) acc in
      if n <? 10 then acc' else decimalDigits f (n / 10) acc'
  end.

(** The decimal numeral of a non-negative integer, without leading zeros. *)
Definition decimal (n : Z) : string :=
  decimalDigits (S (Z.to_nat (Z.log2 n))) n EmptyString.

(** [String(x)] for an integral number. *)
Definition NumberToString (x : num) : string :=
  match x with
  | None => "NaN"
  | Some n => if n <? 0 then String "-" (decimal (- n)) else decimal n
  end.

(** [s.padStart(2, '0')]. *)
Definition padStart2 (s : string) : string :=
  match s with
  | EmptyString => "00"
  | String c EmptyString => String "0" s
  | _ => s
  end.

(* --------------------------------------------------------------------- *)
(** ** Regular expressions                                                *)
(* --------------------------------------------------------------------- *)

(** The fragment of the regular-expression language the date patterns use,
    with the backtracking semantics of the host: alternatives are tried from
    left to right, repetitions are greedy, and the first overall match wins. *)
Inductive regex : Type :=
| Eps : regex
| Cls : (ascii -> bool) -> regex
| Cat : regex -> regex -> regex
| Alt : regex -> regex -> regex
| Star : regex -> regex
| Grp : nat -> regex -> regex.

(** Capture groups recorded so far, most recent first. *)
Definition captures : Type := list (nat * string).

Fixpoint capture (n : nat) (cs : captures) : string :=
  match cs with
  | [] => EmptyString
  | (i, v) :: cs' => if Nat.eqb i n then v else capture n cs'
  end.

(** The part of [s] consumed when [rest] remains. *)
Definition consumed (s rest : string) : string :=
  substring 0 (String.length s - String.length rest) s.

(** The iterations of a greedy repetition, [step] matching its body once
    and [k] what follows the repetition. An iteration that matches the
    empty string is not repeated; the length of the input bounds the
    number of iterations. *)
Definition starLoop
    (step : string -> captures -> (string -> captures -> option captures)
            -> option captures)
    (k : string -> captures -> option captures)
  : nat -> string -> captures -> option captures :=
  fix iterate (fuel : nat) (s : string) (cs : captures) : option captures :=
    match fuel with
    | O => k s cs
    | S fuel' =>
        match step s cs
                (fun s' cs' =>
                   if (String.length s' <? String.length s)%nat
                   then iterate fuel' s' cs' else None) with
        | Some m => Some m
        | None => k s cs
        end
    end.

(** [rmatch r s cs k]: match [r] at the start of [s], then continue with
    [k] on the rest; a failure of [k] makes the match backtrack. *)
Fixpoint rmatch (r : regex) (s : string) (cs : captures)
    (k : string -> captures -> option captures) {struct r} : option captures :=
  match r with
  | Eps => k s cs
  | Cls p =>
      match s with
      | String c s' => if p c then k s' cs else None
      | EmptyString => None
      end
  | Cat r1 r2 => rmatch r1 s cs (fun s1 cs1 => rmatch r2 s1 cs1 k)
  | Alt r1 r2 =>
      match rmatch r1 s cs k with
      | Some m => Some m
      | None => rmatch r2 s cs k
      end
  | Star r1 => starLoop (rmatch r1) k (String.length s) s cs
  | Grp n r1 => rmatch r1 s cs (fun s' cs' => k s' ((n, consumed s s') :: cs'))
  end.

(** One step of a repetition of the class [p], as [rmatch] computes it. *)
Notation classStep p :=
  (fun (s : string) (cs : captures)
       (k : string -> captures -> option captures) =>
     match s with
     | EmptyString => None
     | String c s' => if p c then k s' cs else None
     end).

(** [str.match(re)] for a pattern without the global flag: the leftmost
    position at which the pattern matches. *)
Fixpoint search (r : regex) (s : string) : option captures :=
  match rmatch r s [] (fun _ cs => Some cs) with
  | Some m => Some m
  | None =>
      match s with
      | String _ s' => search r s'
      | EmptyString => None
      end
  end.

Definition plus (r : regex) : regex := Cat r (Star r).

Fixpoint exactly (n : nat) (r : regex) : regex :=
  match n with
  | O => Eps
  | S n' => Cat r (exactly n' r)
  end.

Fixpoint upto (n : nat) (r : regex) : regex :=
  match n with
  | O => Eps
  | S n' => Alt (Cat r (upto n' r)) Eps
  end.

(** The quantifier [{lo,hi}]. *)
Definition rep (lo hi : nat) (r : regex) : regex :=
  Cat (exactly lo r) (upto (hi - lo) r).

(** A literal character. *)
Definition chr (c : ascii) : regex := Cls (Ascii.eqb c).

(** A literal word under the [i] flag, given in lower case. *)
Fixpoint wordi (w : string) : regex :=
  match w with
  | EmptyString => Eps
  | String c w' => Cat (Cls (fun x => Ascii.eqb (lowerChar x) c)) (wordi w')
  end.

Fixpoint alts (rs : list regex) : regex :=
  match rs with
  | [] => Cls (fun _ => false)
  | [r] => r
  | r :: rs' => Alt r (alts rs')
  end.

Definition digit : regex := Cls isDigit.
Definition space : regex := Cls isSpace.
(** The class [[-\/]]. *)
Definition dashOrSlash : regex :=
  Cls (fun c => Ascii.eqb c "-" || Ascii.eqb c "/").

(** [/(\d+)\s+(day|days|week|weeks|month|months|year|years)\s+ago/i] *)
Definition relativeRe : regex :=
  Cat (Grp 1 (plus digit))
 (Cat (plus space)
 (Cat (Grp 2 (alts (map wordi
         ["day"; "days"; "week"; "weeks"; "month"; "months"; "year"; "years"])))
 (Cat (plus space) (wordi "ago")))).

(** [/([A-Za-z]{3,9})\s+(\d{1,2})(?:,|\s)+(\d{4})/] *)
Definition monthNameRe : regex :=
  Cat (Grp 1 (rep 3 9 (Cls isAlpha)))
 (Cat (plus space)
 (Cat (Grp 2 (rep 1 2 digit))
 (Cat (plus (Alt (chr ",") space))
      (Grp 3 (exactly 4 digit))))).

(** [/(\d{4})[-\/](\d{1,2})[-\/](\d{1,2})/] *)
Definition numericRe : regex :=
  Cat (Grp 1 (exactly 4 digit))
 (Cat dashOrSlash
 (Cat (Grp 2 (rep 1 2 digit))
 (Cat dashOrSlash
      (Grp 3 (rep 1 2 digit))))).

(** [/(\d{1,2})[-\/](\d{1,2})[-\/](\d{4})/] *)
Definition euroRe : regex :=
  Cat (Grp 1 (rep 1 2 digit))
 (Cat dashOrSlash
 (Cat (Grp 2 (rep 1 2 digit))
 (Cat dashOrSlash
      (Grp 3 (exactly 4 digit))))).

(* ===================================================================== *)
(** * 2. Host built-ins: the Date object                                  *)
(* ===================================================================== *)

(** The day and time arithmetic of the language standard, on integers. *)
Definition msPerDay : Z := 86400000.

Definition Day (t : Z) : Z := t / msPerDay.
Definition TimeWithinDay (t : Z) : Z := t mod msPerDay.

Definition DaysInYear (y : Z) : Z :=
  if negb (y mod 4 =? 0) then 365
  else if negb (y mod 100 =? 0) then 366
  else if negb (y mod 400 =? 0) then 365
  else 366.

Definition DayFromYear (y : Z) : Z :=
  365 * (y - 1970) + (y - 1969) / 4 - (y - 1901) / 100 + (y - 1601) / 400.

(** The year containing day number [d]: the largest [y] with
    [DayFromYear y <= d] (lemma [YearFromDay_spec]), computed by counting
    400-, 100-, 4- and 1-year cycles from 1 January of year 1. *)
Definition YearFromDay (d : Z) : Z :=
  let n := d + 719162 in
  let n400 := n / 146097 in
  let r400 := n mod 146097 in
  let n100 := Z.min (r400 / 36524) 3 in
  let r100 := r400 - n100 * 36524 in
  let n4 := r100 / 1461 in
  let r4 := r100 mod 1461 in
  let n1 := Z.min (r4 / 365) 3 in
  1 + 400 * n400 + 100 * n100 + 4 * n4 + n1.

Definition InLeapYear (y : Z) : Z := if DaysInYear y =? 366 then 1 else 0.

(** Day within the year of the first day of month [m] (0 to 11). *)
Definition monthStart (m leap : Z) : Z :=
  if m =? 0 then 0 else if m =? 1 then 31
  else if m =? 2 then 59 + leap else if m =? 3 then 90 + leap
  else if m =? 4 then 120 + leap else if m =? 5 then 151 + leap
  else if m =? 6 then 181 + leap else if m =? 7 then 212 + leap
  else if m =? 8 then 243 + leap else if m =? 9 then 273 + leap
  else if m =? 10 then 304 + leap else 334 + leap.

Definition monthOfDayInYear (dwy leap : Z) : Z :=
  if dwy <? 31 then 0 else if dwy <? 59 + leap then 1
  else if dwy <? 90 + leap then 2 else if dwy <? 120 + leap then 3
  else if dwy <? 151 + leap then 4 else if dwy <? 181 + leap then 5
  else if dwy <? 212 + leap then 6 else if dwy <? 243 + leap then 7
  else if dwy <? 273 + leap then 8 else if dwy <? 304 + leap then 9
  else if dwy <? 334 + leap then 10 else 11.

Definition DaysInMonth (m leap : Z) : Z :=
  if m =? 1 then 28 + leap
  else if (m =? 3) || (m =? 5) || (m =? 8) || (m =? 10) then 30 else 31.

Definition YearFromTime (t : Z) : Z := YearFromDay (Day t).
Definition DayWithinYear (t : Z) : Z := Day t - DayFromYear (YearFromTime t).
Definition MonthFromTime (t : Z) : Z :=
  monthOfDayInYear (DayWithinYear t) (InLeapYear (YearFromTime t)).
Definition DateFromTime (t : Z) : Z :=
  DayWithinYear t
  - monthStart (MonthFromTime t) (InLeapYear (YearFromTime t)) + 1.

Definition MakeDay (year month date : Z) : Z :=
  let ym := year + month / 12 in
  let mn := month mod 12 in
  DayFromYear ym + monthStart mn (InLeapYear ym) + date - 1.

Definition MakeDate (day time : Z) : Z := day * msPerDay + time.

(** Time values range over 100,000,000 days on either side of the epoch;
    anything else is [NaN]. *)
Definition maxTime : Z := 8640000000000000.

Definition TimeClip (t : Z) : num :=
  if Z.abs t <=? maxTime then Some t else NaN.

(** What the host supplies: the implementation-defined part of
    [Date.parse], the local time zone adjustment, the clock read by
    [new Date()], and library functions
    whose results are only passed along: [parseFloat],
    [encodeURIComponent], the time stamp the handler puts in a file name
    ([new Date().toISOString()] with its colons and dot replaced) and
    [path.join(outputDir, filename)].

    [LocalTZA t isUTC] is the offset of local time from UTC, in
    milliseconds, that applies at [t]: [t] is an instant when [isUTC]
    holds and a local time otherwise. Where the zone changes its clocks the
    offset differs from one [t] to another; a local time that the change
    skips or repeats is read with the offset in force before the change. *)
Class Host : Type := {
  hostParse : string -> num;
  LocalTZA : Z -> bool -> Z;
  clock : Z;
  parseFloat : string -> float;
  encodeURIComponent : string -> string;
  timestamp : string;
  outputPath : string -> string
}.

Record Date : Type := mkDate { getTime : num }.

Definition InvalidDate : Date := mkDate NaN.

(** [reviewDate >= startDate] and [reviewDate <= endDate]: both operands
    are converted to their time values. *)
Definition Date_ge (a b : Date) : bool := nge (getTime a) (getTime b).
Definition Date_le (a b : Date) : bool := nle (getTime a) (getTime b).

(** The date-only form [YYYY-MM-DD] of the standard's date-time string
    format, for a day that exists in the calendar. *)
Definition isoDateOnly (s : string) : option (Z * Z * Z) :=
  match s with
  | String y1 (String y2 (String y3 (String y4 (String h1
      (String m1 (String m2 (String h2 (String d1 (String d2
        EmptyString))))))))) =>
      if isDigit y1 && isDigit y2 && isDigit y3 && isDigit y4
         && Ascii.eqb h1 "-" && isDigit m1 && isDigit m2
         && Ascii.eqb h2 "-" && isDigit d1 && isDigit d2
      then
        let y := 1000 * digitVal y1 + 100 * digitVal y2
                 + 10 * digitVal y3 + digitVal y4 in
        let m := 10 * digitVal m1 + digitVal m2 in
        let d := 10 * digitVal d1 + digitVal d2 in
        if (1 <=? m) && (m <=? 12) && (1 <=? d)
           && (d <=? DaysInMonth (m - 1) (InLeapYear y))
        then Some (y, m, d) else None
      else None
  | _ => None
  end.

Section HostDate.
Context `{Host}.

Definition LocalTime (t : Z) : Z := t + LocalTZA t true.
Definition UTC (t : Z) : Z := t - LocalTZA t false.

(** [Date.parse]: a date-only string of the standard format denotes
    midnight UTC of that day; any other string is left to the host. *)
Definition Date_parse (s : string) : num :=
  match isoDateOnly s with
  | Some (y, m, d) => TimeClip (MakeDate (MakeDay y (m - 1) d) 0)
  | None => hostParse s
  end.

(** [new Date(string)]. *)
Definition newDateFromString (s : string) : Date := mkDate (Date_parse s).

(** [new Date()]. *)
Definition newDateNow : Date := mkDate (Some clock).

(** [new Date(year, monthIndex, day)]: local midnight; years 0 to 99 mean
    1900 to 1999. *)
Definition newDateYMD (year month day : num) : Date :=
  match year, month, day with
  | Some y, Some m, Some dt =>
      let yr := if (0 <=? y) && (y <=? 99) then 1900 + y else y in
      mkDate (TimeClip (UTC (MakeDate (MakeDay yr m dt) 0)))
  | _, _, _ => InvalidDate
  end.

Definition getFullYear (d : Date) : num :=
  match getTime d with
  | Some t => Some (YearFromTime (LocalTime t))
  | None => NaN
  end.

Definition getMonth (d : Date) : num :=
  match getTime d with
  | Some t => Some (MonthFromTime (LocalTime t))
  | None => NaN
  end.

Definition getDate (d : Date) : num :=
  match getTime d with
  | Some t => Some (DateFromTime (LocalTime t))
  | None => NaN
  end.

(** [d.setDate(dt)], [d.setMonth(m)] and [d.setFullYear(y)], returning the
    date object after the update. *)
Definition setDate (d : Date) (dt : num) : Date :=
  match getTime d, dt with
  | Some tv, Some n =>
      let t := LocalTime tv in
      mkDate (TimeClip (UTC (MakeDate
        (MakeDay (YearFromTime t) (MonthFromTime t) n) (TimeWithinDay t))))
  | _, _ => InvalidDate
  end.

Definition setMonth (d : Date) (m : num) : Date :=
  match getTime d, m with
  | Some tv, Some n =>
      let t := LocalTime tv in
      mkDate (TimeClip (UTC (MakeDate
        (MakeDay (YearFromTime t) n (DateFromTime t)) (TimeWithinDay t))))
  | _, _ => InvalidDate
  end.

Definition setFullYear (d : Date) (y : num) : Date :=
  match y with
  | Some n =>
      let t := match getTime d with Some tv => LocalTime tv | None => 0 end in
      mkDate (TimeClip (UTC (MakeDate
        (MakeDay n (MonthFromTime t) (DateFromTime t)) (TimeWithinDay t))))
  | None => InvalidDate
  end.

(* ===================================================================== *)
(** * 3. [utils/dateUtils.js]                                             *)
(* ===================================================================== *)

(** The [months] table of [parseDate]. *)
Definition months : list (string * Z) :=
  [("jan", 0); ("january", 0);
   ("feb", 1); ("february", 1);
   ("mar", 2); ("march", 2);
   ("apr", 3); ("april", 3);
   ("may", 4);
   ("jun", 5); ("june", 5);
   ("jul", 6); ("july", 6);
   ("aug", 7); ("august", 7);
   ("sep", 8); ("september", 8);
   ("oct", 9); ("october", 9);
   ("nov", 10); ("november", 10);
   ("dec", 11); ("december", 11)].

(** [table[key]]; [None] is [undefined]. *)
Fixpoint lookup {A : Type} (key : string) (table : list (string * A)) : option A :=
  match table with
  | [] => None
  | (k, v) :: rest => if String.eqb k key then Some v else lookup key rest
  end.

(** The two numeric rules at the end of [parseDate]. *)
Definition parseNumeric (trimmedDate : string) : option Date :=
  match search numericRe trimmedDate with
  | Some numericMatch =>
      let year := parseInt (capture 1 numericMatch) in
      let month := nsub (parseInt (capture 2 numericMatch)) (Some 1) in
      let day := parseInt (capture 3 numericMatch) in
      Some (newDateYMD year month day)
  | None =>
      match search euroRe trimmedDate with
      | Some euroDateMatch =>
          let day := parseInt (capture 1 euroDateMatch) in
          let month := nsub (parseInt (capture 2 euroDateMatch)) (Some 1) in
          let year := parseInt (capture 3 euroDateMatch) in
          Some (newDateYMD year month day)
      | None => None
      end
  end.

(** [parseDate(dateStr)]; [None] is [null]. *)
Definition parseDate (dateStr : string) : option Date :=
  if negb (truthy dateStr) then None else
  let trimmedDate := trim dateStr in
  let standardDate := newDateFromString trimmedDate in
  if negb (isNaN (getTime standardDate)) then Some standardDate else
  match search relativeRe trimmedDate with
  | Some relativeMatch =>
      let amount := parseInt (capture 1 relativeMatch) in
      let unit := toLowerCase (capture 2 relativeMatch) in
      let now := newDateNow in
      Some
        (if String.eqb unit "day" || String.eqb unit "days" then
           setDate now (nsub (getDate now) amount)
         else if String.eqb unit "week" || String.eqb unit "weeks" then
           setDate now (nsub (getDate now) (nmul amount (Some 7)))
         else if String.eqb unit "month" || String.eqb unit "months" then
           setMonth now (nsub (getMonth now) amount)
         else if String.eqb unit "year" || String.eqb unit "years" then
           setFullYear now (nsub (getFullYear now) amount)
         else now)
  | None =>
      match search monthNameRe trimmedDate with
      | Some monthNameMatch =>
          let monthName := capture 1 monthNameMatch in
          let day := parseInt (capture 2 monthNameMatch) in
          let year := parseInt (capture 3 monthNameMatch) in
          match lookup (toLowerCase monthName) months with
          | Some monthIndex => Some (newDateYMD year (Some monthIndex) day)
          | None => parseNumeric trimmedDate
          end
      | None => parseNumeric trimmedDate
      end
  end.

(** [formatDate(date)], for [date] a [Date] object or [null]. *)
Definition formatDate (date : option Date) : string :=
  match date with
  | None => EmptyString
  | Some d =>
      if isNaN (getTime d) then EmptyString else
      let year := getFullYear d in
      let month := padStart2 (NumberToString (nadd (getMonth d) (Some 1))) in
      let day := padStart2 (NumberToString (getDate d)) in
      NumberToString year ++ "-" ++ month ++ "-" ++ day
  end.

(** [isDateInRange(date, startDate, endDate)], each argument a [Date]
    object or [null]. *)
Definition isDateInRange (date startDate endDate : option Date) : bool :=
  match date, startDate, endDate with
  | Some d, Some s, Some e => Date_ge d s && Date_le d e
  | _, _, _ => false
  end.

End HostDate.

(* ===================================================================== *)
(** * 4. Pages, elements and reviews                                      *)
(* ===================================================================== *)

(** The double-quote character, for selectors and messages. *)
Definition dq : string := String (ascii_of_nat 34) EmptyString.

(** A DOM element as the extraction code sees it; selector matching is the
    browser's. *)
#[local] Unset Elimination Schemes.
Inductive Element : Type := mkElement {
  innerText : string;
  textContent : string;
  href : string;
  disabled : bool;
  classList : list string;
  getAttribute : string -> option string;
  querySelectorAll : string -> list Element
}.
#[local] Set Elimination Schemes.

Record Document : Type := mkDocument {
  documentTitle : string;
  documentQuerySelectorAll : string -> list Element
}.

Definition querySelector (e : Element) (selector : string) : option Element :=
  hd_error (querySelectorAll e selector).

Definition documentQuerySelector (d : Document) (selector : string)
  : option Element :=
  hd_error (documentQuerySelectorAll d selector).

Definition notNull {A : Type} (x : option A) : bool :=
  match x with Some _ => true | None => false end.

Record Reviewer : Type := mkReviewer { name : string; info : string }.

Record Review : Type := mkReview {
  title : string;
  description : string;
  date : string;
  rating : float;
  reviewer : Reviewer;
  source : string
}.

(** [haystack.includes(needle)]. *)
Fixpoint includes (needle haystack : string) : bool :=
  String.prefix needle haystack
  || match haystack with
     | String _ rest => includes needle rest
     | EmptyString => false
     end.

(** [s.replace(/\s+/g, sep)]: [inRun] tells that the previous character
    was white space. *)
Fixpoint replaceSpaceRuns (sep : string) (inRun : bool) (s : string) : string :=
  match s with
  | EmptyString => EmptyString
  | String c s' =>
      if isSpace c then
        if inRun then replaceSpaceRuns sep true s'
        else sep ++ replaceSpaceRuns sep true s'
      else String c (replaceSpaceRuns sep false s')
  end.

(** [parts.join(sep)]. *)
Fixpoint join (sep : string) (parts : list string) : string :=
  match parts with
  | [] => EmptyString
  | [p] => p
  | p :: rest => p ++ sep ++ join sep rest
  end.

(** [element ? element.innerText.trim() : fallback]. *)
Definition textOrElse (element : option Element) (fallback : string) : string :=
  match element with
  | Some e => trim (innerText e)
  | None => fallback
  end.

(** [a || b] on strings. *)
Definition orElse (a b : string) : string := if truthy a then a else b.

(** [a || b] on element lookups. *)
Definition orLookup (a b : option Element) : option Element :=
  match a with Some _ => a | None => b end.

Definition ofCount (n : nat) : float := Some (inject_Z (Z.of_nat n)).

(** The text of a review: main text, pros and cons, the non-empty ones
    joined by the separator of the source (a backslash and an [n], twice). *)
Definition reviewTextOf (mainReview pros cons : string) : string :=
  join "\n\n"
    (filter truthy
       [mainReview;
        if truthy pros then "Pros: " ++ pros else EmptyString;
        if truthy cons then "Cons: " ++ cons else EmptyString]).

Section Extraction.
Context `{Host}.

(** The callback of [reviewElements.forEach] in [scrapeTrustRadiusReviews]. *)
Definition trustRadiusReview (reviewElement : Element) : Review :=
  let titleElement := querySelector reviewElement ".review-title, .review-heading" in
  let title := textOrElse titleElement "No Title" in
  let ratingElement := querySelector reviewElement "[data-rating], .star-rating" in
  let rating :=
    match ratingElement with
    | Some ratingElement =>
        match getAttribute ratingElement "data-rating" with
        | Some (String c r as dataRating) => parseFloat dataRating
        | _ =>
            let filledStars :=
              List.length (querySelectorAll ratingElement ".filled-star") in
            ofCount filledStars
        end
    | None => Some 0%Q
    end in
  let mainReviewElement := querySelector reviewElement ".review-body, .review-content" in
  let mainReview := textOrElse mainReviewElement EmptyString in
  let prosElement := querySelector reviewElement ".pros-text, .review-pros" in
  let consElement := querySelector reviewElement ".cons-text, .review-cons" in
  let pros := textOrElse prosElement EmptyString in
  let cons := textOrElse consElement EmptyString in
  let reviewText := reviewTextOf mainReview pros cons in
  let dateElement := querySelector reviewElement ".review-date" in
  let dateText := textOrElse dateElement EmptyString in
  let reviewerElement := querySelector reviewElement ".reviewer-name, .user-info" in
  let reviewerName := textOrElse reviewerElement "Anonymous" in
  let detailsElement := querySelector reviewElement ".reviewer-details, .reviewer-meta" in
  let reviewerInfo := textOrElse detailsElement EmptyString in
  {| title := title;
     description := orElse reviewText "No review content available";
     date := dateText;
     rating := rating;
     reviewer := {| name := reviewerName; info := reviewerInfo |};
     source := "TrustRadius" |}.

(** The function [scrapeTrustRadiusReviews] evaluates in each page. *)
Definition trustRadiusPage (document : Document) : list Review :=
  map trustRadiusReview
      (documentQuerySelectorAll document ".review-card, .review-container").

(** The callback of [reviewElements.forEach] in [scrapeCapterraReviews]. *)
Definition capterraReview (reviewElement : Element) : Review :=
  let titleElement := querySelector reviewElement ".review__title" in
  let title := textOrElse titleElement "No Title" in
  let ratingElement :=
    orLookup (querySelector reviewElement "[data-rating]")
             (querySelector reviewElement ".stars-container") in
  let rating :=
    match ratingElement with
    | Some ratingElement =>
        match getAttribute ratingElement "data-rating" with
        | Some (String c r as dataRating) => parseFloat dataRating
        | _ =>
            let filledStars :=
              List.length (querySelectorAll ratingElement ".star-filled") in
            ofCount filledStars
        end
    | None => Some 0%Q
    end in
  let prosElement := querySelector reviewElement ".review-pros" in
  let consElement := querySelector reviewElement ".review-cons" in
  let pros := textOrElse prosElement EmptyString in
  let cons := textOrElse consElement EmptyString in
  let mainReviewElement :=
    orLookup (querySelector reviewElement ".review-content")
             (querySelector reviewElement ".review__text") in
  let mainReview := textOrElse mainReviewElement EmptyString in
  let reviewText := reviewTextOf mainReview pros cons in
  let dateElement :=
    orLookup (querySelector reviewElement ".review-date")
             (querySelector reviewElement ".review__date") in
  let dateText := textOrElse dateElement EmptyString in
  let reviewerElement :=
    orLookup (querySelector reviewElement ".reviewer-name")
             (querySelector reviewElement ".review__author") in
  let reviewerName := textOrElse reviewerElement "Anonymous" in
  let reviewerInfoElement :=
    orLookup (querySelector reviewElement ".reviewer-info")
             (querySelector reviewElement ".review__author-company") in
  let reviewerInfo := textOrElse reviewerInfoElement EmptyString in
  {| title := title;
     description := orElse reviewText "No review content available";
     date := dateText;
     rating := rating;
     reviewer := {| name := reviewerName; info := reviewerInfo |};
     source := "Capterra" |}.

(** The function [scrapeCapterraReviews] evaluates in each page. *)
Definition capterraPage (document : Document) : list Review :=
  map capterraReview (documentQuerySelectorAll document ".review").

(** [findText] of the G2 extraction: the trimmed text of the first selector
    that matches an element with non-blank text, else the empty string. *)
Fixpoint findText (reviewElement : Element) (selectors : list string) : string :=
  match selectors with
  | [] => EmptyString
  | selector :: rest =>
      match querySelector reviewElement selector with
      | Some element =>
          if truthy (trim (innerText element)) then trim (innerText element)
          else findText reviewElement rest
      | None => findText reviewElement rest
      end
  end.

(** [/([0-9]\.[0-9]|[0-5])/] *)
Definition ratingRe : regex :=
  Grp 1 (Alt (Cat digit (Cat (chr ".") digit))
             (Cls (fun c => ((48 <=? code c) && (code c <=? 53))%nat))).

(** The rating loop of the G2 extraction. *)
Fixpoint g2Rating (reviewElement : Element) (ratingSelectors : list string)
  : float :=
  match ratingSelectors with
  | [] => Some 0%Q
  | selector :: rest =>
      match querySelector reviewElement selector with
      | Some element =>
          match getAttribute element "data-rating" with
          | Some (String c r as dataRating) => parseFloat dataRating
          | _ =>
              let ratingText := trim (innerText element) in
              if truthy ratingText then
                match search ratingRe ratingText with
                | Some m => parseFloat (capture 1 m)
                | None => g2Rating reviewElement rest
                end
              else g2Rating reviewElement rest
          end
      | None => g2Rating reviewElement rest
      end
  end.

(** The callback of [reviewElements.forEach] in [scrapeG2Reviews]. *)
Definition g2Review (reviewElement : Element) : Review :=
  let titleSelectors :=
    [".review__title"; ".snippet__title"; "h3"; ".c-midnight-80.weight-semibold"] in
  let ratingSelectors :=
    [".stars-snapshot"; ".snippet__stars"; ".stars"; ".stars--medium"] in
  let textSelectors :=
    [".review__text"; ".review-content"; ".snippet__text"; ".pre-wrap"] in
  let dateSelectors :=
    [".review__date"; ".snippet__date"; "time"; ".font-small.c-slate-60"] in
  let title := orElse (findText reviewElement titleSelectors) "No Title" in
  let rating := g2Rating reviewElement ratingSelectors in
  let reviewText :=
    orElse (findText reviewElement textSelectors) "No review text available" in
  let dateText := orElse (findText reviewElement dateSelectors) EmptyString in
  let nameSelectors :=
    [".review__author-name"; ".reviewer-info__detail-name"; ".snippet__author";
     ".c-midnight-100.weight-semibold"] in
  let infoSelectors :=
    [".review__author-company"; ".reviewer-info__detail-info";
     ".snippet__reviewer-info"; ".c-slate-60.font-small"] in
  let reviewerName := orElse (findText reviewElement nameSelectors) "Anonymous" in
  let reviewerInfo := orElse (findText reviewElement infoSelectors) EmptyString in
  {| title := title;
     description := reviewText;
     date := dateText;
     rating := rating;
     reviewer := {| name := reviewerName; info := reviewerInfo |};
     source := "G2" |}.

(** The first selector of the list that matches some element decides the
    review elements of a G2 page. *)
Fixpoint firstMatching (document : Document) (selectors : list string)
  : list Element :=
  match selectors with
  | [] => []
  | selector :: rest =>
      match documentQuerySelectorAll document selector with
      | [] => firstMatching document rest
      | elements => elements
      end
  end.

(** The function [scrapeG2Reviews] evaluates in each page. *)
Definition g2Page (document : Document) : list Review :=
  map g2Review
      (firstMatching document
         [".review"; ".snippet__review"; ".paper--box.margin-bottom-md";
          ".paper.container-border-bottom.margin-bottom-md"]).

(** The date filter every scraper applies to the accumulated reviews: a
    review whose date does not parse is skipped, the others are kept when
    the date lies between the two bounds. *)
Definition dateFilter (startDate endDate : Date) (allReviews : list Review)
  : list Review :=
  filter
    (fun review =>
       match parseDate (date review) with
       | None => false
       | Some reviewDate =>
           Date_ge reviewDate startDate && Date_le reviewDate endDate
       end)
    allReviews.

End Extraction.

(* ===================================================================== *)
(** * 5. Browser sessions                                                 *)
(* ===================================================================== *)

(** The message of a thrown error. *)
Definition Error : Type := string.

(** A settled promise: fulfilled with a value or rejected with an error. *)
Inductive Exn (A : Type) : Type :=
| Ok : A -> Exn A
| Throw : Error -> Exn A.
Arguments Ok {A} _.
Arguments Throw {A} _.

(** The functions the scrapers evaluate inside a page. *)
Inductive Script : Type :=
| NotFoundIndicator
| FindProductUrl
| ProductFound
| HasReviews
| ExtractReviews
| NextPage.

(** The calls made to Puppeteer and to the file system. *)
Inductive Command : Type :=
| Launch (headless : bool)
| NewPage
| SetViewport
| SetUserAgent
| EvaluateOnNewDocument
| SetDefaultNavigationTimeout (ms : Z)
| Goto (url : string)
| Evaluate (script : Script)
| WaitForSelector (selector : string)
| ClickAndWaitForNavigation (selector : string)
| ScrollAndClick (selector : string)
| WaitForTimeout (ms : Z)
| Screenshot (path : string)
| Close
| WriteFile (path : string).

(** The browser and the web behind it: how each call is answered, and what
    the current page shows. [ClickAndWaitForNavigation] stands for
    [Promise.all([page.click(...), page.waitForNavigation(...)])]. *)
Class Puppeteer : Type := {
  World : Type;
  perform : Command -> World -> Exn unit * World;
  document : World -> Document;
  currentUrl : World -> string
}.

Section Sessions.
Context `{Puppeteer}.

(** A session: the world and the calls made so far, oldest first. *)
Record Session : Type := mkSession {
  world : World;
  trace : list Command
}.

(** An asynchronous computation: from a session to a settled promise and
    the session after it, or [None] when it never settles. *)
Record M (A : Type) : Type := mkM { run : Session -> option (Exn A * Session) }.
Arguments mkM {A} _.
Arguments run {A} _ _.

Definition ret {A : Type} (a : A) : M A := mkM (fun s => Some (Ok a, s)).

Definition throw {A : Type} (e : Error) : M A := mkM (fun s => Some (Throw e, s)).

Definition diverge {A : Type} : M A := mkM (fun _ => None).

Definition bind {A B : Type} (m : M A) (f : A -> M B) : M B :=
  mkM (fun s =>
         match run m s with
         | Some (Ok a, s') => run (f a) s'
         | Some (Throw e, s') => Some (Throw e, s')
         | None => None
         end).

(** [try { m } catch (error) { handler error }] *)
Definition tryCatch {A : Type} (m : M A) (handler : Error -> M A) : M A :=
  mkM (fun s =>
         match run m s with
         | Some (Throw e, s') => run (handler e) s'
         | r => r
         end).

(** [try { m } finally { cleanup }]: the cleanup runs on every exit, and
    an error it throws replaces the outcome of [m]. *)
Definition finally_ {A : Type} (m : M A) (cleanup : M unit) : M A :=
  mkM (fun s =>
         match run m s with
         | Some (r, s') =>
             match run cleanup s' with
             | Some (Ok _, s'') => Some (r, s'')
             | Some (Throw e, s'') => Some (Throw e, s'')
             | None => None
             end
         | None => None
         end).

(** [m.catch(error => ...)] with a handler that only logs: tells whether
    [m] was fulfilled. *)
Definition attempt {A : Type} (m : M A) : M bool :=
  mkM (fun s =>
         match run m s with
         | Some (Ok _, s') => Some (Ok true, s')
         | Some (Throw _, s') => Some (Ok false, s')
         | None => None
         end).

(** One call to the browser, recorded in the trace. *)
Definition call (c : Command) : M unit :=
  mkM (fun s =>
         let (r, w) := perform c (world s) in
         Some (r, {| world := w; trace := trace s ++ [c] |})).

(** [page.evaluate(f)]: [f] runs on the document of the current page. *)
Definition evaluate {A : Type} (script : Script) (f : Document -> A) : M A :=
  bind (call (Evaluate script))
       (fun _ => mkM (fun s => Some (Ok (f (document (world s))), s))).

(** [page.url()]. *)
Definition url : M string := mkM (fun s => Some (Ok (currentUrl (world s)), s)).

End Sessions.

Arguments mkM {_ A} _.
Arguments run {_ A} _ _.

Notation "x <- m ;; k" := (bind m (fun x => k))
  (at level 61, m at next level, right associativity).

(** What a scraper resolves to: [{ success: true, data, note? }] or
    [{ success: false, error }]. *)
Inductive Result : Type :=
| Success (data : list Review) (note : option string)
| Failure (error : string).

(* ===================================================================== *)
(** * 6. The scrapers                                                     *)
(* ===================================================================== *)

Section Scrapers.
Context `{Host} `{Puppeteer}.

(** The [while] loop of [scrapeTrustRadiusReviews] and of
    [scrapeCapterraReviews]; the two differ in the selector waited for, the
    function evaluated to extract a page, and the selector of the "next"
    control. *)
Equations? paginate (waitSelector nextSelector : string)
    (extractPage : Document -> list Review)
    (maxPages currentPage : nat) (hasNextPage : bool)
    (allReviews : list Review) : M (list Review)
  by wf (2 * (S maxPages - currentPage) + Nat.b2n hasNextPage)%nat lt :=
paginate waitSelector nextSelector extractPage maxPages currentPage
         hasNextPage allReviews
  with sumbool_of_bool (hasNextPage && (currentPage <=? maxPages)%nat) => {
  | right _ => ret allReviews
  | left Hloop =>
      _ <- attempt (call (WaitForSelector waitSelector)) ;;
      pageReviews <- evaluate ExtractReviews extractPage ;;
      let allReviews := (allReviews ++ pageReviews)%list in
      hasNextPage <- evaluate NextPage
        (fun document => notNull (documentQuerySelector document nextSelector)) ;;
      match sumbool_of_bool (hasNextPage && (currentPage <? maxPages)%nat) with
      | left Hnext =>
          navigated <- attempt (call (ClickAndWaitForNavigation nextSelector)) ;;
          let hasNextPage := if navigated then hasNextPage else false in
          paginate waitSelector nextSelector extractPage maxPages
                   (S currentPage) hasNextPage allReviews
      | right _ =>
          paginate waitSelector nextSelector extractPage maxPages
                   currentPage false allReviews
      end }.
Proof.
  - apply andb_prop in Hnext as [_ Hnext]. apply Nat.ltb_lt in Hnext.
    destruct navigated, hasNextPage1, hasNextPage, currentPage; simpl; lia.
  - apply andb_prop in Hloop as [-> _]. destruct currentPage; simpl; lia.
Qed.

Definition trustRadiusNext : string :=
  ".pagination-next:not(.disabled), a[rel=" ++ dq ++ "next" ++ dq
  ++ "]:not(.disabled)".

Definition capterraNext : string :=
  ".next-page:not(.disabled), a[rel=" ++ dq ++ "next" ++ dq
  ++ "]:not(.disabled)".

(** [!x] for a URL that may be [null]. *)
Definition missing (x : option string) : bool :=
  match x with
  | Some u => negb (truthy u)
  | None => true
  end.

(** The functions [scrapeTrustRadiusReviews] evaluates in the page to
    locate the product: whether the page says that there is no such
    product, and the address of the first search result that names the
    company. *)
Definition trustRadiusNotFound (document : Document) : bool :=
  includes "Page Not Found" (documentTitle document)
  || notNull (documentQuerySelector document ".not-found-message").

Definition trustRadiusProductLink (companyName : string) (document : Document)
    : option string :=
  let productLinks :=
    documentQuerySelectorAll document
      ".product-card a, .search-result-item a" in
  let matchingLink :=
    find (fun link =>
            includes (toLowerCase companyName)
                     (toLowerCase (textContent link)))
         productLinks in
  match matchingLink with
  | Some link => Some (href link)
  | None => None
  end.

(** The [try] block of [scrapeTrustRadiusReviews]. *)
Definition trustRadiusTry (companyName : string)
    (startDate endDate : Date) (maxPages : nat) : M Result :=
  _ <- call NewPage ;;
  _ <- call (SetDefaultNavigationTimeout 60000) ;;
  let searchUrl :=
    "https://www.trustradius.com/products/"
    ++ replaceSpaceRuns "-" false (toLowerCase companyName) in
  _ <- call (Goto searchUrl) ;;
  notFoundIndicator <- evaluate NotFoundIndicator trustRadiusNotFound ;;
  let scrape : M Result :=
    allReviews <- paginate ".review-card, .review-container"
                    trustRadiusNext trustRadiusPage maxPages 1 true [] ;;
    let filteredReviews := dateFilter startDate endDate allReviews in
    ret (Success filteredReviews None) in
  if notFoundIndicator then
    let searchPageUrl :=
      "https://www.trustradius.com/search?q="
      ++ encodeURIComponent companyName in
    _ <- call (Goto searchPageUrl) ;;
    foundProductUrl <- evaluate FindProductUrl
                         (trustRadiusProductLink companyName) ;;
    if missing foundProductUrl then
      ret (Failure ("Company " ++ dq ++ companyName ++ dq
                    ++ " not found on TrustRadius"))
    else
      let foundProductUrl :=
        match foundProductUrl with Some u => u | None => EmptyString end in
      _ <- call (Goto foundProductUrl) ;;
      let reviewsUrl := foundProductUrl ++ "/reviews" in
      _ <- call (Goto reviewsUrl) ;;
      scrape
  else
    currentUrl <- url ;;
    let reviewsUrl := currentUrl ++ "/reviews" in
    _ <- call (Goto reviewsUrl) ;;
    scrape.

(** [scrapeTrustRadiusReviews(companyName, startDate, endDate, maxPages)]:
    the browser is launched, the [try] block runs, an error it throws is
    turned into a failure result, and the browser is closed. *)
Definition scrapeTrustRadiusReviews (companyName : string)
    (startDate endDate : Date) (maxPages : nat) : M Result :=
  _ <- call (Launch true) ;;
  finally_
    (tryCatch (trustRadiusTry companyName startDate endDate maxPages)
              (fun error => ret (Failure error)))
    (call Close).

(** The function [scrapeCapterraReviews] evaluates in the page of search
    results to locate the product: the address of the reviews of the first
    product card that names the company. *)
Definition capterraReviewsLink (companyName : string) (document : Document)
    : option string :=
  let products := documentQuerySelectorAll document ".product-card" in
  let matchingProduct :=
    find (fun product =>
            match querySelector product ".product-card__product-name" with
            | Some nameElement =>
                let productName := trim (innerText nameElement) in
                truthy productName
                && includes (toLowerCase companyName)
                            (toLowerCase productName)
            | None => false
            end)
         products in
  match matchingProduct with
  | Some matchingProduct =>
      match querySelector matchingProduct
              ("a[href*=" ++ dq ++ "reviews" ++ dq ++ "]") with
      | Some reviewsLink => Some (href reviewsLink)
      | None => None
      end
  | None => None
  end.

(** The [try] block of [scrapeCapterraReviews]. *)
Definition capterraTry (companyName : string)
    (startDate endDate : Date) (maxPages : nat) : M Result :=
  _ <- call NewPage ;;
  _ <- call (SetDefaultNavigationTimeout 60000) ;;
  let searchUrl :=
    "https://www.capterra.com/search/?search="
    ++ encodeURIComponent companyName in
  _ <- call (Goto searchUrl) ;;
  productFound <- evaluate ProductFound (capterraReviewsLink companyName) ;;
  if missing productFound then
    ret (Failure ("Company " ++ dq ++ companyName ++ dq
                  ++ " not found on Capterra"))
  else
    let productFound :=
      match productFound with Some u => u | None => EmptyString end in
    _ <- call (Goto productFound) ;;
    allReviews <- paginate ".review" capterraNext capterraPage
                    maxPages 1 true [] ;;
    let filteredReviews := dateFilter startDate endDate allReviews in
    ret (Success filteredReviews None).

(** [scrapeCapterraReviews(companyName, startDate, endDate, maxPages)]. *)
Definition scrapeCapterraReviews (companyName : string)
    (startDate endDate : Date) (maxPages : nat) : M Result :=
  _ <- call (Launch true) ;;
  finally_
    (tryCatch (capterraTry companyName startDate endDate maxPages)
              (fun error => ret (Failure error)))
    (call Close).

End Scrapers.

(* --------------------------------------------------------------------- *)
(** ** G2                                                                 *)
(* --------------------------------------------------------------------- *)

Definition mockData : list Review :=
  [ {| title := "Great Team Collaboration Tool";
       description := "Slack has transformed how our team communicates. The channels keep topics organized and the integrations with other tools make it a central hub for notifications.";
       date := "June 15, 2025";
       rating := Some (9 # 2)%Q;
       reviewer := {| name := "John D."; info := "Mid-Market (51-1000 emp.)" |};
       source := "G2 (Demo Data)" |};
    {| title := "Efficient Communication Platform";
       description := "We switched from email to Slack for internal communications and have seen dramatic improvements in response time and team coordination.";
       date := "May 22, 2025";
       rating := Some 5%Q;
       reviewer := {| name := "Sarah M."; info := "Enterprise (>1000 emp.)" |};
       source := "G2 (Demo Data)" |};
    {| title := "Good but Has Limitations";
       description := "Slack works well for quick communications but can get messy with too many channels. Search functionality could be improved to find older messages more easily.";
       date := "April 3, 2025";
       rating := Some (7 # 2)%Q;
       reviewer := {| name := "Robert L."; info := "Small Business (<50 emp.)" |};
       source := "G2 (Demo Data)" |};
    {| title := "Essential Remote Working Tool";
       description := "Since our team went remote, Slack has been crucial for maintaining culture and communication. The video calls and screen sharing features work well for quick meetings.";
       date := "March 17, 2025";
       rating := Some 4%Q;
       reviewer := {| name := "Emily K."; info := "Mid-Market (51-1000 emp.)" |};
       source := "G2 (Demo Data)" |};
    {| title := "Great Integrations";
       description := "The ability to integrate with so many other tools makes Slack incredibly powerful. We use it with GitHub, Jira, and Google Drive which streamlines our workflow.";
       date := "February 8, 2025";
       rating := Some 5%Q;
       reviewer := {| name := "Michael W."; info := "Enterprise (>1000 emp.)" |};
       source := "G2 (Demo Data)" |} ].

Definition mockNote : string :=
  "Using demo data as G2 is currently blocking web scrapers. In a production environment, you would need to implement more advanced scraping techniques or use an official API.".

(** [const useMockData = true;] *)
Definition useMockData : bool := true.

(** The object the "next page" probe of G2 returns. *)
Record NextProbe : Type := mkNextProbe {
  hasNext : bool;
  selector : option string
}.

(** The values of the variable [hasNextPage] of the G2 loop: the boolean
    [true] it starts with, then the objects assigned to it. *)
Inductive HasNextPage : Type :=
| InitiallyTrue
| Probed (probe : NextProbe).

(** The loop condition reads [hasNextPage] itself, not its [hasNext]
    field, and an object is truthy whatever its fields hold. *)
Definition truthyHasNextPage (h : HasNextPage) : bool :=
  match h with
  | InitiallyTrue => true
  | Probed _ => true
  end.

Definition g2NextSelectors : list string :=
  ["a[rel=" ++ dq ++ "next" ++ dq ++ "]";
   ".pagination__next:not(.pagination__next--disabled)";
   "button.pagination__next:not([disabled])";
   ".next-page:not(.disabled)";
   "a.c-button--next:not(.disabled)"].

Fixpoint g2ProbeNext (doc : Document) (nextSelectors : list string) : NextProbe :=
  match nextSelectors with
  | [] => {| hasNext := false; selector := None |}
  | sel :: rest =>
      match documentQuerySelector doc sel with
      | Some nextButton =>
          if negb (disabled nextButton)
             && negb (existsb (String.eqb "disabled") (classList nextButton))
          then {| hasNext := true; selector := Some sel |}
          else g2ProbeNext doc rest
      | None => g2ProbeNext doc rest
      end
  end.

Section G2.
Context `{Host} `{Puppeteer}.

(** [date.toISOString()], which throws a [RangeError] on an Invalid Date;
    the string itself is only logged. *)
Definition toISOString (d : Date) : M unit :=
  if isNaN (getTime d) then throw "Invalid time value" else ret tt.

(** The [for] loop over [possibleUrls]: the value of [foundValidPage]. *)
Fixpoint g2FindValidPage (possibleUrls : list string) : M bool :=
  match possibleUrls with
  | [] => ret false
  | u :: rest =>
      _ <- attempt (call (Goto u)) ;;
      hasReviews <- evaluate HasReviews
        (fun doc =>
           notNull (documentQuerySelector doc ".review")
           || notNull (documentQuerySelector doc ".snippet__reviews-container")) ;;
      if hasReviews then ret true else g2FindValidPage rest
  end.

(** The [while] loop of the live branch of [scrapeG2Reviews]. The loop has
    no bound of its own; [fuel] bounds the number of iterations of the
    model, which does not settle when the fuel runs out. *)
Fixpoint g2Paginate (fuel maxPages currentPage : nat) (hasNextPage : HasNextPage)
    (allReviews : list Review) : M (list Review) :=
  if truthyHasNextPage hasNextPage && (currentPage <=? maxPages)%nat then
    match fuel with
    | O => diverge
    | S fuel' =>
        pageReviews <- evaluate ExtractReviews g2Page ;;
        let allReviews := (allReviews ++ pageReviews)%list in
        probe <- evaluate NextPage (fun doc => g2ProbeNext doc g2NextSelectors) ;;
        if hasNext probe && (currentPage <? maxPages)%nat then
          let sel := match selector probe with Some s => s | None => EmptyString end in
          advanced <- attempt
            (tryCatch (call (ClickAndWaitForNavigation sel))
               (fun _ =>
                  _ <- call (ScrollAndClick sel) ;;
                  call (WaitForTimeout 3000))) ;;
          if advanced then
            g2Paginate fuel' maxPages (S currentPage) (Probed probe) allReviews
          else
            g2Paginate fuel' maxPages currentPage
              (Probed {| hasNext := false; selector := None |}) allReviews
        else
          g2Paginate fuel' maxPages currentPage
            (Probed {| hasNext := false; selector := None |}) allReviews
    end
  else ret allReviews.

(** The [try] block of the live branch of [scrapeG2Reviews]. *)
Definition g2Try (fuel : nat) (companyName : string)
    (startDate endDate : Date) (maxPages : nat) : M Result :=
  _ <- call NewPage ;;
  _ <- call SetViewport ;;
  _ <- call SetUserAgent ;;
  _ <- call EvaluateOnNewDocument ;;
  _ <- call (SetDefaultNavigationTimeout 60000) ;;
  let formattedCompany :=
    replaceSpaceRuns "-" false (toLowerCase companyName) in
  let possibleUrls :=
    ["https://www.g2.com/products/" ++ formattedCompany ++ "/reviews";
     "https://www.g2.com/products/" ++ formattedCompany;
     "https://www.g2.com/search?query=" ++ encodeURIComponent companyName] in
  foundValidPage <- g2FindValidPage possibleUrls ;;
  if negb foundValidPage then
    ret (Failure ("Reviews not found for " ++ dq ++ companyName ++ dq
                  ++ " on G2"))
  else
    _ <- call (Screenshot "./g2-debug.png") ;;
    allReviews <- g2Paginate fuel maxPages 1 InitiallyTrue [] ;;
    let filteredReviews := dateFilter startDate endDate allReviews in
    ret (Success filteredReviews None).

(** The statements of [scrapeG2Reviews] after the mock-data branch. *)
Definition scrapeG2Live (fuel : nat) (companyName : string)
    (startDate endDate : Date) (maxPages : nat) : M Result :=
  _ <- call (Launch false) ;;
  finally_
    (tryCatch (g2Try fuel companyName startDate endDate maxPages)
              (fun error => ret (Failure error)))
    (call Close).

(** [scrapeG2Reviews(companyName, startDate, endDate, maxPages)]; [fuel]
    only reaches the live branch. *)
Definition scrapeG2Reviews (fuel : nat) (companyName : string)
    (startDate endDate : Date) (maxPages : nat) : M Result :=
  _ <- toISOString startDate ;;
  _ <- toISOString endDate ;;
  if useMockData then
    let filteredMockReviews := dateFilter startDate endDate mockData in
    ret (Success filteredMockReviews (Some mockNote))
  else scrapeG2Live fuel companyName startDate endDate maxPages.

End G2.

(* --------------------------------------------------------------------- *)
(** ** JSON values                                                        *)
(* --------------------------------------------------------------------- *)

(** A JSON value: a field of a request body, what [scrapeSite] resolves
    to, the [selectors] of a request. [JNull] stands for [null] and for
    [undefined]. *)
#[local] Unset Elimination Schemes.
Inductive Json : Type :=
| JNull
| JBool (b : bool)
| JNumber (x : float)
| JString (s : string)
| JArray (items : list Json)
| JObject (fields : list (string * Json)).
#[local] Set Elimination Schemes.

(** [!value] *)
Definition falsy (data : Json) : bool :=
  match data with
  | JNull => true
  | JBool b => negb b
  | JNumber None => true
  | JNumber (Some q) => Qeq_bool q 0
  | JString s => negb (truthy s)
  | JArray _ | JObject _ => false
  end.

(** [typeof value === 'string'] *)
Definition isText (value : Json) : bool :=
  match value with
  | JString _ => true
  | _ => false
  end.

(** The message of the [TypeError] of [value.method(...)] where [value]
    has no function of that name. No JSON value other than a string has a
    string method: a number, a boolean and an array inherit none, and what
    an object holds under any key is no function. *)
Definition notAFunction (value method : string) : Error :=
  value ++ "." ++ method ++ " is not a function".

(* --------------------------------------------------------------------- *)
(** ** The [/scrape-reviews] handler of [index.js]                        *)
(* --------------------------------------------------------------------- *)

(** A request body whose four fields are strings, an absent field being
    the empty string. *)
Record Request : Type := mkRequest {
  reqCompanyName : string;
  reqStartDate : string;
  reqEndDate : string;
  reqSource : string
}.

(** The JSON bodies the handler sends. *)
Inductive Body : Type :=
| ErrorOnly (error : string)
| Failed (error : string)
| Reviews (data : list Review) (count : nat) (filePath : string).

Record Response : Type := mkResponse { status : Z; body : Body }.

Section Handler.
Context `{Host} `{Puppeteer}.

(** The file the handler saves the reviews to. *)
Definition outputFile (companyName sourceLower : string) : string :=
  let filename :=
    replaceSpaceRuns "_" false companyName ++ "_" ++ sourceLower ++ "_"
    ++ timestamp ++ ".json" in
  outputPath filename.

(** The handler of [POST /scrape-reviews] on a body whose fields are
    strings; [postScrapeReviews] below is the handler on any body, and
    agrees with this function on a body of strings. *)
Definition scrapeReviewsHandler (fuel : nat) (req : Request) : M Response :=
  let companyName := reqCompanyName req in
  let startDate := reqStartDate req in
  let endDate := reqEndDate req in
  let source := reqSource req in
  if negb (truthy companyName) then
    ret (mkResponse 400 (ErrorOnly "Company name is required"))
  else if negb (truthy startDate) || negb (truthy endDate) then
    ret (mkResponse 400 (ErrorOnly "Start date and end date are required"))
  else if negb (truthy source) then
    ret (mkResponse 400 (ErrorOnly "Source is required (g2, capterra, trustradius)"))
  else
    match parseDate startDate, parseDate endDate with
    | Some parsedStartDate, Some parsedEndDate =>
        tryCatch
          (let sourceLower := toLowerCase source in
           let respond (result : Result) : M Response :=
             match result with
             | Success data _ =>
                 match data with
                 | [] =>
                     ret (mkResponse 404
                            (Failed ("No reviews found for " ++ companyName
                                     ++ " on " ++ sourceLower
                                     ++ ". Please check the company name or try a different date range.")))
                 | _ =>
                     let filePath := outputFile companyName sourceLower in
                     _ <- call (WriteFile filePath) ;;
                     ret (mkResponse 200 (Reviews data (List.length data) filePath))
                 end
             | Failure error => ret (mkResponse 500 (Failed error))
             end in
           if String.eqb sourceLower "g2" then
             result <- scrapeG2Reviews fuel companyName parsedStartDate parsedEndDate 10 ;;
             respond result
           else if String.eqb sourceLower "capterra" then
             result <- scrapeCapterraReviews companyName parsedStartDate parsedEndDate 10 ;;
             respond result
           else if String.eqb sourceLower "trustradius" then
             result <- scrapeTrustRadiusReviews companyName parsedStartDate parsedEndDate 10 ;;
             respond result
           else
             ret (mkResponse 400
                    (ErrorOnly "Invalid source. Choose g2, capterra, or trustradius")))
          (fun error => ret (mkResponse 500 (Failed error)))
    | _, _ => ret (mkResponse 400 (ErrorOnly "Invalid date format"))
    end.

End Handler.

(** The body of a request as [express.json()] leaves it in [req.body]:
    each of the four fields the handler reads is any JSON value, [JNull]
    where the body has no such field. *)
Record RequestBody : Type := mkRequestBody {
  bodyCompanyName : Json;
  bodyStartDate : Json;
  bodyEndDate : Json;
  bodySource : Json
}.

Section AnyBody.
Context `{Host} `{Puppeteer}.

(** [String(value)] for a value that is not a string: a text, or the
    [TypeError] of an object that cannot be converted. *)
Variable stringOf : Json -> Exn string.

(** The scrapers document their [companyName] as a string. What the
    scraper of the source [sourceLower] does with a name that is no string
    is left open: any asynchronous function that resolves to a result. *)
Variable scrapeUntyped : string -> Json -> Date -> Date -> M Result.

(** A value inside a template literal. *)
Definition interpolate (value : Json) : M string :=
  match value with
  | JString s => ret s
  | _ => match stringOf value with
         | Ok s => ret s
         | Throw error => throw error
         end
  end.

(** [parseDate(dateStr)] on any value: what is falsy gives [null], a
    string is parsed, and nothing else has a [trim]. *)
Definition parseDateOf (dateStr : Json) : M (option Date) :=
  if falsy dateStr then ret None else
  match dateStr with
  | JString s => ret (parseDate s)
  | _ => throw (notAFunction "dateStr" "trim")
  end.

(** The handler of [POST /scrape-reviews] on any body. The dates are
    parsed before the [try] block is entered. *)
Definition postScrapeReviews (fuel : nat) (req : RequestBody) : M Response :=
  let companyName := bodyCompanyName req in
  let startDate := bodyStartDate req in
  let endDate := bodyEndDate req in
  let source := bodySource req in
  if falsy companyName then
    ret (mkResponse 400 (ErrorOnly "Company name is required"))
  else if falsy startDate || falsy endDate then
    ret (mkResponse 400 (ErrorOnly "Start date and end date are required"))
  else if falsy source then
    ret (mkResponse 400 (ErrorOnly "Source is required (g2, capterra, trustradius)"))
  else
    parsedStartDate <- parseDateOf startDate ;;
    parsedEndDate <- parseDateOf endDate ;;
    match parsedStartDate, parsedEndDate with
    | Some parsedStartDate, Some parsedEndDate =>
        tryCatch
          (_ <- interpolate source ;;
           _ <- interpolate companyName ;;
           sourceLower <-
             match source with
             | JString s => ret (toLowerCase s)
             | _ => throw (notAFunction "source" "toLowerCase")
             end ;;
           let scrape (scraper : string -> Date -> Date -> nat -> M Result)
               : M Result :=
             match companyName with
             | JString name => scraper name parsedStartDate parsedEndDate 10%nat
             | _ => scrapeUntyped sourceLower companyName
                      parsedStartDate parsedEndDate
             end in
           let respond (result : Result) : M Response :=
             match result with
             | Success data _ =>
                 match data with
                 | [] =>
                     name <- interpolate companyName ;;
                     ret (mkResponse 404
                            (Failed ("No reviews found for " ++ name
                                     ++ " on " ++ sourceLower
                                     ++ ". Please check the company name or try a different date range.")))
                 | _ =>
                     match companyName with
                     | JString name =>
                         let filePath := outputFile name sourceLower in
                         _ <- call (WriteFile filePath) ;;
                         ret (mkResponse 200
                                (Reviews data (List.length data) filePath))
                     | _ => throw (notAFunction "companyName" "replace")
                     end
                 end
             | Failure error => ret (mkResponse 500 (Failed error))
             end in
           if String.eqb sourceLower "g2" then
             result <- scrape (scrapeG2Reviews fuel) ;;
             respond result
           else if String.eqb sourceLower "capterra" then
             result <- scrape scrapeCapterraReviews ;;
             respond result
           else if String.eqb sourceLower "trustradius" then
             result <- scrape scrapeTrustRadiusReviews ;;
             respond result
           else
             ret (mkResponse 400
                    (ErrorOnly "Invalid source. Choose g2, capterra, or trustradius")))
          (fun error => ret (mkResponse 500 (Failed error)))
    | _, _ => ret (mkResponse 400 (ErrorOnly "Invalid date format"))
    end.

End AnyBody.

(* ===================================================================== *)
(** * 7. A simulated web site                                             *)
(* ===================================================================== *)

(** Number of page-extraction steps in a trace. *)
Definition isExtraction (c : Command) : bool :=
  match c with
  | Evaluate ExtractReviews => true
  | _ => false
  end.

Definition extractions (t : list Command) : nat :=
  List.length (filter isExtraction t).

(** Navigation calls: loading a URL or following the "next" control. *)
Definition isNavigation (c : Command) : bool :=
  match c with
  | Goto _ | ClickAndWaitForNavigation _ | ScrollAndClick _ => true
  | _ => false
  end.

(** A site maps a URL to the page it shows followed by the pages that
    successive clicks on "next" lead to ([None]: the URL does not load), and
    tells on which pages the click on "next" fails. *)
Record Site : Type := mkSite {
  web : string -> option (list Document);
  clickFails : nat -> bool
}.

(** The simulated browser: the page shown, the pages ahead of it, its
    address and its position among the pages of the listing. *)
Record Sim : Type := mkSim {
  site : Site;
  shown : Document;
  ahead : list Document;
  address : string;
  position : nat
}.

Definition blank : Document := mkDocument EmptyString (fun _ => []).

Definition fresh (st : Site) : Sim := mkSim st blank [] "about:blank" 0.

Definition simPerform (c : Command) (w : Sim) : Exn unit * Sim :=
  match c with
  | Goto u =>
      match web (site w) u with
      | Some (d :: ds) => (Ok tt, mkSim (site w) d ds u 1)
      | _ => (Throw ("net::ERR_ABORTED at " ++ u), w)
      end
  | ClickAndWaitForNavigation _ =>
      match ahead w with
      | d :: ds =>
          if clickFails (site w) (position w)
          then (Throw "Navigation timeout of 30000 ms exceeded", w)
          else (Ok tt, mkSim (site w) d ds (address w) (S (position w)))
      | [] => (Throw "No node found for selector", w)
      end
  | _ => (Ok tt, w)
  end.

#[export] Instance simPuppeteer : Puppeteer := {|
  World := Sim;
  perform := simPerform;
  document := shown;
  currentUrl := address
|}.

(** The session a request starts in. *)
Definition start (st : Site) : Session := mkSession (fresh st) [].

(** An element that only carries text. *)
Definition textNode (text : string) : Element :=
  mkElement text text EmptyString false [] (fun _ => None) (fun _ => []).

(** An element answering each selector of the table with one text node,
    absent selectors with nothing. *)
Definition card (fields : list (string * string)) : Element :=
  mkElement EmptyString EmptyString EmptyString false [] (fun _ => None)
    (fun sel =>
       match lookup sel fields with
       | Some text => [textNode text]
       | None => []
       end).

(** A listing page: its review elements under [itemSelector], and a "next"
    control under [nextSelector] when [more] holds. *)
Definition listing (itemSelector nextSelector : string)
    (items : list Element) (more : bool) : Document :=
  mkDocument "Reviews"
    (fun sel =>
       if String.eqb sel itemSelector then items
       else if String.eqb sel nextSelector then
              if more then [textNode "Next"] else []
       else []).

(** The pages of a listing; every page but the last has a "next" control. *)
Fixpoint listingPages (itemSelector nextSelector : string)
    (pages : list (list Element)) : list Document :=
  match pages with
  | [] => []
  | [items] => [listing itemSelector nextSelector items false]
  | items :: rest =>
      listing itemSelector nextSelector items true
      :: listingPages itemSelector nextSelector rest
  end.

Definition trustRadiusProductUrl (companyName : string) : string :=
  "https://www.trustradius.com/products/"
  ++ replaceSpaceRuns "-" false (toLowerCase companyName).

(** A TrustRadius with a product page for [companyName] whose reviews are
    listed on [pages]. *)
Definition trustRadiusSite (companyName : string)
    (pages : list (list Element)) (fails : nat -> bool) : Site :=
  mkSite
    (fun u =>
       if String.eqb u (trustRadiusProductUrl companyName) then
         Some [mkDocument "Product" (fun _ => [])]
       else if String.eqb u (trustRadiusProductUrl companyName ++ "/reviews") then
         Some (listingPages ".review-card, .review-container" trustRadiusNext pages)
       else None)
    fails.

Definition capterraSearchUrl `{Host} (companyName : string) : string :=
  "https://www.capterra.com/search/?search=" ++ encodeURIComponent companyName.

(** A Capterra whose search lists the product of [companyName], with a
    link to its reviews, listed on [pages]. *)
Definition capterraSite `{Host} (companyName : string)
    (pages : list (list Element)) (fails : nat -> bool) : Site :=
  let reviewsUrl := "https://www.capterra.com/p/reviews" in
  let product :=
    mkElement EmptyString EmptyString EmptyString false [] (fun _ => None)
      (fun sel =>
         if String.eqb sel ".product-card__product-name" then [textNode companyName]
         else if String.eqb sel ("a[href*=" ++ dq ++ "reviews" ++ dq ++ "]") then
                [mkElement "Reviews" "Reviews" reviewsUrl false []
                   (fun _ => None) (fun _ => [])]
         else []) in
  mkSite
    (fun u =>
       if String.eqb u (capterraSearchUrl companyName) then
         Some [mkDocument "Search"
                 (fun sel => if String.eqb sel ".product-card" then [product] else [])]
       else if String.eqb u reviewsUrl then
         Some (listingPages ".review" capterraNext pages)
       else None)
    fails.

(** A site on which no URL loads. *)
Definition offline : Site := mkSite (fun _ => None) (fun _ => false).

(** A site that knows no product: every URL shows a "not found" page
    without any element. *)
Definition siteWithoutProducts : Site :=
  mkSite (fun _ => Some [mkDocument "Page Not Found" (fun _ => [])])
         (fun _ => false).

(** The pages a paginated scraper visits on a listing: it leaves the
    current page while the cap allows, a further page exists and the click
    on "next" succeeds. *)
Fixpoint visited (fails : nat -> bool) (maxPages currentPage : nat)
    (pages : list (list Element)) : list (list Element) :=
  match pages with
  | [] => []
  | items :: rest =>
      items ::
      (if (currentPage <? maxPages)%nat && negb (fails currentPage)
       then visited fails maxPages (S currentPage) rest
       else [])
  end.

(** A [parseFloat] for the examples: digits, then optionally a dot and
    more digits. *)
Fixpoint digitsPrefix (s : string) : string :=
  match s with
  | String c s' => if isDigit c then String c (digitsPrefix s') else EmptyString
  | EmptyString => EmptyString
  end.

Definition simpleParseFloat (s : string) : float :=
  let t := trimStart s in
  let whole := digitsPrefix t in
  match whole with
  | EmptyString => None
  | _ =>
      match substring (String.length whole) (String.length t) t with
      | String "." more =>
          let frac := digitsPrefix more in
          Some (inject_Z (digitsValue 0 whole)
                + inject_Z (digitsValue 0 frac)
                  / inject_Z (10 ^ Z.of_nat (String.length frac)))%Q
      | _ => Some (inject_Z (digitsValue 0 whole))
      end
  end.

(** Hosts for the examples: the clock reads 3 November 2026, 01:00 UTC,
    and the implementation-defined part of [Date.parse] accepts nothing. *)
Definition hostIn (zone : Z -> bool -> Z) : Host := {|
  hostParse := fun _ => NaN;
  LocalTZA := zone;
  clock := 1793667600000;
  parseFloat := simpleParseFloat;
  encodeURIComponent := fun s => s;
  timestamp := "2026-11-03T01-00-00-000Z";
  outputPath := fun f => "output/" ++ f
|}.

(** A zone that keeps one offset. *)
Definition hostAt (offset : Z) : Host := hostIn (fun _ _ => offset).

Definition utcHost : Host := hostAt 0.
(** Five hours behind UTC. *)
Definition easternHost : Host := hostAt (-18000000).

(** A zone with one change of its clocks, that of New York in the autumn
    of 2026: four hours behind UTC until the clocks go back on 1 November
    at 06:00 UTC, when local clocks read 02:00, and five hours behind from
    then on. *)
Definition newYorkZone (t : Z) (isUTC : bool) : Z :=
  let change := 1793512800000 in
  let daylight := -14400000 in
  let standard := -18000000 in
  if isUTC then (if t <? change then daylight else standard)
  else (if t <? change + daylight then daylight else standard).

Definition newYorkHost : Host := hostIn newYorkZone.

(** A TrustRadius review card with a title, a text, a date and an author. *)
Definition trustRadiusCard (t body d who : string) : Element :=
  card [(".review-title, .review-heading", t);
        (".review-body, .review-content", body);
        (".review-date", d);
        (".reviewer-name, .user-info", who)].

(** A Capterra review with a title, a text, a date and an author. *)
Definition capterraCard (t body d who : string) : Element :=
  card [(".review__title", t);
        (".review-content", body);
        (".review-date", d);
        (".reviewer-name", who)].

(** The date range and the listings of the examples: five pages of one
    review each, the first page holding a second review whose date does
    not parse. *)
Definition exampleStart : Date := mkDate (Some 1735689600000).
Definition exampleEnd : Date := mkDate (Some 1751241600000).

Definition trustRadiusListing : list (list Element) :=
  [[trustRadiusCard "First" "Solid tool" "2025-01-02" "Ann";
    trustRadiusCard "Undated" "No date at all" "some time ago" "Bob"];
   [trustRadiusCard "Second" "Works well" "March 2, 2025" "Cid"];
   [trustRadiusCard "Third" "Fine" "2025/03/03" "Dee"];
   [trustRadiusCard "Fourth" "Good" "04-03-2025" "Eve"];
   [trustRadiusCard "Fifth" "Great" "2025-03-05" "Fay"]].

Definition capterraListing : list (list Element) :=
  [[capterraCard "First" "Solid tool" "2025-01-02" "Ann";
    capterraCard "Undated" "No date at all" "some time ago" "Bob"];
   [capterraCard "Second" "Works well" "March 2, 2025" "Cid"];
   [capterraCard "Third" "Fine" "2025/03/03" "Dee"];
   [capterraCard "Fourth" "Good" "04-03-2025" "Eve"];
   [capterraCard "Fifth" "Great" "2025-03-05" "Fay"]].

(** A review card whose title and author elements are present but hold
    only white space. *)
Definition blankTitleCard : Element :=
  trustRadiusCard "   " "Does the job" "2025-03-02" " ".

Definition blankTitleCapterraCard : Element :=
  capterraCard "   " "Does the job" "2025-03-02" " ".

(** What a computation settles to, without the session. *)
Definition outcome `{Puppeteer} {A : Type} (r : option (Exn A * Session))
  : option (Exn A) :=
  match r with
  | Some (x, _) => Some x
  | None => None
  end.

(* --------------------------------------------------------------------- *)
(** ** Measures of a computation                                          *)
(* --------------------------------------------------------------------- *)

Section Measures.
Context `{Puppeteer}.

(** [m] always settles, performing at most [n] page extractions. *)
Definition extractsAtMost {A : Type} (n : nat) (m : M A) : Prop :=
  forall s, exists r s',
    run m s = Some (r, s')
    /\ (extractions (trace s') <= extractions (trace s) + n)%nat.

(** [m] is always fulfilled: it neither rejects nor fails to settle. *)
Definition fulfils {A : Type} (m : M A) : Prop :=
  forall s, exists a s', run m s = Some (Ok a, s').

(** [m] always settles. *)
Definition settles {A : Type} (m : M A) : Prop :=
  forall s, run m s <> None.

(** The world after [calls], when none of them throws. *)
Fixpoint worldAfter (calls : list Command) (w : World) : option World :=
  match calls with
  | [] => Some w
  | c :: rest =>
      match perform c w with
      | (Ok _, w') => worldAfter rest w'
      | (Throw _, _) => None
      end
  end.

End Measures.

(** The date object of a time value, as an argument that may be [null]. *)
Definition instant (t : Z) : option Date := Some (mkDate (Some t)).

(** A zone without clock changes: the offset [z] at every time. *)
Definition fixedOffset `{Host} (z : Z) : Prop :=
  forall t isUTC, LocalTZA t isUTC = z.

(** The instant [t] with its local calendar day moved back by [n] days
    and its local time of day kept: the local time of [t], [n] days
    earlier, read with the offset that applies to it. *)
Definition daysBefore `{Host} (n t : Z) : Z :=
  UTC (LocalTime t - n * msPerDay).

(** A day of the calendar, as year, month (0 to 11) and day of the month. *)
Definition validYMD (y m d : Z) : Prop :=
  0 <= m <= 11 /\ 1 <= d <= DaysInMonth m (InLeapYear y).

(* ===================================================================== *)
(** * 8. The date normalizer as the specification words it                *)
(* ===================================================================== *)

(** The specification describes the normalizer as an ordered chain of
    independent parsing rules, tried until one succeeds. The definitions of
    this section follow that description, to be compared with
    [parseDate]. *)

(** The fixed table of the twelve months; a month is named in full or by
    its first three letters. *)
Definition monthTable : list (string * Z) :=
  [("january", 0); ("february", 1); ("march", 2); ("april", 3);
   ("may", 4); ("june", 5); ("july", 6); ("august", 7);
   ("september", 8); ("october", 9); ("november", 10); ("december", 11)].

Definition monthIndexOf (monthName : string) : option Z :=
  let key := toLowerCase monthName in
  option_map snd
    (find (fun entry =>
             String.eqb (substring 0 3 (fst entry)) key
             || String.eqb (fst entry) key)
          monthTable).

Inductive TimeUnit : Type := Days | Weeks | Months | Years.

(** A unit word, singular or plural, in any letter case. *)
Definition timeUnitOf (word : string) : option TimeUnit :=
  let w := toLowerCase word in
  option_map snd
    (find (fun entry =>
             String.eqb (fst entry) w || String.eqb (fst entry ++ "s") w)
          [("day", Days); ("week", Weeks); ("month", Months); ("year", Years)]).

Section Normalizer.
Context `{Host}.

(** [n] units before the instant [now]. *)
Definition unitsBefore (now : Date) (n : num) (u : TimeUnit) : Date :=
  match u with
  | Days => setDate now (nsub (getDate now) n)
  | Weeks => setDate now (nsub (getDate now) (nmul n (Some 7)))
  | Months => setMonth now (nsub (getMonth now) n)
  | Years => setFullYear now (nsub (getFullYear now) n)
  end.

(** Rule 1: any string the host's native date parsing accepts. *)
Definition nativeRule (s : string) : option Date :=
  let d := newDateFromString s in
  if isNaN (getTime d) then None else Some d.

(** Rule 2: a relative expression, counted back from the current instant. *)
Definition relativeRule (s : string) : option Date :=
  match search relativeRe s with
  | Some m =>
      match timeUnitOf (capture 2 m) with
      | Some u => Some (unitsBefore newDateNow (parseInt (capture 1 m)) u)
      | None => Some newDateNow
      end
  | None => None
  end.

(** Rule 3: month name, day and year. *)
Definition monthNameRule (s : string) : option Date :=
  match search monthNameRe s with
  | Some m =>
      match monthIndexOf (capture 1 m) with
      | Some monthIndex =>
          Some (newDateYMD (parseInt (capture 3 m)) (Some monthIndex)
                           (parseInt (capture 2 m)))
      | None => None
      end
  | None => None
  end.

(** Rule 4: numeric, year first. *)
Definition yearFirstRule (s : string) : option Date :=
  match search numericRe s with
  | Some m =>
      Some (newDateYMD (parseInt (capture 1 m))
                       (nsub (parseInt (capture 2 m)) (Some 1))
                       (parseInt (capture 3 m)))
  | None => None
  end.

(** Rule 5: numeric, day first. *)
Definition dayFirstRule (s : string) : option Date :=
  match search euroRe s with
  | Some m =>
      Some (newDateYMD (parseInt (capture 3 m))
                       (nsub (parseInt (capture 2 m)) (Some 1))
                       (parseInt (capture 1 m)))
  | None => None
  end.

(** The rules in their priority order. *)
Definition rules : list (string -> option Date) :=
  [nativeRule; relativeRule; monthNameRule; yearFirstRule; dayFirstRule].

(** The result of the first rule that matches. *)
Fixpoint firstMatch (rs : list (string -> option Date)) (s : string)
  : option Date :=
  match rs with
  | [] => None
  | r :: rest =>
      match r s with
      | Some d => Some d
      | None => firstMatch rest s
      end
  end.

Definition normalize (raw : string) : option Date :=
  match raw with
  | EmptyString => None
  | _ => firstMatch rules (trim raw)
  end.

End Normalizer.


(* ===================================================================== *)
(** * Further definitions                                                 *)
(* ===================================================================== *)

(** Predicates on strings and on computations in which the further
    properties of the code are stated, the browsers and the site of their
    examples, and the [/scrape] handler. *)

(** Every code unit of [s] belongs to the class [p]. *)
Fixpoint allOf (p : ascii -> bool) (s : string) : bool :=
  match s with
  | EmptyString => true
  | String c s' => p c && allOf p s'
  end.

(** [s] starts with no code unit of the class [p]. *)
Definition headNot (p : ascii -> bool) (s : string) : Prop :=
  match s with
  | String c _ => p c = false
  | EmptyString => True
  end.

(** A string of [lo] to [hi] decimal digits. *)
Definition digitString (lo hi : nat) (s : string) : Prop :=
  allDigits s = true /\ (lo <= String.length s <= hi)%nat.

(** The separators of a numeric date, the class [[-\/]]. *)
Definition isSeparator (c : ascii) : Prop := c = "-"%char \/ c = "/"%char.

(** The relative expression ["<N> <unit> ago"]. *)
Definition ago (n : Z) (unit : string) : string :=
  decimal n ++ " " ++ unit ++ " ago".

(** The two ways the year follows the day in a date with a month name:
    after a comma and a space, or after a space. *)
Definition beforeYear (comma : bool) : string := if comma then ", " else " ".

(** The numeric date [Y/M/D], its numbers written without padding. *)
Definition slashDate (y m d : Z) : string :=
  decimal y ++ "/" ++ decimal m ++ "/" ++ decimal d.

Section Outcomes.
Context `{Puppeteer}.

(** Every value [m] is fulfilled with satisfies [P]. *)
Definition returns {A : Type} (P : A -> Prop) (m : M A) : Prop :=
  forall s a s', run m s = Some (Ok a, s') -> P a.

(** However [m] settles, the calls it has added to the trace all satisfy
    [P]. *)
Definition emits {A : Type} (P : Command -> Prop) (m : M A) : Prop :=
  forall s r s',
    run m s = Some (r, s') ->
    exists t, trace s' = (trace s ++ t)%list /\ Forall P t.

End Outcomes.

(** What the date filter guarantees of a review it keeps. *)
Definition keptBy `{Host} (startDate endDate : Date) (review : Review) : Prop :=
  isDateInRange (parseDate (date review)) (Some startDate) (Some endDate) = true.

(** A property of every review of a success. *)
Definition everyReview (Q : Review -> Prop) (result : Result) : Prop :=
  match result with
  | Success data _ => Forall Q data
  | Failure _ => True
  end.

(** The calls the TrustRadius and Capterra scrapers make on a page. *)
Definition pageCall (c : Command) : Prop :=
  match c with
  | NewPage | SetDefaultNavigationTimeout _ | Goto _ | Evaluate _
  | WaitForSelector _ | ClickAndWaitForNavigation _ => True
  | _ => False
  end.

(** A browser that cannot be launched, and one that cannot be closed, over
    the simulated site. *)
Definition launchFails : Puppeteer := {|
  World := Sim;
  perform := fun c w =>
               match c with
               | Launch _ => (Throw "Failed to launch the browser process", w)
               | _ => simPerform c w
               end;
  document := shown;
  currentUrl := address
|}.

Definition closeFails : Puppeteer := {|
  World := Sim;
  perform := fun c w =>
               match c with
               | Close => (Throw "Protocol error: Target closed", w)
               | _ => simPerform c w
               end;
  document := shown;
  currentUrl := address
|}.

(* --------------------------------------------------------------------- *)
(** ** The [/scrape] handler of [index.js]                                *)
(* --------------------------------------------------------------------- *)

(** [!data || (Array.isArray(data) && data.length === 0) ||
    (typeof data === 'object' && Object.keys(data).length === 0)] *)
Definition noContent (data : Json) : bool :=
  falsy data
  || match data with JArray [] => true | _ => false end
  || match data with JArray [] | JObject [] => true | _ => false end.

Record ScrapeRequest : Type := mkScrapeRequest {
  reqUrl : string;
  reqSelectors : Json
}.

(** The JSON bodies the handler sends. *)
Inductive ScrapeBody : Type :=
| UrlRequired (error : string)
| NotScraped (error : string)
| Scraped (data : Json).

Record ScrapeResponse : Type := mkScrapeResponse {
  scrapeStatus : Z;
  scrapeBody : ScrapeBody
}.

Section ScrapeHandler.
Context `{Puppeteer}.

(** [scrapeSite], the export of [./scraper], a module that is not among
    the sources: any asynchronous function of a URL and of selectors. *)
Variable scrapeSite : string -> Json -> M Json.

(** The handler of [POST /scrape]; a [url] absent from the request body is
    the empty string. *)
Definition scrapeHandler (req : ScrapeRequest) : M ScrapeResponse :=
  let url := reqUrl req in
  let selectors := reqSelectors req in
  if negb (truthy url) then
    ret (mkScrapeResponse 400 (UrlRequired "URL is required"))
  else
    tryCatch
      (data <- scrapeSite url selectors ;;
       if noContent data then
         ret (mkScrapeResponse 404
                (NotScraped "No content found. Please check the URL or try different selectors."))
       else ret (mkScrapeResponse 200 (Scraped data)))
      (fun error => ret (mkScrapeResponse 500 (NotScraped error))).

End ScrapeHandler.

(* --------------------------------------------------------------------- *)
(** ** A TrustRadius that is reached through its search                   *)
(* --------------------------------------------------------------------- *)

Definition trustRadiusSearchUrl `{Host} (companyName : string) : string :=
  "https://www.trustradius.com/search?q=" ++ encodeURIComponent companyName.

(** A TrustRadius without a product page at the direct address of
    [companyName]: that address shows a "not found" page, the search lists
    [links], and the reviews of the product at [productUrl] are listed on
    [pages]. *)
Definition trustRadiusSearchSite `{Host} (companyName : string)
    (links : list Element) (productUrl : string)
    (pages : list (list Element)) (fails : nat -> bool) : Site :=
  mkSite
    (fun u =>
       if String.eqb u (trustRadiusProductUrl companyName) then
         Some [mkDocument "Page Not Found" (fun _ => [])]
       else if String.eqb u (trustRadiusSearchUrl companyName) then
         Some [mkDocument "Search"
                 (fun sel =>
                    if String.eqb sel ".product-card a, .search-result-item a"
                    then links else [])]
       else if String.eqb u (productUrl ++ "/reviews") then
         Some (listingPages ".review-card, .review-container" trustRadiusNext pages)
       else if String.eqb u productUrl then
         Some [mkDocument "Product" (fun _ => [])]
       else None)
    fails.

(* ===================================================================== *)
(** * 9. Properties                                                       *)
(* ===================================================================== *)

(** ** Calendar arithmetic *)

Ltac zdiv := intros; Z.to_euclidean_division_equations; lia.

Lemma mod400_100 y : y mod 400 = 0 -> y mod 100 = 0.
Proof. zdiv. Qed.

Lemma mod100_4 y : y mod 100 = 0 -> y mod 4 = 0.
Proof. zdiv. Qed.

Lemma DaysInYear_step y : DayFromYear (y + 1) - DayFromYear y = DaysInYear y.
Proof.
  unfold DayFromYear, DaysInYear.
  assert (A4 : (y + 1 - 1969) / 4 - (y - 1969) / 4
               = if y mod 4 =? 0 then 1 else 0).
  { destruct (Z.eqb_spec (y mod 4) 0); zdiv. }
  assert (A100 : (y + 1 - 1901) / 100 - (y - 1901) / 100
                 = if y mod 100 =? 0 then 1 else 0).
  { destruct (Z.eqb_spec (y mod 100) 0); zdiv. }
  assert (A400 : (y + 1 - 1601) / 400 - (y - 1601) / 400
                 = if y mod 400 =? 0 then 1 else 0).
  { destruct (Z.eqb_spec (y mod 400) 0); zdiv. }
  pose proof (mod400_100 y) as I1. pose proof (mod100_4 y) as I2.
  destruct (Z.eqb_spec (y mod 4) 0), (Z.eqb_spec (y mod 100) 0),
    (Z.eqb_spec (y mod 400) 0); cbn [negb]; lia.
Qed.

Lemma DaysInYear_cases y : DaysInYear y = 365 \/ DaysInYear y = 366.
Proof.
  unfold DaysInYear.
  destruct (y mod 4 =? 0), (y mod 100 =? 0), (y mod 400 =? 0); cbn; auto.
Qed.

Lemma InLeapYear_DaysInYear y : DaysInYear y = 365 + InLeapYear y.
Proof.
  unfold InLeapYear. destruct (DaysInYear_cases y) as [E|E]; rewrite E; reflexivity.
Qed.

Lemma InLeapYear_cases y : InLeapYear y = 0 \/ InLeapYear y = 1.
Proof. unfold InLeapYear. destruct (DaysInYear y =? 366); auto. Qed.

Lemma DayFromYear_lt y1 y2 : y1 < y2 -> DayFromYear y1 < DayFromYear y2.
Proof. unfold DayFromYear. zdiv. Qed.

Lemma DayFromYear_decomp a b c e :
  0 <= b <= 3 -> 0 <= c <= 24 -> 0 <= e <= 3 ->
  DayFromYear (1 + 400 * a + 100 * b + 4 * c + e)
  = 146097 * a + 36524 * b + 1461 * c + 365 * e - 719162.
Proof. intros. unfold DayFromYear. zdiv. Qed.

(** [YearFromDay d] is the year whose days include [d]. *)
Lemma YearFromDay_spec d :
  DayFromYear (YearFromDay d) <= d < DayFromYear (YearFromDay d + 1).
Proof.
  assert (S := DaysInYear_step (YearFromDay d)).
  cut (0 <= d - DayFromYear (YearFromDay d) < DaysInYear (YearFromDay d)); [lia|].
  clear S. unfold YearFromDay.
  set (n := d + 719162).
  set (a := n / 146097). set (r400 := n mod 146097).
  set (b := Z.min (r400 / 36524) 3).
  set (r100 := r400 - b * 36524).
  set (c := r100 / 1461). set (r4 := r100 mod 1461).
  set (e := Z.min (r4 / 365) 3).
  assert (Hr400 : 0 <= r400 < 146097) by (subst r400; apply Z.mod_pos_bound; lia).
  assert (Hn : n = 146097 * a + r400) by (subst a r400; apply Z.div_mod; lia).
  assert (Hb : 0 <= b <= 3) by (subst b; zdiv).
  assert (Hr100 : 0 <= r100 <= 36524 /\ (b < 3 -> r100 < 36524))
    by (subst r100 b; zdiv).
  assert (Hc : 0 <= c <= 24) by (subst c; zdiv).
  assert (Hr4 : 0 <= r4 < 1461 /\ r100 = 1461 * c + r4) by (subst c r4; zdiv).
  assert (He : 0 <= e <= 3 /\ 365 * e <= r4 /\ (e < 3 -> r4 < 365 * e + 365))
    by (subst e; zdiv).
  rewrite DayFromYear_decomp by lia.
  assert (Hd : d = 146097 * a + 36524 * b + 1461 * c + r4 - 719162)
    by (subst r100 n; lia).
  clearbody e r4 c r100 b r400 a n.
  split; [lia|].
  unfold DaysInYear.
  set (y := 1 + 400 * a + 100 * b + 4 * c + e).
  assert (M4 : y mod 4 = (1 + e) mod 4) by (subst y; zdiv).
  assert (M100 : y mod 100 = (1 + 4 * c + e) mod 100) by (subst y; zdiv).
  assert (M400 : y mod 400 = (1 + 100 * b + 4 * c + e) mod 400) by (subst y; zdiv).
  rewrite M4, M100, M400.
  destruct (Z.eqb_spec ((1 + e) mod 4) 0) as [E4|E4]; cbn [negb].
  2:{ assert (e < 3) by zdiv. lia. }
  assert (e = 3) by zdiv.
  destruct (Z.eqb_spec ((1 + 4 * c + e) mod 100) 0) as [E100|E100]; cbn [negb].
  2:{ lia. }
  assert (c = 24) by zdiv.
  destruct (Z.eqb_spec ((1 + 100 * b + 4 * c + e) mod 400) 0) as [E400|E400];
    cbn [negb].
  2:{ assert (b < 3) by zdiv. lia. }
  lia.
Qed.

Lemma YearFromDay_unique y d :
  DayFromYear y <= d < DayFromYear (y + 1) -> YearFromDay d = y.
Proof.
  intros Hd. pose proof (YearFromDay_spec d) as S.
  destruct (Z.lt_trichotomy (YearFromDay d) y) as [L|[E|G]]; [|exact E|].
  - assert (DayFromYear (YearFromDay d + 1) <= DayFromYear y).
    { destruct (Z.eq_dec (YearFromDay d + 1) y) as [->|]; [lia|].
      apply Z.lt_le_incl, DayFromYear_lt; lia. }
    lia.
  - assert (DayFromYear (y + 1) <= DayFromYear (YearFromDay d)).
    { destruct (Z.eq_dec (y + 1) (YearFromDay d)) as [->|]; [lia|].
      apply Z.lt_le_incl, DayFromYear_lt; lia. }
    lia.
Qed.

Lemma monthOfDayInYear_range dwy leap : 0 <= monthOfDayInYear dwy leap <= 11.
Proof.
  unfold monthOfDayInYear.
  repeat match goal with |- context [?a <? ?b] => destruct (a <? b) end; lia.
Qed.

(** Setting the day of the month moves the day number by the difference. *)
Lemma MakeDay_same_month t n :
  MakeDay (YearFromTime t) (MonthFromTime t) n = Day t - DateFromTime t + n.
Proof.
  unfold MakeDay, DateFromTime, DayWithinYear.
  pose proof (monthOfDayInYear_range (DayWithinYear t) (InLeapYear (YearFromTime t))) as R.
  fold (MonthFromTime t) in R.
  replace (MonthFromTime t / 12) with 0 by zdiv.
  replace (MonthFromTime t mod 12) with (MonthFromTime t) by zdiv.
  rewrite Z.add_0_r. lia.
Qed.

Lemma civil_roundtrip y m d :
  validYMD y m d ->
  let day := MakeDay y m d in
  YearFromDay day = y
  /\ monthOfDayInYear (day - DayFromYear y) (InLeapYear y) = m
  /\ day - DayFromYear y - monthStart m (InLeapYear y) + 1 = d.
Proof.
  intros [Hm Hd] day. subst day. unfold MakeDay.
  replace (m / 12) with 0 by zdiv.
  replace (m mod 12) with m by zdiv.
  rewrite Z.add_0_r.
  pose proof (InLeapYear_cases y) as L.
  pose proof (InLeapYear_DaysInYear y) as DY.
  pose proof (DaysInYear_step y) as ST.
  set (leap := InLeapYear y) in *. clearbody leap.
  assert (Hoff : 0 <= monthStart m leap + d - 1 < 365 + leap
                 /\ monthOfDayInYear (monthStart m leap + d - 1) leap = m).
  { assert (m = 0 \/ m = 1 \/ m = 2 \/ m = 3 \/ m = 4 \/ m = 5 \/ m = 6
            \/ m = 7 \/ m = 8 \/ m = 9 \/ m = 10 \/ m = 11) as Hcases by lia.
    unfold monthOfDayInYear, monthStart, DaysInMonth in *.
    destruct L as [-> | ->];
      repeat (destruct Hcases as [-> | Hcases]); try subst m;
      repeat match type of Hd with
             | context [?a =? ?b] =>
                 destruct (Z.eqb_spec a b); try lia; cbn [orb] in Hd
             end;
      repeat match goal with
             | |- context [?a =? ?b] => destruct (Z.eqb_spec a b); try lia
             end;
      repeat match goal with
             | |- context [?a <? ?b] => destruct (Z.ltb_spec a b); try lia
             end. }
  destruct Hoff as [Hoff Hmon].
  split; [apply YearFromDay_unique; lia|].
  split.
  - replace (DayFromYear y + monthStart m leap + d - 1 - DayFromYear y)
      with (monthStart m leap + d - 1) by lia.
    exact Hmon.
  - lia.
Qed.

(** ** Characters and numerals *)

Ltac by_ascii c :=
  destruct c as [[|] [|] [|] [|] [|] [|] [|] [|]];
  try discriminate; try reflexivity.

Lemma isDigit_not_space c : isDigit c = true -> isSpace c = false.
Proof. by_ascii c. Qed.

Lemma isDigit_not_sign c :
  isDigit c = true -> Ascii.eqb c "-" = false /\ Ascii.eqb c "+" = false.
Proof. by_ascii c; intros _; split; reflexivity. Qed.

Lemma digitChar_digitVal c : isDigit c = true -> digitChar (digitVal c) = c.
Proof. by_ascii c. Qed.

Lemma digitVal_range c : isDigit c = true -> 0 <= digitVal c <= 9.
Proof. by_ascii c; intros _; cbv; split; discriminate. Qed.

Lemma digit_cases d :
  0 <= d <= 9 ->
  d = 0 \/ d = 1 \/ d = 2 \/ d = 3 \/ d = 4 \/ d = 5 \/ d = 6 \/ d = 7
  \/ d = 8 \/ d = 9.
Proof. lia. Qed.

Lemma isDigit_digitChar d : 0 <= d <= 9 -> isDigit (digitChar d) = true.
Proof.
  intros Hd. apply digit_cases in Hd.
  repeat (destruct Hd as [-> | Hd]; [reflexivity|]). subst; reflexivity.
Qed.

Lemma digitVal_digitChar d : 0 <= d <= 9 -> digitVal (digitChar d) = d.
Proof.
  intros Hd. apply digit_cases in Hd.
  repeat (destruct Hd as [-> | Hd]; [reflexivity|]). subst; reflexivity.
Qed.

Lemma log2_div10 n : 10 <= n -> Z.log2 (n / 10) < Z.log2 n.
Proof.
  intros Hn.
  assert (Hle : n / 10 <= n / 2) by zdiv.
  assert (Hpos : 0 < n / 10) by zdiv.
  apply Z.le_lt_trans with (Z.log2 (n / 2)).
  - apply Z.log2_le_mono. exact Hle.
  - rewrite <- Z.div2_div, Z.div2_spec, Z.log2_shiftr by lia.
    assert (0 < Z.log2 n) by (apply Z.log2_pos; lia). lia.
Qed.

(** With enough fuel, [decimalDigits] puts a non-empty run of digits in
    front of the accumulator, whose value is the number. *)
Lemma decimalDigits_spec fuel :
  forall n acc,
    0 <= n -> Z.log2 n < Z.of_nat fuel ->
    exists c ds,
      decimalDigits fuel n acc = String c (ds ++ acc)
      /\ isDigit c = true /\ allDigits ds = true
      /\ forall a rest,
           digitsValue a (String c (ds ++ rest))
           = digitsValue (a * 10 ^ Z.of_nat (S (String.length ds)) + n) rest.
Proof.
  induction fuel as [|fuel IH]; intros n acc Hn Hfuel.
  - pose proof (Z.log2_nonneg n). lia.
  - cbn [decimalDigits].
    assert (Hmod : 0 <= n mod 10 <= 9) by zdiv.
    destruct (Z.ltb_spec n 10) as [Hlt|Hge].
    + exists (digitChar (n mod 10)), EmptyString.
      replace (n mod 10) with n by zdiv.
      repeat split; try reflexivity.
      * apply isDigit_digitChar; lia.
      * intros a rest. cbn [append digitsValue String.length].
        rewrite isDigit_digitChar, digitVal_digitChar by lia.
        f_equal. change (Z.of_nat 1) with 1. lia.
    + destruct (IH (n / 10) (String (digitChar (n mod 10)) acc))
        as (c & ds & E & Hc & Hds & Hval).
      * zdiv.
      * pose proof (log2_div10 n Hge). lia.
      * exists c, (ds ++ String (digitChar (n mod 10)) EmptyString).
        rewrite E.
        assert (Happ : forall t,
                   (ds ++ String (digitChar (n mod 10)) EmptyString) ++ t
                   = ds ++ String (digitChar (n mod 10)) t).
        { intros t. clear. induction ds as [|x ds IHds]; cbn [append];
            [reflexivity|]. now rewrite IHds. }
        rewrite Happ. repeat split; try assumption.
        -- clear - Hds Hmod.
           induction ds as [|x ds IHds]; cbn [append allDigits] in *.
           ++ rewrite isDigit_digitChar by lia. reflexivity.
           ++ apply andb_prop in Hds as [-> Hds]. cbn [andb]. auto.
        -- intros a rest. rewrite Happ, Hval. cbn [digitsValue].
           rewrite isDigit_digitChar, digitVal_digitChar by lia.
           f_equal.
           assert (Hlen : String.length (ds ++ String (digitChar (n mod 10)) EmptyString)
                          = S (String.length ds)).
           { clear. induction ds as [|x ds IHds]; cbn [append String.length];
               [reflexivity|]. now rewrite IHds. }
           rewrite Hlen.
           rewrite (Nat2Z.inj_succ (S (String.length ds))), Z.pow_succ_r by lia.
           pose proof (Z.div_mod n 10). lia.
Qed.

Lemma decimal_shape n :
  0 <= n ->
  exists c ds,
    decimal n = String c ds /\ isDigit c = true /\ allDigits ds = true
    /\ digitsValue 0 (String c ds) = n.
Proof.
  intros Hn.
  destruct (decimalDigits_spec (S (Z.to_nat (Z.log2 n))) n EmptyString Hn)
    as (c & ds & E & Hc & Hds & Hval).
  { pose proof (Z.log2_nonneg n). lia. }
  assert (Hnil : forall t : string, t ++ EmptyString = t).
  { induction t as [|x t IHt]; cbn [append]; [reflexivity|]. now rewrite IHt. }
  exists c, ds. unfold decimal. rewrite E, Hnil.
  repeat split; try assumption.
  specialize (Hval 0 EmptyString). rewrite Hnil in Hval. rewrite Hval.
  cbn [digitsValue]. lia.
Qed.

Lemma parseInt_digits c ds :
  isDigit c = true -> parseInt (String c ds) = Some (digitsValue 0 (String c ds)).
Proof.
  intros Hc. unfold parseInt. cbn [trimStart].
  rewrite (isDigit_not_space c Hc).
  destruct (isDigit_not_sign c Hc) as [Hm Hp].
  destruct c as [b0 b1 b2 b3 b4 b5 b6 b7].
  destruct b0, b1, b2, b3, b4, b5, b6, b7; try discriminate; rewrite ?Hc; reflexivity.
Qed.

Lemma parseInt_decimal n : 0 <= n -> parseInt (decimal n) = Some n.
Proof.
  intros Hn. destruct (decimal_shape n Hn) as (c & ds & E & Hc & _ & Hval).
  rewrite E, parseInt_digits, Hval by assumption. reflexivity.
Qed.

(** ** Strings *)

Lemma sapp_nil_r (s : string) : s ++ EmptyString = s.
Proof. induction s as [|x s IH]; cbn [append]; [reflexivity|]. now rewrite IH. Qed.

Lemma sapp_assoc (a b c : string) : (a ++ b) ++ c = a ++ (b ++ c).
Proof. induction a as [|x a IH]; cbn [append]; [reflexivity|]. now rewrite IH. Qed.

Lemma slength_app (a b : string) :
  String.length (a ++ b) = (String.length a + String.length b)%nat.
Proof.
  induction a as [|x a IH]; cbn [append String.length]; [reflexivity|].
  now rewrite IH.
Qed.

Lemma substring_prefix (a b : string) : substring 0 (String.length a) (a ++ b) = a.
Proof.
  induction a as [|x a IH]; cbn [append String.length substring].
  - destruct b; reflexivity.
  - now rewrite IH.
Qed.

Lemma consumed_app (a b : string) : consumed (a ++ b) b = a.
Proof.
  unfold consumed. rewrite slength_app.
  replace (String.length a + String.length b - String.length b)%nat
    with (String.length a) by lia.
  apply substring_prefix.
Qed.

Lemma trimEnd_last (s : string) (c : ascii) :
  isSpace c = false -> trimEnd (s ++ String c EmptyString) = s ++ String c EmptyString.
Proof.
  intros Hc. induction s as [|x s IH]; cbn [append trimEnd].
  - rewrite Hc. reflexivity.
  - rewrite IH. destruct s; reflexivity.
Qed.

(** A string that begins and ends with characters that are not white
    space is left alone by [trim]. *)
Lemma trim_fixed (c z : ascii) (s : string) :
  isSpace c = false -> isSpace z = false ->
  trim (String c (s ++ String z EmptyString)) = String c (s ++ String z EmptyString).
Proof.
  intros Hc Hz. unfold trim. cbn [trimStart]. rewrite Hc.
  change (String c (s ++ String z EmptyString)) with (String c s ++ String z EmptyString).
  apply trimEnd_last. exact Hz.
Qed.

Lemma isoDateOnly_length (s : string) x :
  isoDateOnly s = Some x -> String.length s = 10%nat.
Proof.
  intros E. unfold isoDateOnly in E.
  do 10 (destruct s as [|? s]; [discriminate|]).
  destruct s; [reflexivity | discriminate].
Qed.

(** ** The relative rule on ["<N> days ago"] *)

Lemma starLoop_S step k fuel s cs :
  starLoop step k (S fuel) s cs
  = match step s cs
            (fun s' cs' =>
               if (String.length s' <? String.length s)%nat
               then starLoop step k fuel s' cs' else None) with
    | Some m => Some m
    | None => k s cs
    end.
Proof. reflexivity. Qed.

(** A greedy run of digits takes all the digits in front of [tail] when
    what follows the repetition matches there. *)
Lemma starLoop_digits (ds : string) :
  forall fuel tail cs k m,
    allDigits ds = true ->
    match tail with String c _ => isDigit c = false | EmptyString => True end ->
    (String.length ds <= fuel)%nat ->
    k tail cs = Some m ->
    starLoop (classStep isDigit) k fuel (ds ++ tail) cs = Some m.
Proof.
  induction ds as [|d ds IH]; intros fuel tail cs k m Hds Htail Hfuel Hk.
  - cbn [append]. destruct fuel as [|fuel]; [exact Hk|].
    rewrite starLoop_S. destruct tail as [|c tail]; [exact Hk|].
    rewrite Htail. exact Hk.
  - cbn [allDigits] in Hds. apply andb_prop in Hds as [Hd Hds].
    cbn [String.length] in Hfuel.
    destruct fuel as [|fuel]; [lia|].
    rewrite starLoop_S. cbn [append]. rewrite Hd.
    replace (String.length (ds ++ tail) <? String.length (String d (ds ++ tail)))%nat
      with true
      by (symmetry; apply Nat.ltb_lt; cbn [String.length]; lia).
    rewrite (IH fuel tail cs k m); auto. lia.
Qed.



Section DaysAgo.
Context `{Host}.

(** [setDate] moves the local calendar day and keeps the local time of
    day; the offset that turns the result into an instant is the one of the
    local time arrived at. *)
Lemma setDate_daysBefore (n : Z) :
  setDate newDateNow (nsub (getDate newDateNow) (Some n))
  = mkDate (TimeClip (daysBefore n clock)).
Proof.
  unfold setDate, getDate, newDateNow, daysBefore. cbn [getTime nsub].
  do 3 f_equal. unfold MakeDate.
  rewrite MakeDay_same_month. unfold TimeWithinDay, Day.
  pose proof (Z.div_mod (LocalTime clock) msPerDay) as D.
  unfold msPerDay in *. lia.
Qed.

(** Where the offset is the same at both ends, the instant is [n] days
    earlier to the millisecond. *)
Lemma daysBefore_same_offset (n t : Z) :
  LocalTZA (LocalTime t - n * msPerDay) false = LocalTZA t true ->
  daysBefore n t = t - n * msPerDay.
Proof. unfold daysBefore, UTC, LocalTime. intros ->. lia. Qed.

Lemma daysBefore_fixedOffset (z n t : Z) :
  fixedOffset z -> daysBefore n t = t - n * msPerDay.
Proof.
  intros Hz. apply daysBefore_same_offset. rewrite !Hz. reflexivity.
Qed.

(** In general it differs from that by the change of the offset. *)
Lemma daysBefore_offsets (n t : Z) :
  daysBefore n t
  = t - n * msPerDay
    + (LocalTZA t true - LocalTZA (LocalTime t - n * msPerDay) false).
Proof. unfold daysBefore, UTC, LocalTime. lia. Qed.


End DaysAgo.

(** ** Printing small numbers *)

Lemma decimalDigits_step fuel n acc :
  10 <= n ->
  decimalDigits (S fuel) n acc
  = decimalDigits fuel (n / 10) (String (digitChar (n mod 10)) acc).
Proof.
  intros Hn. cbn [decimalDigits]. destruct (Z.ltb_spec n 10); [lia | reflexivity].
Qed.

Lemma decimalDigits_last fuel n acc :
  0 <= n < 10 -> decimalDigits (S fuel) n acc = String (digitChar n) acc.
Proof.
  intros Hn. cbn [decimalDigits]. destruct (Z.ltb_spec n 10); [|lia].
  replace (n mod 10) with n by zdiv. reflexivity.
Qed.

Lemma decimal_four a b c e :
  1 <= a <= 9 -> 0 <= b <= 9 -> 0 <= c <= 9 -> 0 <= e <= 9 ->
  decimal (1000 * a + 100 * b + 10 * c + e)
  = String (digitChar a) (String (digitChar b)
      (String (digitChar c) (String (digitChar e) EmptyString))).
Proof.
  intros Ha Hb Hc He. unfold decimal.
  set (n := 1000 * a + 100 * b + 10 * c + e).
  assert (Hlog : 9 <= Z.log2 n).
  { change 9 with (Z.log2 1000). apply Z.log2_le_mono. lia. }
  destruct (Z.to_nat (Z.log2 n)) as [|[|[|k]]] eqn:Ek; try lia.
  rewrite decimalDigits_step by lia.
  replace (n mod 10) with e by (subst n; zdiv).
  replace (n / 10) with (100 * a + 10 * b + c) by (subst n; zdiv).
  rewrite decimalDigits_step by lia.
  replace ((100 * a + 10 * b + c) mod 10) with c by zdiv.
  replace ((100 * a + 10 * b + c) / 10) with (10 * a + b) by zdiv.
  rewrite decimalDigits_step by lia.
  replace ((10 * a + b) mod 10) with b by zdiv.
  replace ((10 * a + b) / 10) with a by zdiv.
  rewrite decimalDigits_last by lia. reflexivity.
Qed.

Lemma padStart2_decimal a b :
  0 <= a <= 9 -> 0 <= b <= 9 ->
  padStart2 (decimal (10 * a + b))
  = String (digitChar a) (String (digitChar b) EmptyString).
Proof.
  intros Ha Hb. apply digit_cases in Ha. apply digit_cases in Hb.
  repeat (destruct Ha as [-> | Ha]); try subst a;
    repeat (destruct Hb as [-> | Hb]); try subst b; reflexivity.
Qed.

(** ** Date-only strings *)

Lemma isoDateOnly_inv (s : string) (y m d : Z) :
  isoDateOnly s = Some (y, m, d) ->
  exists y1 y2 y3 y4 m1 m2 d1 d2,
    s = String y1 (String y2 (String y3 (String y4 (String "-"
          (String m1 (String m2 (String "-" (String d1 (String d2 EmptyString)))))))))
    /\ (isDigit y1 = true /\ isDigit y2 = true /\ isDigit y3 = true
        /\ isDigit y4 = true)
    /\ (isDigit m1 = true /\ isDigit m2 = true)
    /\ (isDigit d1 = true /\ isDigit d2 = true)
    /\ y = 1000 * digitVal y1 + 100 * digitVal y2 + 10 * digitVal y3 + digitVal y4
    /\ m = 10 * digitVal m1 + digitVal m2
    /\ d = 10 * digitVal d1 + digitVal d2
    /\ 1 <= m <= 12
    /\ 1 <= d <= DaysInMonth (m - 1) (InLeapYear y).
Proof.
  intros E. pose proof (isoDateOnly_length _ _ E) as L.
  destruct s as [|y1 [|y2 [|y3 [|y4 [|h1 [|m1 [|m2 [|h2 [|d1 [|d2 [|? ?]]]]]]]]]]];
    try discriminate L.
  clear L. unfold isoDateOnly in E.
  destruct (isDigit y1) eqn:Y1; [|discriminate].
  destruct (isDigit y2) eqn:Y2; [|discriminate].
  destruct (isDigit y3) eqn:Y3; [|discriminate].
  destruct (isDigit y4) eqn:Y4; [|discriminate].
  destruct (Ascii.eqb_spec h1 "-") as [->|]; [|discriminate].
  destruct (isDigit m1) eqn:M1; [|discriminate].
  destruct (isDigit m2) eqn:M2; [|discriminate].
  destruct (Ascii.eqb_spec h2 "-") as [->|]; [|discriminate].
  destruct (isDigit d1) eqn:D1; [|discriminate].
  destruct (isDigit d2) eqn:D2; [|discriminate].
  cbn [andb] in E.
  match type of E with
  | (if ?c then _ else _) = _ => destruct c eqn:C; [|discriminate]
  end.
  injection E as <- <- <-.
  apply andb_prop in C as [C C4]. apply andb_prop in C as [C C3].
  apply andb_prop in C as [C1 C2].
  apply Z.leb_le in C1, C2, C3, C4.
  exists y1, y2, y3, y4, m1, m2, d1, d2.
  repeat split; auto; lia.
Qed.

Lemma DayFromYear_bounds y :
  0 <= y <= 9999 -> -719528 <= DayFromYear y <= 2932532.
Proof. intros Hy. unfold DayFromYear. zdiv. Qed.

Lemma monthStart_bounds m leap :
  0 <= leap <= 1 -> 0 <= monthStart m leap <= 335.
Proof.
  intros Hl. unfold monthStart.
  repeat match goal with |- context [?a =? ?b] => destruct (a =? b) end; lia.
Qed.

Lemma DaysInMonth_bounds m leap :
  0 <= leap <= 1 -> 28 <= DaysInMonth m leap <= 31.
Proof.
  intros Hl. unfold DaysInMonth.
  repeat match goal with |- context [?a =? ?b] => destruct (a =? b) end;
    cbn [orb]; lia.
Qed.

Section RoundTrip.
Context `{Host}.

(** A date-only string is parsed by the native rule, as midnight UTC. *)
Lemma parseDate_isoDateOnly (s : string) (y m d : Z) :
  isoDateOnly s = Some (y, m, d) ->
  parseDate s = Some (mkDate (Some (MakeDay y (m - 1) d * msPerDay)))
  /\ validYMD y (m - 1) d /\ 0 <= y <= 9999.
Proof.
  intros E.
  destruct (isoDateOnly_inv _ _ _ _ E)
    as (y1 & y2 & y3 & y4 & m1 & m2 & d1 & d2 & -> & (Y1 & Y2 & Y3 & Y4)
        & (M1 & M2) & (D1 & D2) & Hy & Hm & Hd & Rm & Rd).
  pose proof (digitVal_range _ Y1). pose proof (digitVal_range _ Y2).
  pose proof (digitVal_range _ Y3). pose proof (digitVal_range _ Y4).
  assert (Ry : 0 <= y <= 9999) by lia.
  assert (V : validYMD y (m - 1) d) by (split; lia).
  split; [|split; assumption].
  set (s := String y1 _) in *.
  assert (Htrim : trim s = s).
  { subst s.
    change (String y1 (String y2 (String y3 (String y4 (String "-"
              (String m1 (String m2 (String "-" (String d1 (String d2 EmptyString))))))))))
      with (String y1 ((String y2 (String y3 (String y4 (String "-"
              (String m1 (String m2 (String "-" (String d1 EmptyString)))))))) ++ String d2 EmptyString)).
    apply trim_fixed; apply isDigit_not_space; assumption. }
  unfold parseDate. rewrite Htrim.
  replace (truthy s) with true by reflexivity. cbn [negb].
  unfold newDateFromString, Date_parse. rewrite E. cbn [getTime].
  unfold MakeDate, TimeClip. rewrite Z.add_0_r.
  pose proof (DayFromYear_bounds y Ry) as By.
  pose proof (InLeapYear_cases y) as L.
  pose proof (monthStart_bounds ((m - 1) mod 12) (InLeapYear (y + (m - 1) / 12))) as Bm.
  pose proof (DaysInMonth_bounds (m - 1) (InLeapYear y)) as Bd.
  assert (Hday : -719528 <= MakeDay y (m - 1) d <= 2932532 + 335 + 31).
  { unfold MakeDay in *. replace ((m - 1) / 12) with 0 in * by zdiv.
    rewrite Z.add_0_r in *. lia. }
  destruct (Z.leb_spec (Z.abs (MakeDay y (m - 1) d * msPerDay)) maxTime) as [_|Hbad].
  - reflexivity.
  - unfold msPerDay, maxTime in Hbad. lia.
Qed.

(** Where local time is not behind UTC at midnight UTC of a day, the
    local calendar day of that instant is the same day. *)
Lemma local_fields_of_midnight (y m d : Z) :
  validYMD y m d ->
  0 <= LocalTZA (MakeDay y m d * msPerDay) true < msPerDay ->
  let t := LocalTime (MakeDay y m d * msPerDay) in
  YearFromTime t = y /\ MonthFromTime t = m /\ DateFromTime t = d.
Proof.
  intros V Htz t.
  assert (Hday : Day t = MakeDay y m d).
  { subst t. unfold Day, LocalTime.
    set (z := LocalTZA _ true) in *. clearbody z.
    unfold msPerDay in *. zdiv. }
  destruct (civil_roundtrip y m d V) as (Ey & Em & Ed).
  assert (Hm : MonthFromTime t = m).
  { unfold MonthFromTime, DayWithinYear, YearFromTime. rewrite Hday, Ey. exact Em. }
  unfold DateFromTime. rewrite Hm.
  unfold DayWithinYear, YearFromTime. rewrite Hday, Ey. auto.
Qed.

End RoundTrip.

Section RoundTripClaim.
Context `{Host}.

(** C7 (amended). For every date-only string [YYYY-MM-DD] of a day that
    exists, with a year from 1000 on, on a host whose local time is never
    behind UTC (and less than a day ahead), formatting the parsed date
    gives the string back. *)
Theorem iso_roundtrip (s : string) (y m d : Z) :
  isoDateOnly s = Some (y, m, d) ->
  1000 <= y ->
  (forall t, 0 <= LocalTZA t true < msPerDay) ->
  formatDate (parseDate s) = s.
Proof.
  intros E Hy Htz.
  destruct (parseDate_isoDateOnly s y m d E) as (-> & V & Ry).
  destruct (local_fields_of_midnight y (m - 1) d V (Htz _)) as (Ey & Em & Ed).
  unfold formatDate, getFullYear, getMonth, getDate. cbn [getTime isNaN nadd].
  rewrite Ey, Em, Ed.
  destruct (isoDateOnly_inv _ _ _ _ E)
    as (y1 & y2 & y3 & y4 & m1 & m2 & d1 & d2 & -> & (Y1 & Y2 & Y3 & Y4)
        & (M1 & M2) & (D1 & D2) & Hyv & Hm & Hd & Rm & Rd).
  pose proof (digitVal_range _ Y1). pose proof (digitVal_range _ Y2).
  pose proof (digitVal_range _ Y3). pose proof (digitVal_range _ Y4).
  pose proof (digitVal_range _ M1). pose proof (digitVal_range _ M2).
  pose proof (digitVal_range _ D1). pose proof (digitVal_range _ D2).
  unfold NumberToString.
  destruct (Z.ltb_spec y 0); [lia|].
  destruct (Z.ltb_spec (m - 1 + 1) 0); [lia|].
  destruct (Z.ltb_spec d 0); [lia|].
  replace (m - 1 + 1) with m by lia.
  rewrite Hyv, Hm, Hd.
  rewrite decimal_four, !padStart2_decimal by lia.
  rewrite !digitChar_digitVal by assumption.
  reflexivity.
Qed.

End RoundTripClaim.

(** ** The priority chain *)

Ltac decide_eqb :=
  repeat match goal with
         | |- context [String.eqb ?a ?b] =>
             destruct (String.eqb_spec a b);
             [subst; try reflexivity; try congruence|]
         end;
  try reflexivity.

Lemma months_lookup (monthName : string) :
  lookup (toLowerCase monthName) months = monthIndexOf monthName.
Proof.
  unfold monthIndexOf, months, monthTable.
  generalize (toLowerCase monthName) as key. intros key.
  cbn [lookup find fst snd substring option_map].
  decide_eqb.
Qed.

Section Priority.
Context `{Host}.

Lemma unit_chain (word : string) (n : num) (now : Date) :
  (let unit := toLowerCase word in
   if String.eqb unit "day" || String.eqb unit "days" then
     setDate now (nsub (getDate now) n)
   else if String.eqb unit "week" || String.eqb unit "weeks" then
     setDate now (nsub (getDate now) (nmul n (Some 7)))
   else if String.eqb unit "month" || String.eqb unit "months" then
     setMonth now (nsub (getMonth now) n)
   else if String.eqb unit "year" || String.eqb unit "years" then
     setFullYear now (nsub (getFullYear now) n)
   else now)
  = match timeUnitOf word with
    | Some u => unitsBefore now n u
    | None => now
    end.
Proof.
  unfold timeUnitOf. cbv zeta.
  generalize (toLowerCase word) as unit. intros unit.
  cbn [find fst snd append option_map].
  decide_eqb.
Qed.

Lemma parseNumeric_rules (s : string) :
  parseNumeric s = firstMatch [yearFirstRule; dayFirstRule] s.
Proof.
  unfold parseNumeric, firstMatch, yearFirstRule, dayFirstRule.
  destruct (search numericRe s); [reflexivity|].
  destruct (search euroRe s); reflexivity.
Qed.

End Priority.

(** ** Sessions *)

Section SessionLemmas.
Context `{Puppeteer}.

Lemma extractions_app (t u : list Command) :
  extractions (t ++ u) = (extractions t + extractions u)%nat.
Proof. unfold extractions. rewrite filter_app, length_app. reflexivity. Qed.

Lemma extractions_single (c : Command) :
  extractions [c] = if isExtraction c then 1%nat else 0%nat.
Proof. unfold extractions. cbn [filter]. destruct (isExtraction c); reflexivity. Qed.

Lemma run_call (c : Command) (s : Session) :
  run (call c) s
  = Some (fst (perform c (world s)),
          mkSession (snd (perform c (world s))) (trace s ++ [c])).
Proof. unfold call. cbn [run]. destruct (perform c (world s)); reflexivity. Qed.

Lemma run_bind {A B : Type} (m : M A) (f : A -> M B) (s : Session) :
  run (bind m f) s
  = match run m s with
    | Some (Ok a, s') => run (f a) s'
    | Some (Throw e, s') => Some (Throw e, s')
    | None => None
    end.
Proof. reflexivity. Qed.

Lemma extractsAtMost_weaken {A : Type} (n n' : nat) (m : M A) :
  (n <= n')%nat -> extractsAtMost n m -> extractsAtMost n' m.
Proof.
  intros Hn Hm s. destruct (Hm s) as (r & s' & E & Bd).
  exists r, s'. split; [exact E | lia].
Qed.

Lemma extractsAtMost_ret {A : Type} (a : A) : extractsAtMost 0 (ret a).
Proof. intros s. exists (Ok a), s. split; [reflexivity | lia]. Qed.

Lemma extractsAtMost_throw {A : Type} (e : Error) :
  extractsAtMost 0 (throw (A := A) e).
Proof. intros s. exists (Throw e), s. split; [reflexivity | lia]. Qed.

Lemma extractsAtMost_call (c : Command) :
  extractsAtMost (if isExtraction c then 1 else 0) (call c).
Proof.
  intros s. rewrite run_call. eexists _, _. split; [reflexivity|].
  cbn [trace]. rewrite extractions_app, extractions_single. lia.
Qed.

Lemma extractsAtMost_bind {A B : Type} (n k : nat) (m : M A) (f : A -> M B) :
  extractsAtMost n m -> (forall a, extractsAtMost k (f a)) ->
  extractsAtMost (n + k) (bind m f).
Proof.
  intros Hm Hf s. destruct (Hm s) as (r & s1 & E & Bd).
  rewrite run_bind, E. destruct r as [a|e].
  - destruct (Hf a s1) as (r2 & s2 & E2 & Bd2).
    exists r2, s2. split; [exact E2 | lia].
  - exists (Throw e), s1. split; [reflexivity | lia].
Qed.

Lemma extractsAtMost_tryCatch {A : Type} (n k : nat) (m : M A)
    (handler : Error -> M A) :
  extractsAtMost n m -> (forall e, extractsAtMost k (handler e)) ->
  extractsAtMost (n + k) (tryCatch m handler).
Proof.
  intros Hm Hh s. destruct (Hm s) as (r & s1 & E & Bd).
  unfold tryCatch. cbn [run]. rewrite E. destruct r as [a|e].
  - exists (Ok a), s1. split; [reflexivity | lia].
  - destruct (Hh e s1) as (r2 & s2 & E2 & Bd2).
    exists r2, s2. split; [exact E2 | lia].
Qed.

Lemma extractsAtMost_finally {A : Type} (n k : nat) (m : M A) (cleanup : M unit) :
  extractsAtMost n m -> extractsAtMost k cleanup ->
  extractsAtMost (n + k) (finally_ m cleanup).
Proof.
  intros Hm Hc s. destruct (Hm s) as (r & s1 & E & Bd).
  destruct (Hc s1) as (r2 & s2 & E2 & Bd2).
  unfold finally_. cbn [run]. rewrite E, E2.
  destruct r2 as [[]|e]; eexists _, _; (split; [reflexivity | lia]).
Qed.

Lemma extractsAtMost_attempt {A : Type} (n : nat) (m : M A) :
  extractsAtMost n m -> extractsAtMost n (attempt m).
Proof.
  intros Hm s. destruct (Hm s) as (r & s1 & E & Bd).
  unfold attempt. cbn [run]. rewrite E.
  destruct r; eexists _, _; (split; [reflexivity | lia]).
Qed.

Lemma extractsAtMost_evaluate {A : Type} (script : Script) (f : Document -> A) :
  extractsAtMost (if isExtraction (Evaluate script) then 1 else 0)
                 (evaluate script f).
Proof.
  unfold evaluate.
  replace (if isExtraction (Evaluate script) then 1 else 0)%nat
    with ((if isExtraction (Evaluate script) then 1 else 0) + 0)%nat by lia.
  apply extractsAtMost_bind; [apply extractsAtMost_call|].
  intros _ s. eexists _, _. split; [reflexivity | lia].
Qed.

Lemma extractsAtMost_url : extractsAtMost 0 url.
Proof. intros s. eexists _, _. split; [reflexivity | lia]. Qed.

Lemma fulfils_ret {A : Type} (a : A) : fulfils (ret a).
Proof. intros s. exists a, s. reflexivity. Qed.

Lemma fulfils_bind {A B : Type} (m : M A) (f : A -> M B) :
  fulfils m -> (forall a, fulfils (f a)) -> fulfils (bind m f).
Proof.
  intros Hm Hf s. destruct (Hm s) as (a & s1 & E).
  rewrite run_bind, E. apply Hf.
Qed.

(** A [try] whose handler is always fulfilled is always fulfilled, as
    soon as its body settles. *)
Lemma fulfils_tryCatch {A : Type} (n : nat) (m : M A) (handler : Error -> M A) :
  extractsAtMost n m -> (forall e, fulfils (handler e)) ->
  fulfils (tryCatch m handler).
Proof.
  intros Hm Hh s. destruct (Hm s) as (r & s1 & E & _).
  unfold tryCatch. cbn [run]. rewrite E. destruct r as [a|e].
  - exists a, s1. reflexivity.
  - apply Hh.
Qed.

End SessionLemmas.

(** ** The page cap, in any world *)

Section PaginateLemmas.
Context `{Puppeteer}.

Lemma paginate_bound (waitSelector nextSelector : string)
    (extractPage : Document -> list Review) (maxPages : nat) :
  forall (k currentPage : nat) (hasNextPage : bool) (allReviews : list Review),
    (2 * (S maxPages - currentPage) + Nat.b2n hasNextPage <= k)%nat ->
    extractsAtMost (if hasNextPage then S maxPages - currentPage else 0)
      (paginate waitSelector nextSelector extractPage maxPages currentPage
                hasNextPage allReviews).
Proof.
  induction k as [|k IH]; intros currentPage hasNextPage allReviews Hk;
    rewrite paginate_equation_1; unfold paginate_unfold_clause_1;
    destruct (sumbool_of_bool (hasNextPage && (currentPage <=? maxPages)%nat))
      as [Hloop|Hloop];
    try (eapply extractsAtMost_weaken; [|apply extractsAtMost_ret]; lia).
  - apply andb_prop in Hloop as [-> Hle]. apply Nat.leb_le in Hle.
    cbn [Nat.b2n] in Hk. lia.
  - apply andb_prop in Hloop as [-> Hle]. apply Nat.leb_le in Hle.
    cbn [Nat.b2n] in Hk.
    apply extractsAtMost_weaken with (0 + (1 + (0 + (maxPages - currentPage))))%nat;
      [lia|].
    apply extractsAtMost_bind;
      [apply extractsAtMost_attempt, (extractsAtMost_call (WaitForSelector _))|].
    intros _.
    apply extractsAtMost_bind;
      [apply (extractsAtMost_evaluate ExtractReviews)|].
    intros pageReviews. cbv zeta.
    apply extractsAtMost_bind; [apply (extractsAtMost_evaluate NextPage)|].
    intros hasNext.
    destruct (sumbool_of_bool (hasNext && (currentPage <? maxPages)%nat))
      as [Hnext|Hnext].
    + apply andb_prop in Hnext as [-> Hlt]. apply Nat.ltb_lt in Hlt.
      apply extractsAtMost_weaken with (0 + (maxPages - currentPage))%nat; [lia|].
      apply extractsAtMost_bind;
        [apply extractsAtMost_attempt,
           (extractsAtMost_call (ClickAndWaitForNavigation _))|].
      intros navigated. cbv zeta.
      eapply extractsAtMost_weaken; [|apply IH].
      * destruct navigated; lia.
      * destruct navigated; cbn [Nat.b2n]; lia.
    + eapply extractsAtMost_weaken; [|apply IH]; cbn [Nat.b2n]; lia.
Qed.

(** From the first page on, at most [maxPages] pages are extracted. *)
Lemma paginate_cap (waitSelector nextSelector : string)
    (extractPage : Document -> list Review) (maxPages : nat) :
  extractsAtMost maxPages
    (paginate waitSelector nextSelector extractPage maxPages 1 true []).
Proof.
  eapply extractsAtMost_weaken;
    [|apply (paginate_bound _ _ _ maxPages (2 * maxPages + 1) 1 true [])];
    cbn [Nat.b2n]; lia.
Qed.

End PaginateLemmas.

Section ScraperBounds.
Context `{Host} `{Puppeteer}.

Ltac step :=
  first
    [ apply extractsAtMost_ret
    | apply extractsAtMost_url
    | apply extractsAtMost_attempt
    | apply (extractsAtMost_call Close)
    | apply (extractsAtMost_call NewPage)
    | apply (extractsAtMost_call (Launch _))
    | apply (extractsAtMost_call (Goto _))
    | apply (extractsAtMost_call (SetDefaultNavigationTimeout _))
    | apply (extractsAtMost_evaluate NotFoundIndicator)
    | apply (extractsAtMost_evaluate FindProductUrl)
    | apply (extractsAtMost_evaluate ProductFound)
    | apply paginate_cap ].

Ltac chain n :=
  apply extractsAtMost_weaken with (0 + n)%nat; [lia|];
  apply extractsAtMost_bind; [step | intros ?; cbv zeta].

Lemma trustRadiusTry_cap (companyName : string) (startDate endDate : Date)
    (maxPages : nat) :
  extractsAtMost maxPages
    (trustRadiusTry companyName startDate endDate maxPages).
Proof.
  unfold trustRadiusTry.
  do 4 chain maxPages.
  assert (Hscrape :
            extractsAtMost maxPages
              (allReviews <- paginate ".review-card, .review-container"
                               trustRadiusNext trustRadiusPage maxPages 1 true [] ;;
               ret (Success (dateFilter startDate endDate allReviews) None))).
  { apply extractsAtMost_weaken with (maxPages + 0)%nat; [lia|].
    apply extractsAtMost_bind; [step | intros ?; step]. }
  match goal with |- context [if ?b then _ else _] => destruct b end.
  - do 2 chain maxPages.
    match goal with |- context [if ?b then _ else _] => destruct b end.
    + eapply extractsAtMost_weaken; [|step]; lia.
    + do 2 chain maxPages. exact Hscrape.
  - do 2 chain maxPages. exact Hscrape.
Qed.

Lemma capterraTry_cap (companyName : string) (startDate endDate : Date)
    (maxPages : nat) :
  extractsAtMost maxPages
    (capterraTry companyName startDate endDate maxPages).
Proof.
  unfold capterraTry.
  do 4 chain maxPages.
  match goal with |- context [if ?b then _ else _] => destruct b end.
  - eapply extractsAtMost_weaken; [|step]; lia.
  - chain maxPages.
    apply extractsAtMost_weaken with (maxPages + 0)%nat; [lia|].
    apply extractsAtMost_bind; [step | intros ?; step].
Qed.

(** The frame every scraper puts around its [try] block. *)
Lemma guarded_cap (headless : bool) (n : nat) (block : M Result) :
  extractsAtMost n block ->
  extractsAtMost n
    (_ <- call (Launch headless) ;;
     finally_ (tryCatch block (fun error => ret (Failure error))) (call Close)).
Proof.
  intros Hb.
  chain n.
  apply extractsAtMost_weaken with (n + 0)%nat; [lia|].
  apply extractsAtMost_finally; [|step].
  apply extractsAtMost_weaken with (n + 0)%nat; [lia|].
  apply extractsAtMost_tryCatch; [exact Hb | intros e; step].
Qed.

Lemma trustRadius_cap (companyName : string) (startDate endDate : Date)
    (maxPages : nat) :
  extractsAtMost maxPages
    (scrapeTrustRadiusReviews companyName startDate endDate maxPages).
Proof. apply guarded_cap, trustRadiusTry_cap. Qed.

Lemma capterra_cap (companyName : string) (startDate endDate : Date)
    (maxPages : nat) :
  extractsAtMost maxPages
    (scrapeCapterraReviews companyName startDate endDate maxPages).
Proof. apply guarded_cap, capterraTry_cap. Qed.

(** When the browser launches and closes without error, the frame turns
    every outcome of the [try] block into a result: what the block returns,
    or a failure carrying the message of the error it throws. *)
Lemma guarded_result (headless : bool) (n : nat) (block : M Result) (s : Session) :
  extractsAtMost n block ->
  fst (perform (Launch headless) (world s)) = Ok tt ->
  (forall w, fst (perform Close w) = Ok tt) ->
  let s1 := mkSession (snd (perform (Launch headless) (world s)))
                      (trace s ++ [Launch headless]) in
  exists res s',
    run (_ <- call (Launch headless) ;;
         finally_ (tryCatch block (fun error => ret (Failure error)))
                  (call Close)) s
    = Some (Ok res, s')
    /\ (forall r s2, run block s1 = Some (Ok r, s2) -> res = r)
    /\ (forall e s2, run block s1 = Some (Throw e, s2) -> res = Failure e).
Proof.
  intros Hb Hlaunch Hclose s1.
  rewrite run_bind, run_call, Hlaunch. fold s1.
  destruct (Hb s1) as (r & s2 & E & _).
  unfold finally_, tryCatch. cbn [run]. rewrite E.
  destruct r as [res|e].
  - rewrite run_call, Hclose. eexists _, _. split; [reflexivity|].
    split; intros ? ? [=]; subst; reflexivity.
  - cbn [ret run]. rewrite run_call, Hclose. eexists _, _.
    split; [reflexivity|].
    split; intros ? ? [=]; subst; reflexivity.
Qed.

End ScraperBounds.

(** ** G2 as compiled, and the request handler *)

Section G2Lemmas.
Context `{Host} `{Puppeteer}.

Lemma scrapeG2_valid (fuel : nat) (companyName : string)
    (startDate endDate : Date) (maxPages : nat) (s : Session) :
  isNaN (getTime startDate) = false -> isNaN (getTime endDate) = false ->
  run (scrapeG2Reviews fuel companyName startDate endDate maxPages) s
  = Some (Ok (Success (dateFilter startDate endDate mockData) (Some mockNote)), s).
Proof.
  intros Hs He. unfold scrapeG2Reviews, toISOString. rewrite Hs, He. reflexivity.
Qed.

Lemma scrapeG2_invalid (fuel : nat) (companyName : string)
    (startDate endDate : Date) (maxPages : nat) (s : Session) :
  isNaN (getTime startDate) || isNaN (getTime endDate) = true ->
  run (scrapeG2Reviews fuel companyName startDate endDate maxPages) s
  = Some (Throw "Invalid time value", s).
Proof.
  unfold scrapeG2Reviews, toISOString.
  destruct (isNaN (getTime startDate)), (isNaN (getTime endDate));
    try discriminate; reflexivity.
Qed.

(** Whatever its arguments, the G2 scraper settles without a single call
    to the browser. *)
Lemma scrapeG2_no_calls (fuel : nat) (companyName : string)
    (startDate endDate : Date) (maxPages : nat) (s : Session) :
  exists r,
    run (scrapeG2Reviews fuel companyName startDate endDate maxPages) s
    = Some (r, s).
Proof.
  destruct (isNaN (getTime startDate)) eqn:Hs;
    [|destruct (isNaN (getTime endDate)) eqn:He].
  - eexists. apply scrapeG2_invalid. rewrite Hs. reflexivity.
  - eexists. apply scrapeG2_invalid. rewrite He. apply orb_true_r.
  - eexists. apply scrapeG2_valid; assumption.
Qed.

Lemma g2_cap (fuel : nat) (companyName : string)
    (startDate endDate : Date) (maxPages : nat) :
  extractsAtMost 0 (scrapeG2Reviews fuel companyName startDate endDate maxPages).
Proof.
  intros s.
  destruct (scrapeG2_no_calls fuel companyName startDate endDate maxPages s)
    as (r & E).
  exists r, s. split; [exact E | lia].
Qed.

(** The handler answers every request, whatever the browser does. *)
Lemma handler_fulfils (fuel : nat) (req : Request) :
  fulfils (scrapeReviewsHandler fuel req).
Proof.
  unfold scrapeReviewsHandler.
  destruct (negb (truthy (reqCompanyName req))); [apply fulfils_ret|].
  destruct (negb (truthy (reqStartDate req)) || negb (truthy (reqEndDate req)));
    [apply fulfils_ret|].
  destruct (negb (truthy (reqSource req))); [apply fulfils_ret|].
  destruct (parseDate (reqStartDate req)) as [parsedStartDate|];
    [|apply fulfils_ret].
  destruct (parseDate (reqEndDate req)) as [parsedEndDate|];
    [|apply fulfils_ret].
  apply fulfils_tryCatch with (n := (10 + 0)%nat);
    [|intros e; apply fulfils_ret].
  cbv zeta.
  match goal with
  | |- context [bind _ ?respond] =>
      assert (Hrespond : forall result, extractsAtMost 0 (respond result))
  end.
  { intros [[|r data] note|error]; try apply extractsAtMost_ret.
    apply extractsAtMost_weaken with (0 + 0)%nat; [lia|].
    apply extractsAtMost_bind;
      [apply (extractsAtMost_call (WriteFile _))
      |intros _; apply extractsAtMost_ret]. }
  destruct (String.eqb _ "g2").
  { apply extractsAtMost_weaken with (0 + 0)%nat; [lia|].
    apply extractsAtMost_bind; [apply g2_cap | exact Hrespond]. }
  destruct (String.eqb _ "capterra").
  { apply extractsAtMost_bind; [apply capterra_cap | exact Hrespond]. }
  destruct (String.eqb _ "trustradius").
  { apply extractsAtMost_bind; [apply trustRadius_cap | exact Hrespond]. }
  eapply extractsAtMost_weaken; [|apply extractsAtMost_ret]. lia.
Qed.

End G2Lemmas.

(** ** Runs on the simulated site *)

Lemma sim_call_other (c : Command) (s : Session) :
  match c with
  | Goto _ | ClickAndWaitForNavigation _ => False
  | _ => True
  end ->
  run (call c) s = Some (Ok tt, mkSession (world s) (trace s ++ [c])).
Proof. intros Hc. rewrite run_call. destruct c; try contradiction; reflexivity. Qed.

Lemma sim_goto (u : string) (s : Session) (d : Document) (ds : list Document) :
  web (site (world s)) u = Some (d :: ds) ->
  run (call (Goto u)) s
  = Some (Ok tt, mkSession (mkSim (site (world s)) d ds u 1) (trace s ++ [Goto u])).
Proof.
  intros E. rewrite run_call. cbn [perform simPuppeteer simPerform]. rewrite E.
  reflexivity.
Qed.

Lemma sim_goto_fails (u : string) (s : Session) :
  web (site (world s)) u = None ->
  run (call (Goto u)) s
  = Some (Throw ("net::ERR_ABORTED at " ++ u), mkSession (world s) (trace s ++ [Goto u])).
Proof.
  intros E. rewrite run_call. cbn [perform simPuppeteer simPerform]. rewrite E.
  reflexivity.
Qed.

Lemma sim_evaluate {A : Type} (script : Script) (f : Document -> A) (s : Session) :
  run (evaluate script f) s
  = Some (Ok (f (shown (world s))),
          mkSession (world s) (trace s ++ [Evaluate script])).
Proof. unfold evaluate. rewrite run_bind, sim_call_other by exact I. reflexivity. Qed.

Lemma sim_attempt_other (c : Command) (s : Session) :
  match c with
  | Goto _ | ClickAndWaitForNavigation _ => False
  | _ => True
  end ->
  run (attempt (call c)) s = Some (Ok true, mkSession (world s) (trace s ++ [c])).
Proof. intros Hc. unfold attempt. cbn [run]. rewrite sim_call_other by exact Hc. reflexivity. Qed.

Lemma sim_attempt_click (sel : string) (st : Site) (d d' : Document)
    (ds : list Document) (addr : string) (p : nat) (t : list Command) :
  run (attempt (call (ClickAndWaitForNavigation sel)))
      (mkSession (mkSim st d (d' :: ds) addr p) t)
  = Some (if clickFails st p
          then (Ok false, mkSession (mkSim st d (d' :: ds) addr p)
                            (t ++ [ClickAndWaitForNavigation sel]))
          else (Ok true, mkSession (mkSim st d' ds addr (S p))
                           (t ++ [ClickAndWaitForNavigation sel]))).
Proof.
  unfold attempt. cbn [run]. rewrite run_call.
  cbn [perform simPuppeteer simPerform world trace ahead site position address].
  destruct (clickFails st p); reflexivity.
Qed.

Lemma paginate_stop `{Puppeteer} (w n : string) (e : Document -> list Review)
    (maxPages currentPage : nat) (acc : list Review) :
  paginate w n e maxPages currentPage false acc = ret acc.
Proof.
  rewrite paginate_equation_1. unfold paginate_unfold_clause_1.
  destruct (sumbool_of_bool (false && (currentPage <=? maxPages)%nat)) as [E|E];
    [discriminate E | reflexivity].
Qed.

Lemma listingPages_cons (itemSel nextSel : string) (items : list Element)
    (rest : list (list Element)) :
  listingPages itemSel nextSel (items :: rest)
  = listing itemSel nextSel items (match rest with [] => false | _ => true end)
    :: listingPages itemSel nextSel rest.
Proof. destruct rest; reflexivity. Qed.

Lemma visited_cons (fails : nat -> bool) (maxPages currentPage : nat)
    (items : list Element) (rest : list (list Element)) :
  visited fails maxPages currentPage (items :: rest)
  = items :: (if (currentPage <? maxPages)%nat && negb (fails currentPage)
              then visited fails maxPages (S currentPage) rest else []).
Proof. reflexivity. Qed.

(** The loop on a listing of the simulated site: it accumulates the
    reviews of the visited pages, one extraction per page. *)
Lemma paginate_listing (waitSel itemSel nextSel : string)
    (extractItem : Element -> Review) (extractPage : Document -> list Review)
    (st : Site) (maxPages : nat) :
  (forall items more,
      extractPage (listing itemSel nextSel items more) = map extractItem items) ->
  (forall items more,
      notNull (documentQuerySelector (listing itemSel nextSel items more) nextSel)
      = more) ->
  forall (rest : list (list Element)) (items : list Element)
         (currentPage : nat) (acc : list Review) (t : list Command) (addr : string),
    (currentPage <= maxPages)%nat ->
    exists s',
      run (paginate waitSel nextSel extractPage maxPages currentPage true acc)
          (mkSession
             (mkSim st
                (listing itemSel nextSel items
                   (match rest with [] => false | _ => true end))
                (listingPages itemSel nextSel rest) addr currentPage) t)
      = Some (Ok (acc ++ flat_map (map extractItem)
                           (visited (clickFails st) maxPages currentPage
                                    (items :: rest)))%list, s')
      /\ extractions (trace s')
         = (extractions t
            + List.length (visited (clickFails st) maxPages currentPage
                                   (items :: rest)))%nat.
Proof.
  intros Hextract Hnext.
  induction rest as [|items' rest IH]; intros items currentPage acc t addr Hle;
    rewrite paginate_equation_1; unfold paginate_unfold_clause_1;
    (destruct (sumbool_of_bool (true && (currentPage <=? maxPages)%nat)) as [_|E];
     [|cbn [andb] in E; apply Nat.leb_gt in E; lia]);
    rewrite run_bind, sim_attempt_other by exact I;
    rewrite run_bind, sim_evaluate; cbv zeta;
    rewrite run_bind, sim_evaluate;
    cbn [world shown trace]; rewrite Hextract, Hnext.
  - destruct (sumbool_of_bool (false && (currentPage <? maxPages)%nat)) as [E|_];
      [discriminate E|].
    rewrite paginate_stop. eexists. split; [cbn [ret run]; f_equal; f_equal|].
    + cbn [visited flat_map]. f_equal. f_equal.
      destruct ((currentPage <? maxPages)%nat && negb (clickFails st currentPage));
        cbn [visited flat_map]; rewrite app_nil_r; reflexivity.
    + cbn [trace visited]. rewrite !extractions_app, !extractions_single.
      cbn [isExtraction].
      destruct ((currentPage <? maxPages)%nat && negb (clickFails st currentPage));
        cbn [visited List.length]; lia.
  - destruct (sumbool_of_bool (true && (currentPage <? maxPages)%nat)) as [E|E];
      cbn [andb] in E.
    + rewrite listingPages_cons, run_bind, sim_attempt_click.
      rewrite visited_cons, E. cbn [andb].
      destruct (clickFails st currentPage); cbn [negb]; cbv zeta.
      * rewrite paginate_stop. eexists.
        split; [cbn [ret run flat_map]; rewrite app_nil_r; reflexivity|].
        cbn [trace List.length]. rewrite !extractions_app, !extractions_single.
        cbn [isExtraction]. lia.
      * apply Nat.ltb_lt in E.
        destruct (IH items' (S currentPage) (acc ++ map extractItem items)%list
                    ((((t ++ [WaitForSelector waitSel]) ++ [Evaluate ExtractReviews])
                       ++ [Evaluate NextPage])
                       ++ [ClickAndWaitForNavigation nextSel])%list addr)
          as (s' & Erun & Ecount); [lia|].
        exists s'. split.
        -- rewrite Erun. cbn [flat_map]. rewrite <- app_assoc. reflexivity.
        -- rewrite Ecount. rewrite !extractions_app, !extractions_single.
           cbn [isExtraction List.length]. lia.
    + rewrite paginate_stop, visited_cons, E. cbn [andb].
      eexists. split; [cbn [ret run flat_map]; rewrite app_nil_r; reflexivity|].
      cbn [trace List.length]. rewrite !extractions_app, !extractions_single.
      cbn [isExtraction]. lia.
Qed.

Lemma sapp_neq (a b : string) : b <> EmptyString -> a ++ b <> a.
Proof.
  intros Hb E. apply (f_equal String.length) in E. rewrite slength_app in E.
  destruct b; [congruence | cbn [String.length] in E; lia].
Qed.

Lemma web_trustRadius_product (c : string) (pages : list (list Element))
    (fails : nat -> bool) :
  web (trustRadiusSite c pages fails) (trustRadiusProductUrl c)
  = Some [mkDocument "Product" (fun _ => [])].
Proof. unfold trustRadiusSite. cbn [web]. rewrite String.eqb_refl. reflexivity. Qed.

Lemma web_trustRadius_reviews (c : string) (pages : list (list Element))
    (fails : nat -> bool) :
  web (trustRadiusSite c pages fails) (trustRadiusProductUrl c ++ "/reviews")
  = Some (listingPages ".review-card, .review-container" trustRadiusNext pages).
Proof.
  unfold trustRadiusSite. cbn [web].
  destruct (String.eqb_spec (trustRadiusProductUrl c ++ "/reviews")
                            (trustRadiusProductUrl c)) as [E|_].
  - exfalso. revert E. apply sapp_neq. discriminate.
  - rewrite String.eqb_refl. reflexivity.
Qed.

Lemma sim_guarded (headless : bool) (block : M Result) (s : Session)
    (r : Result) (s2 : Session) :
  run block (mkSession (world s) (trace s ++ [Launch headless])) = Some (Ok r, s2) ->
  run (_ <- call (Launch headless) ;;
       finally_ (tryCatch block (fun error => ret (Failure error))) (call Close)) s
  = Some (Ok r, mkSession (world s2) (trace s2 ++ [Close])).
Proof.
  intros E. rewrite run_bind, sim_call_other by exact I.
  unfold finally_, tryCatch. cbn [run]. rewrite E.
  rewrite sim_call_other by exact I. reflexivity.
Qed.

Section OnSite.
Context `{Host}.

Lemma trustRadiusPage_listing (items : list Element) (more : bool) :
  trustRadiusPage (listing ".review-card, .review-container" trustRadiusNext items more)
  = map trustRadiusReview items.
Proof. reflexivity. Qed.

Lemma trustRadiusNext_listing (items : list Element) (more : bool) :
  notNull (documentQuerySelector
             (listing ".review-card, .review-container" trustRadiusNext items more)
             trustRadiusNext)
  = more.
Proof. destruct more; reflexivity. Qed.

(** A whole TrustRadius scrape of the simulated site. *)
Lemma trustRadius_on_site (c : string) (sd ed : Date) (maxPages : nat)
    (items : list Element) (rest : list (list Element)) (fails : nat -> bool) :
  (1 <= maxPages)%nat ->
  exists s',
    run (scrapeTrustRadiusReviews c sd ed maxPages)
        (start (trustRadiusSite c (items :: rest) fails))
    = Some (Ok (Success
                  (dateFilter sd ed
                     (flat_map (map trustRadiusReview)
                               (visited fails maxPages 1 (items :: rest))))
                  None), s')
    /\ extractions (trace s')
       = List.length (visited fails maxPages 1 (items :: rest)).
Proof.
  intros Hmax.
  set (st := trustRadiusSite c (items :: rest) fails).
  assert (Htry : exists s2,
             run (trustRadiusTry c sd ed maxPages)
                 (mkSession (fresh st) ([] ++ [Launch true]))
             = Some (Ok (Success
                           (dateFilter sd ed
                              (flat_map (map trustRadiusReview)
                                 (visited fails maxPages 1 (items :: rest))))
                           None), s2)
             /\ extractions (trace s2)
                = List.length (visited fails maxPages 1 (items :: rest))).
  { unfold trustRadiusTry.
    rewrite run_bind, sim_call_other by exact I.
    rewrite run_bind, sim_call_other by exact I.
    cbv zeta. fold (trustRadiusProductUrl c).
    rewrite run_bind.
    erewrite sim_goto by (cbn [world site fresh]; apply web_trustRadius_product).
    rewrite run_bind, sim_evaluate. cbn [world shown trace site].
    change (trustRadiusNotFound (mkDocument "Product" (fun _ => []))) with false.
    cbv iota.
    rewrite run_bind. cbn [url run world currentUrl simPuppeteer address].
    rewrite run_bind.
    erewrite sim_goto
      by (cbn [world site fresh]; subst st;
          rewrite web_trustRadius_reviews, listingPages_cons; reflexivity).
    cbn [world site trace fresh].
    rewrite run_bind.
    match goal with
    | |- context [run (paginate _ _ _ _ _ _ _) (mkSession (mkSim _ _ _ ?addr _) ?t)] =>
        destruct (paginate_listing ".review-card, .review-container"
                    ".review-card, .review-container" trustRadiusNext
                    trustRadiusReview trustRadiusPage st maxPages
                    trustRadiusPage_listing trustRadiusNext_listing
                    rest items 1%nat [] t addr Hmax)
          as (s2 & Erun & Ecount)
    end.
    rewrite Erun. cbv zeta. cbn [ret run app].
    exists s2. split; [reflexivity|].
    rewrite Ecount. reflexivity. }
  destruct Htry as (s2 & Etry & Ecount).
  unfold scrapeTrustRadiusReviews.
  eexists. split.
  - apply (sim_guarded true _ (start st) _ s2). exact Etry.
  - cbn [trace]. rewrite extractions_app, extractions_single, Ecount.
    cbn [isExtraction]. lia.
Qed.

End OnSite.

Lemma prefix_refl (s : string) : String.prefix s s = true.
Proof.
  induction s as [|a s IH]; cbn [String.prefix]; [reflexivity|].
  destruct (ascii_dec a a); [exact IH | congruence].
Qed.

Lemma includes_refl (s : string) : includes s s = true.
Proof. destruct s; cbn [includes]; rewrite prefix_refl; reflexivity. Qed.

Section OnCapterra.
Context `{Host}.

Lemma web_capterra_search (c : string) (pages : list (list Element))
    (fails : nat -> bool) :
  exists product,
    web (capterraSite c pages fails) (capterraSearchUrl c)
    = Some [mkDocument "Search"
              (fun sel => if String.eqb sel ".product-card" then [product] else [])]
    /\ querySelector product ".product-card__product-name" = Some (textNode c)
    /\ option_map href
         (querySelector product ("a[href*=" ++ dq ++ "reviews" ++ dq ++ "]"))
       = Some "https://www.capterra.com/p/reviews".
Proof.
  unfold capterraSite. cbv zeta. cbn [web].
  rewrite String.eqb_refl. eexists. split; [reflexivity|]. split; reflexivity.
Qed.

Lemma web_capterra_reviews (c : string) (pages : list (list Element))
    (fails : nat -> bool) :
  web (capterraSite c pages fails) "https://www.capterra.com/p/reviews"
  = Some (listingPages ".review" capterraNext pages).
Proof. reflexivity. Qed.

Lemma capterraPage_listing (items : list Element) (more : bool) :
  capterraPage (listing ".review" capterraNext items more)
  = map capterraReview items.
Proof. reflexivity. Qed.

Lemma capterraNext_listing (items : list Element) (more : bool) :
  notNull (documentQuerySelector (listing ".review" capterraNext items more)
                                 capterraNext)
  = more.
Proof. destruct more; reflexivity. Qed.

(** A whole Capterra scrape of the simulated site. *)
Lemma capterra_on_site (c : string) (sd ed : Date) (maxPages : nat)
    (items : list Element) (rest : list (list Element)) (fails : nat -> bool) :
  trim c = c -> c <> EmptyString ->
  (1 <= maxPages)%nat ->
  exists s',
    run (scrapeCapterraReviews c sd ed maxPages)
        (start (capterraSite c (items :: rest) fails))
    = Some (Ok (Success
                  (dateFilter sd ed
                     (flat_map (map capterraReview)
                               (visited fails maxPages 1 (items :: rest))))
                  None), s')
    /\ extractions (trace s')
       = List.length (visited fails maxPages 1 (items :: rest)).
Proof.
  intros Htrim Hc Hmax.
  set (st := capterraSite c (items :: rest) fails).
  destruct (web_capterra_search c (items :: rest) fails)
    as (product & Hweb & Hname & Hlink).
  fold st in Hweb.
  assert (Htry : exists s2,
             run (capterraTry c sd ed maxPages)
                 (mkSession (fresh st) ([] ++ [Launch true]))
             = Some (Ok (Success
                           (dateFilter sd ed
                              (flat_map (map capterraReview)
                                 (visited fails maxPages 1 (items :: rest))))
                           None), s2)
             /\ extractions (trace s2)
                = List.length (visited fails maxPages 1 (items :: rest))).
  { unfold capterraTry.
    rewrite run_bind, sim_call_other by exact I.
    rewrite run_bind, sim_call_other by exact I.
    cbv zeta. fold (capterraSearchUrl c).
    rewrite run_bind.
    erewrite sim_goto by (cbn [world site fresh]; exact Hweb).
    rewrite run_bind, sim_evaluate. cbn [world shown trace site].
    unfold capterraReviewsLink.
    cbn [documentQuerySelectorAll find]. cbn [String.eqb Ascii.eqb Bool.eqb find].
    rewrite Hname. cbn [innerText textNode]. rewrite Htrim, includes_refl.
    replace (truthy c) with true by (destruct c; [congruence | reflexivity]).
    cbn [andb].
    destruct (querySelector product ("a[href*=" ++ dq ++ "reviews" ++ dq ++ "]"))
      as [reviewsLink|]; [|discriminate Hlink].
    cbn [option_map] in Hlink. injection Hlink as ->.
    cbn [missing truthy negb]. cbv iota.
    rewrite run_bind.
    erewrite sim_goto
      by (cbn [world site fresh]; subst st;
          rewrite web_capterra_reviews, listingPages_cons; reflexivity).
    cbn [world site trace fresh].
    rewrite run_bind.
    match goal with
    | |- context [run (paginate _ _ _ _ _ _ _) (mkSession (mkSim _ _ _ ?addr _) ?t)] =>
        destruct (paginate_listing ".review" ".review" capterraNext
                    capterraReview capterraPage st maxPages
                    capterraPage_listing capterraNext_listing
                    rest items 1%nat [] t addr Hmax)
          as (s2 & Erun & Ecount)
    end.
    rewrite Erun. cbv zeta. cbn [ret run app].
    exists s2. split; [reflexivity|].
    rewrite Ecount. reflexivity. }
  destruct Htry as (s2 & Etry & Ecount).
  unfold scrapeCapterraReviews.
  eexists. split.
  - apply (sim_guarded true _ (start st) _ s2). exact Etry.
  - cbn [trace]. rewrite extractions_app, extractions_single, Ecount.
    cbn [isExtraction]. lia.
Qed.

End OnCapterra.

(** ** Which pages are visited *)

Lemma visited_all_clicks_succeed (fails : nat -> bool) (maxPages : nat)
    (pages : list (list Element)) :
  (forall k, fails k = false) ->
  forall currentPage,
    (currentPage <= maxPages)%nat ->
    visited fails maxPages currentPage pages
    = firstn (S maxPages - currentPage) pages.
Proof.
  intros Hfails. induction pages as [|items rest IH]; intros currentPage Hle.
  - rewrite firstn_nil. reflexivity.
  - rewrite visited_cons, Hfails. cbn [negb]. rewrite andb_true_r.
    replace (S maxPages - currentPage)%nat with (S (maxPages - currentPage)) by lia.
    cbn [firstn]. f_equal.
    destruct (Nat.ltb_spec currentPage maxPages) as [Hlt|Hge].
    + rewrite IH by lia. f_equal; lia.
    + replace (maxPages - currentPage)%nat with 0%nat by lia. reflexivity.
Qed.

Lemma visited_click_fails_at (k maxPages : nat) (pages : list (list Element)) :
  (k < maxPages)%nat ->
  forall currentPage,
    (currentPage <= k)%nat ->
    visited (fun i => Nat.eqb i k) maxPages currentPage pages
    = firstn (S k - currentPage) pages.
Proof.
  intros Hk. induction pages as [|items rest IH]; intros currentPage Hle.
  - rewrite firstn_nil. reflexivity.
  - rewrite visited_cons.
    replace (S k - currentPage)%nat with (S (k - currentPage)) by lia.
    cbn [firstn]. f_equal.
    replace (currentPage <? maxPages)%nat with true
      by (symmetry; apply Nat.ltb_lt; lia).
    cbn [andb].
    destruct (Nat.eqb_spec currentPage k) as [->|Hne]; cbn [negb].
    + rewrite Nat.sub_diag. reflexivity.
    + rewrite IH by lia. f_equal; lia.
Qed.

(** ** The date filter *)

Section FilterLemmas.
Context `{Host}.

Lemma dateFilter_app (sd ed : Date) (xs ys : list Review) :
  dateFilter sd ed (xs ++ ys) = (dateFilter sd ed xs ++ dateFilter sd ed ys)%list.
Proof. unfold dateFilter. apply filter_app. Qed.

Lemma dateFilter_parses (sd ed : Date) (reviews : list Review) (r : Review) :
  In r (dateFilter sd ed reviews) -> parseDate (date r) <> None.
Proof.
  unfold dateFilter. intros Hin. apply filter_In in Hin as [_ Hkeep].
  destruct (parseDate (date r)); [discriminate | discriminate Hkeep].
Qed.

Lemma dateFilter_drops (sd ed : Date) (before after : list Review) (r : Review) :
  parseDate (date r) = None ->
  dateFilter sd ed (before ++ r :: after) = dateFilter sd ed (before ++ after).
Proof.
  intros Hr. rewrite !dateFilter_app. f_equal.
  unfold dateFilter. cbn [filter]. rewrite Hr. reflexivity.
Qed.

End FilterLemmas.

(** ** A navigation error inside the loop, in any world *)

Lemma paginate_navigation_failure `{Puppeteer} (waitSelector nextSelector : string)
    (extractPage : Document -> list Review) (maxPages currentPage : nat)
    (allReviews pageReviews : list Review) (s s1 s2 s3 : Session)
    (waited : bool) (e : Error) (w4 : World) :
  (currentPage < maxPages)%nat ->
  run (attempt (call (WaitForSelector waitSelector))) s = Some (Ok waited, s1) ->
  run (evaluate ExtractReviews extractPage) s1 = Some (Ok pageReviews, s2) ->
  run (evaluate NextPage
         (fun doc => notNull (documentQuerySelector doc nextSelector))) s2
  = Some (Ok true, s3) ->
  perform (ClickAndWaitForNavigation nextSelector) (world s3) = (Throw e, w4) ->
  run (paginate waitSelector nextSelector extractPage maxPages currentPage
                true allReviews) s
  = Some (Ok (allReviews ++ pageReviews)%list,
          mkSession w4 (trace s3 ++ [ClickAndWaitForNavigation nextSelector])).
Proof.
  intros Hlt Hwait Hextract Hnext Hclick.
  rewrite paginate_equation_1. unfold paginate_unfold_clause_1.
  destruct (sumbool_of_bool (true && (currentPage <=? maxPages)%nat)) as [_|E];
    [|cbn [andb] in E; apply Nat.leb_gt in E; lia].
  rewrite run_bind, Hwait, run_bind, Hextract. cbv zeta.
  rewrite run_bind, Hnext.
  destruct (sumbool_of_bool (true && (currentPage <? maxPages)%nat)) as [_|E];
    [|cbn [andb] in E; apply Nat.ltb_ge in E; lia].
  rewrite run_bind. unfold attempt at 1. cbn [run]. rewrite run_call, Hclick.
  cbn [fst snd]. cbv zeta. rewrite paginate_stop. reflexivity.
Qed.

(** ** Failures on the simulated site *)

Section SimFailures.
Context `{Host}.

Lemma trustRadius_without_products (c : string) (sd ed : Date) (maxPages : nat) :
  exists s',
    run (scrapeTrustRadiusReviews c sd ed maxPages) (start siteWithoutProducts)
    = Some (Ok (Failure ("Company " ++ dq ++ c ++ dq
                         ++ " not found on TrustRadius")), s').
Proof.
  eexists. unfold scrapeTrustRadiusReviews.
  rewrite run_bind, sim_call_other by exact I.
  unfold finally_, tryCatch, trustRadiusTry. cbn [run].
  rewrite run_bind, sim_call_other by exact I.
  rewrite run_bind, sim_call_other by exact I.
  cbv zeta. rewrite run_bind.
  erewrite sim_goto by reflexivity.
  rewrite run_bind, sim_evaluate. cbn [world shown].
  change (trustRadiusNotFound (mkDocument "Page Not Found" (fun _ => [])))
    with true.
  cbv iota. rewrite run_bind.
  erewrite sim_goto by reflexivity.
  rewrite run_bind, sim_evaluate. cbn [world shown].
  unfold trustRadiusProductLink.
  cbn [documentQuerySelectorAll find missing]. cbv iota.
  cbn [ret run]. rewrite sim_call_other by exact I. reflexivity.
Qed.

Lemma capterra_without_products (c : string) (sd ed : Date) (maxPages : nat) :
  exists s',
    run (scrapeCapterraReviews c sd ed maxPages) (start siteWithoutProducts)
    = Some (Ok (Failure ("Company " ++ dq ++ c ++ dq
                         ++ " not found on Capterra")), s').
Proof.
  eexists. unfold scrapeCapterraReviews.
  rewrite run_bind, sim_call_other by exact I.
  unfold finally_, tryCatch, capterraTry. cbn [run].
  rewrite run_bind, sim_call_other by exact I.
  rewrite run_bind, sim_call_other by exact I.
  cbv zeta. rewrite run_bind.
  erewrite sim_goto by reflexivity.
  rewrite run_bind, sim_evaluate. cbn [world shown].
  unfold capterraReviewsLink.
  cbn [documentQuerySelectorAll find missing]. cbv iota.
  cbn [ret run]. rewrite sim_call_other by exact I. reflexivity.
Qed.

Lemma trustRadius_offline (c : string) (sd ed : Date) (maxPages : nat) :
  exists s',
    run (scrapeTrustRadiusReviews c sd ed maxPages) (start offline)
    = Some (Ok (Failure ("net::ERR_ABORTED at " ++ trustRadiusProductUrl c)), s').
Proof.
  eexists. unfold scrapeTrustRadiusReviews.
  rewrite run_bind, sim_call_other by exact I.
  unfold finally_, tryCatch, trustRadiusTry. cbn [run].
  rewrite run_bind, sim_call_other by exact I.
  rewrite run_bind, sim_call_other by exact I.
  cbv zeta. rewrite run_bind.
  rewrite sim_goto_fails by reflexivity.
  cbn [ret run]. rewrite sim_call_other by exact I. reflexivity.
Qed.

Lemma capterra_offline (c : string) (sd ed : Date) (maxPages : nat) :
  exists s',
    run (scrapeCapterraReviews c sd ed maxPages) (start offline)
    = Some (Ok (Failure ("net::ERR_ABORTED at " ++ capterraSearchUrl c)), s').
Proof.
  eexists. unfold scrapeCapterraReviews.
  rewrite run_bind, sim_call_other by exact I.
  unfold finally_, tryCatch, capterraTry. cbn [run].
  rewrite run_bind, sim_call_other by exact I.
  rewrite run_bind, sim_call_other by exact I.
  cbv zeta. rewrite run_bind.
  rewrite sim_goto_fails by reflexivity.
  cbn [ret run]. rewrite sim_call_other by exact I. reflexivity.
Qed.

End SimFailures.

(** ** Runs along a sequence of calls, in any world *)

Section Trajectories.
Context `{Host} `{Puppeteer}.

Lemma worldAfter_cons (c : Command) (rest : list Command) (w w' : World) :
  worldAfter (c :: rest) w = Some w' ->
  exists w1, perform c w = (Ok tt, w1) /\ worldAfter rest w1 = Some w'.
Proof.
  cbn [worldAfter]. destruct (perform c w) as [[[]|e] w1]; [|discriminate].
  intros E. exists w1. split; [reflexivity | exact E].
Qed.

Lemma run_call_ok (c : Command) (w w1 : World) (t : list Command) :
  perform c w = (Ok tt, w1) ->
  run (call c) (mkSession w t) = Some (Ok tt, mkSession w1 (t ++ [c])).
Proof. intros E. rewrite run_call. cbn [world trace]. rewrite E. reflexivity. Qed.

Lemma run_evaluate_ok {A : Type} (script : Script) (f : Document -> A)
    (w w1 : World) (t : list Command) :
  perform (Evaluate script) w = (Ok tt, w1) ->
  run (evaluate script f) (mkSession w t)
  = Some (Ok (f (document w1)), mkSession w1 (t ++ [Evaluate script])).
Proof.
  intros E. unfold evaluate. rewrite run_bind, (run_call_ok _ _ _ _ E). reflexivity.
Qed.

(** One step along a trajectory: the next call of the run is the next call
    of the trajectory, which does not throw. *)
Ltac along Hw :=
  let w1 := fresh "w" in
  let E := fresh "E" in
  apply worldAfter_cons in Hw as (w1 & E & Hw);
  rewrite run_bind;
  first [ rewrite (run_call_ok _ _ _ _ E)
        | rewrite (run_evaluate_ok _ _ _ _ _ E) ].

Variables (c : string) (sd ed : Date) (maxPages : nat) (s : Session).
Hypothesis Hclose : forall w, fst (perform Close w) = Ok tt.

Lemma run_close (s0 : Session) :
  exists w, run (call Close) s0 = Some (Ok tt, mkSession w (trace s0 ++ [Close])).
Proof. rewrite run_call, Hclose. eexists. reflexivity. Qed.

(** The frame of a scraper around a [try] block that was entered, in a
    world whose browser closes. *)
Lemma guarded_after (headless : bool) (block : M Result) (w : World)
    (r : Exn Result) (s2 : Session) :
  worldAfter [Launch headless] (world s) = Some w ->
  run block (mkSession w (trace s ++ [Launch headless])) = Some (r, s2) ->
  exists s',
    run (_ <- call (Launch headless) ;;
         finally_ (tryCatch block (fun error => ret (Failure error)))
                  (call Close)) s
    = Some (Ok (match r with Ok res => res | Throw e => Failure e end), s').
Proof.
  intros Hw E. apply worldAfter_cons in Hw as (w1 & El & Hw).
  cbn [worldAfter] in Hw. injection Hw as ->.
  destruct s as [w0 t0]. cbn [world trace] in *.
  rewrite run_bind, (run_call_ok _ _ _ _ El).
  unfold finally_, tryCatch. cbn [run]. rewrite E.
  destruct r as [res|e].
  - destruct (run_close s2) as (w' & ->). eexists. reflexivity.
  - cbn [ret run]. destruct (run_close s2) as (w' & ->). eexists. reflexivity.
Qed.

(** An error of the first navigation ends in a failure that carries its
    message. *)
Lemma trustRadius_navigation_throws (w : World) (e : Error) :
  worldAfter [Launch true; NewPage; SetDefaultNavigationTimeout 60000]
             (world s) = Some w ->
  fst (perform (Goto (trustRadiusProductUrl c)) w) = Throw e ->
  exists s',
    run (scrapeTrustRadiusReviews c sd ed maxPages) s
    = Some (Ok (Failure e), s').
Proof.
  intros Hw Hgoto.
  apply worldAfter_cons in Hw as (w1 & El & Hw).
  unfold scrapeTrustRadiusReviews.
  eapply (guarded_after true _ w1 (Throw e));
    [cbn [worldAfter]; rewrite El; reflexivity|].
  unfold trustRadiusTry.
  along Hw. along Hw. cbn [worldAfter] in Hw. injection Hw as ->.
  cbv zeta. fold (trustRadiusProductUrl c).
  rewrite run_bind, run_call. cbn [world]. rewrite Hgoto. reflexivity.
Qed.

Lemma capterra_navigation_throws (w : World) (e : Error) :
  worldAfter [Launch true; NewPage; SetDefaultNavigationTimeout 60000]
             (world s) = Some w ->
  fst (perform (Goto (capterraSearchUrl c)) w) = Throw e ->
  exists s',
    run (scrapeCapterraReviews c sd ed maxPages) s
    = Some (Ok (Failure e), s').
Proof.
  intros Hw Hgoto.
  apply worldAfter_cons in Hw as (w1 & El & Hw).
  unfold scrapeCapterraReviews.
  eapply (guarded_after true _ w1 (Throw e));
    [cbn [worldAfter]; rewrite El; reflexivity|].
  unfold capterraTry.
  along Hw. along Hw. cbn [worldAfter] in Hw. injection Hw as ->.
  cbv zeta. fold (capterraSearchUrl c).
  rewrite run_bind, run_call. cbn [world]. rewrite Hgoto. reflexivity.
Qed.

(** A lookup that finds no product ends in the failure that says so. *)
Lemma trustRadius_lookup_fails (w w' : World) :
  worldAfter [Launch true; NewPage; SetDefaultNavigationTimeout 60000;
              Goto (trustRadiusProductUrl c); Evaluate NotFoundIndicator]
             (world s) = Some w ->
  trustRadiusNotFound (document w) = true ->
  worldAfter [Goto (trustRadiusSearchUrl c); Evaluate FindProductUrl] w
  = Some w' ->
  missing (trustRadiusProductLink c (document w')) = true ->
  exists s',
    run (scrapeTrustRadiusReviews c sd ed maxPages) s
    = Some (Ok (Failure ("Company " ++ dq ++ c ++ dq
                         ++ " not found on TrustRadius")), s').
Proof.
  intros Hw Hnot Hw' Hmissing.
  apply worldAfter_cons in Hw as (w1 & El & Hw).
  unfold scrapeTrustRadiusReviews.
  eapply (guarded_after true _ w1 (Ok _));
    [cbn [worldAfter]; rewrite El; reflexivity|].
  unfold trustRadiusTry.
  along Hw. along Hw. cbv zeta. fold (trustRadiusProductUrl c).
  along Hw. along Hw. cbn [worldAfter] in Hw. injection Hw as ->.
  rewrite Hnot. fold (trustRadiusSearchUrl c).
  along Hw'. along Hw'. cbn [worldAfter] in Hw'. injection Hw' as ->.
  rewrite Hmissing. reflexivity.
Qed.

Lemma capterra_lookup_fails (w : World) :
  worldAfter [Launch true; NewPage; SetDefaultNavigationTimeout 60000;
              Goto (capterraSearchUrl c); Evaluate ProductFound]
             (world s) = Some w ->
  missing (capterraReviewsLink c (document w)) = true ->
  exists s',
    run (scrapeCapterraReviews c sd ed maxPages) s
    = Some (Ok (Failure ("Company " ++ dq ++ c ++ dq
                         ++ " not found on Capterra")), s').
Proof.
  intros Hw Hmissing.
  apply worldAfter_cons in Hw as (w1 & El & Hw).
  unfold scrapeCapterraReviews.
  eapply (guarded_after true _ w1 (Ok _));
    [cbn [worldAfter]; rewrite El; reflexivity|].
  unfold capterraTry.
  along Hw. along Hw. cbv zeta. fold (capterraSearchUrl c).
  along Hw. along Hw. cbn [worldAfter] in Hw. injection Hw as ->.
  rewrite Hmissing. reflexivity.
Qed.

End Trajectories.

(** ** The handler on any body *)

Section AnyBodyLemmas.
Context `{Host} `{Puppeteer}.
Variable stringOf : Json -> Exn string.
Variable scrapeUntyped : string -> Json -> Date -> Date -> M Result.

Lemma settles_ret {A : Type} (a : A) : settles (ret a).
Proof. intros s. discriminate. Qed.

Lemma settles_throw {A : Type} (e : Error) : settles (throw (A := A) e).
Proof. intros s. discriminate. Qed.

Lemma settles_call (c : Command) : settles (call c).
Proof. intros s. rewrite run_call. discriminate. Qed.

Lemma settles_bind {A B : Type} (m : M A) (f : A -> M B) :
  settles m -> (forall a, settles (f a)) -> settles (bind m f).
Proof.
  intros Hm Hf s. rewrite run_bind.
  destruct (run m s) as [[[a|e] s1]|] eqn:E;
    [apply Hf | discriminate | destruct (Hm s E)].
Qed.

Lemma settles_cap {A : Type} (n : nat) (m : M A) :
  extractsAtMost n m -> settles m.
Proof. intros Hm s. destruct (Hm s) as (r & s' & -> & _). discriminate. Qed.

(** A [try] whose handler is always fulfilled is always fulfilled, as
    soon as its body settles. *)
Lemma fulfils_guarded {A : Type} (m : M A) (handler : Error -> M A) :
  settles m -> (forall e, fulfils (handler e)) ->
  fulfils (tryCatch m handler).
Proof.
  intros Hm Hh s. unfold tryCatch. cbn [run].
  destruct (run m s) as [[[a|e] s1]|] eqn:E.
  - exists a, s1. reflexivity.
  - apply Hh.
  - destruct (Hm s E).
Qed.

Lemma settles_interpolate (value : Json) : settles (interpolate stringOf value).
Proof.
  unfold interpolate.
  destruct value; try apply settles_ret;
    destruct (stringOf _); (apply settles_ret || apply settles_throw).
Qed.

(** On a date that is a string, or falsy, [parseDate] does not throw. *)
Lemma parseDateOf_text (dateStr : Json) :
  isText dateStr || falsy dateStr = true ->
  exists parsed, parseDateOf dateStr = ret parsed.
Proof.
  unfold parseDateOf. intros Ht.
  destruct (falsy dateStr); [eexists; reflexivity|].
  destruct dateStr; try discriminate Ht. eexists. reflexivity.
Qed.

(** On a truthy date that is no string, it throws. *)
Lemma parseDateOf_other (dateStr : Json) :
  falsy dateStr = false -> isText dateStr = false ->
  parseDateOf dateStr = throw (notAFunction "dateStr" "trim").
Proof.
  unfold parseDateOf. intros -> Ht.
  destruct dateStr; try discriminate Ht; reflexivity.
Qed.

(** The [try] block of the handler settles, whatever it is given. *)
Lemma postScrapeReviews_answers (fuel : nat) (req : RequestBody) :
  (forall sourceLower name sd ed,
     settles (scrapeUntyped sourceLower name sd ed)) ->
  isText (bodyStartDate req) || falsy (bodyStartDate req) = true ->
  isText (bodyEndDate req) || falsy (bodyEndDate req) = true ->
  fulfils (postScrapeReviews stringOf scrapeUntyped fuel req).
Proof.
  intros Huntyped Hsd Hed. unfold postScrapeReviews.
  destruct (falsy (bodyCompanyName req)); [apply fulfils_ret|].
  destruct (falsy (bodyStartDate req) || falsy (bodyEndDate req));
    [apply fulfils_ret|].
  destruct (falsy (bodySource req)); [apply fulfils_ret|].
  destruct (parseDateOf_text _ Hsd) as (parsedStartDate & ->).
  destruct (parseDateOf_text _ Hed) as (parsedEndDate & ->).
  apply fulfils_bind; [apply fulfils_ret | intros ?].
  apply fulfils_bind; [apply fulfils_ret | intros ?].
  destruct a as [parsedStart|]; [|apply fulfils_ret].
  destruct a0 as [parsedEnd|]; [|apply fulfils_ret].
  apply fulfils_guarded; [|intros e; apply fulfils_ret].
  apply settles_bind; [apply settles_interpolate | intros _].
  apply settles_bind; [apply settles_interpolate | intros _].
  apply settles_bind;
    [destruct (bodySource req); (apply settles_ret || apply settles_throw)
    | intros sourceLower].
  cbv zeta.
  assert (Hscrape : forall scraper : string -> Date -> Date -> nat -> M Result,
             (forall name, settles (scraper name parsedStart parsedEnd 10%nat)) ->
             settles (match bodyCompanyName req with
                      | JString name => scraper name parsedStart parsedEnd 10%nat
                      | _ => scrapeUntyped sourceLower (bodyCompanyName req)
                               parsedStart parsedEnd
                      end)).
  { intros scraper Hs. destruct (bodyCompanyName req); auto. }
  match goal with
  | |- context [bind _ ?respond] =>
      assert (Hrespond : forall result, settles (respond result))
  end.
  { intros [[|r data] note|error]; try apply settles_ret.
    - apply settles_bind; [apply settles_interpolate | intros ?; apply settles_ret].
    - destruct (bodyCompanyName req); try apply settles_throw.
      apply settles_bind; [apply settles_call | intros ?; apply settles_ret]. }
  destruct (String.eqb _ "g2").
  { apply settles_bind; [|exact Hrespond]. apply Hscrape.
    intros name. eapply settles_cap, g2_cap. }
  destruct (String.eqb _ "capterra").
  { apply settles_bind; [|exact Hrespond]. apply Hscrape.
    intros name. eapply settles_cap, capterra_cap. }
  destruct (String.eqb _ "trustradius").
  { apply settles_bind; [|exact Hrespond]. apply Hscrape.
    intros name. eapply settles_cap, trustRadius_cap. }
  apply settles_ret.
Qed.

(** On a body whose fields are strings the handler is the function of the
    strings. *)
Lemma postScrapeReviews_text (fuel : nat) (c a b w : string) (s : Session) :
  run (postScrapeReviews stringOf scrapeUntyped fuel
         (mkRequestBody (JString c) (JString a) (JString b) (JString w))) s
  = run (scrapeReviewsHandler fuel (mkRequest c a b w)) s.
Proof.
  unfold postScrapeReviews, scrapeReviewsHandler.
  cbn [bodyCompanyName bodyStartDate bodyEndDate bodySource falsy
       reqCompanyName reqStartDate reqEndDate reqSource].
  destruct (negb (truthy c)); [reflexivity|].
  destruct (negb (truthy a) || negb (truthy b)) eqn:Hab; [reflexivity|].
  destruct (negb (truthy w)); [reflexivity|].
  apply orb_false_elim in Hab as [Ha Hb].
  unfold parseDateOf. cbn [falsy]. rewrite Ha, Hb.
  rewrite !run_bind. cbn [ret run].
  destruct (parseDate a) as [sd|]; [|reflexivity].
  destruct (parseDate b) as [ed|]; [|reflexivity].
  unfold tryCatch. cbn [run bind interpolate ret].
  destruct (String.eqb (toLowerCase w) "g2"); [reflexivity|].
  destruct (String.eqb (toLowerCase w) "capterra"); [reflexivity|].
  destruct (String.eqb (toLowerCase w) "trustradius"); reflexivity.
Qed.

End AnyBodyLemmas.

(* ===================================================================== *)
(** * 10. The claims of the specification                                 *)
(* ===================================================================== *)

Section PriorityClaim.
Context `{Host}.

(** C1. [parseDate] is the chain of the five rules in their priority
    order: native parsing, the relative expression, the month name, the
    numeric form with the year first and the numeric form with the day
    first. It returns what the first matching rule produces, and [null]
    when no rule matches or the string is empty. *)
Theorem parseDate_priority (dateStr : string) :
  parseDate dateStr = normalize dateStr
  /\ parseDate EmptyString = None.
Proof.
  split; [|reflexivity].
  destruct dateStr as [|c rest]; [reflexivity|].
  unfold parseDate, normalize, rules.
  cbn [truthy negb]. cbv zeta.
  set (trimmedDate := trim (String c rest)).
  cbn [firstMatch]. unfold nativeRule. cbv zeta.
  destruct (isNaN (getTime (newDateFromString trimmedDate))); cbn [negb];
    [|reflexivity].
  unfold relativeRule.
  destruct (search relativeRe trimmedDate) as [relativeMatch|].
  { pose proof (unit_chain (capture 2 relativeMatch)
                  (parseInt (capture 1 relativeMatch)) newDateNow) as U.
    cbv zeta in U. rewrite U.
    destruct (timeUnitOf (capture 2 relativeMatch)); reflexivity. }
  unfold monthNameRule.
  destruct (search monthNameRe trimmedDate) as [monthNameMatch|].
  - rewrite months_lookup.
    destruct (monthIndexOf (capture 1 monthNameMatch)); [reflexivity|].
    apply parseNumeric_rules.
  - apply parseNumeric_rules.
Qed.

End PriorityClaim.

Lemma firstMatch_none (rs : list (string -> option Date)) (s : string) :
  (forall r, In r rs -> r s = None) -> firstMatch rs s = None.
Proof.
  induction rs as [|r rs IH]; intros Hall; cbn [firstMatch]; [reflexivity|].
  rewrite (Hall r) by (left; reflexivity).
  apply IH. intros r' Hin. apply Hall. right. exact Hin.
Qed.

Lemma firstMatch_first (before after : list (string -> option Date))
    (r : string -> option Date) (s : string) (d : Date) :
  (forall r', In r' before -> r' s = None) -> r s = Some d ->
  firstMatch (before ++ r :: after) s = Some d.
Proof.
  induction before as [|b before IH]; intros Hall Hr; cbn [app firstMatch].
  - rewrite Hr. reflexivity.
  - rewrite (Hall b) by (left; reflexivity).
    apply IH; [|exact Hr]. intros r' Hin. apply Hall. right. exact Hin.
Qed.

(** C2. A review whose date [parseDate] cannot parse is never part of the
    filtered output, and its presence does not make a scrape fail: on a
    site whose first page holds such a review among others, the TrustRadius
    and the Capterra scrapers still succeed, with exactly the data they
    return when that review is absent. *)
Theorem unparseable_date_is_dropped `{Host} (c : string) (sd ed : Date)
    (maxPages : nat) (fails : nat -> bool) (before after : list Element)
    (rest : list (list Element)) (badT badC : Element) :
  parseDate (date (trustRadiusReview badT)) = None ->
  parseDate (date (capterraReview badC)) = None ->
  trim c = c -> c <> EmptyString -> (1 <= maxPages)%nat ->
  (forall reviews, ~ In (trustRadiusReview badT) (dateFilter sd ed reviews))
  /\ (forall reviews, ~ In (capterraReview badC) (dateFilter sd ed reviews))
  /\ (exists s',
        run (scrapeTrustRadiusReviews c sd ed maxPages)
            (start (trustRadiusSite c ((before ++ badT :: after)%list :: rest) fails))
        = Some (Ok (Success
                      (dateFilter sd ed
                         (flat_map (map trustRadiusReview)
                            (visited fails maxPages 1 ((before ++ after)%list :: rest))))
                      None), s'))
  /\ (exists s',
        run (scrapeCapterraReviews c sd ed maxPages)
            (start (capterraSite c ((before ++ badC :: after)%list :: rest) fails))
        = Some (Ok (Success
                      (dateFilter sd ed
                         (flat_map (map capterraReview)
                            (visited fails maxPages 1 ((before ++ after)%list :: rest))))
                      None), s')).
Proof.
  intros HbadT HbadC Htrim Hc Hmax.
  split; [|split; [|split]].
  - intros reviews Hin. apply dateFilter_parses in Hin. contradiction.
  - intros reviews Hin. apply dateFilter_parses in Hin. contradiction.
  - destruct (trustRadius_on_site c sd ed maxPages (before ++ badT :: after)%list
                rest fails Hmax) as (s' & E & _).
    exists s'. rewrite E. do 4 f_equal.
    rewrite !visited_cons. cbn [flat_map].
    rewrite !map_app, !dateFilter_app. cbn [map]. do 2 f_equal.
    unfold dateFilter. cbn [filter]. rewrite HbadT. reflexivity.
  - destruct (capterra_on_site c sd ed maxPages (before ++ badC :: after)%list
                rest fails Htrim Hc Hmax) as (s' & E & _).
    exists s'. rewrite E. do 4 f_equal.
    rewrite !visited_cons. cbn [flat_map].
    rewrite !map_app, !dateFilter_app. cbn [map]. do 2 f_equal.
    unfold dateFilter. cbn [filter]. rewrite HbadC. reflexivity.
Qed.

(** C3. In any world a TrustRadius or Capterra scrape with page cap
    [maxPages] settles after at most [maxPages] page extractions, and the
    G2 scraper extracts no page at all. With cap 2 on a listing of five
    pages, each but the last showing a "next" control, exactly the reviews
    of pages 1 and 2 are accumulated, in two extractions. *)
Theorem page_cap `{Host} `{Puppeteer} (c : string) (sd ed : Date)
    (maxPages fuel : nat) (p1 p2 p3 p4 p5 : list Element) :
  trim c = c -> c <> EmptyString ->
  extractsAtMost maxPages (scrapeTrustRadiusReviews c sd ed maxPages)
  /\ extractsAtMost maxPages (scrapeCapterraReviews c sd ed maxPages)
  /\ extractsAtMost 0 (scrapeG2Reviews fuel c sd ed maxPages)
  /\ (exists s',
        run (scrapeTrustRadiusReviews c sd ed 2)
            (start (trustRadiusSite c [p1; p2; p3; p4; p5] (fun _ => false)))
        = Some (Ok (Success
                      (dateFilter sd ed (map trustRadiusReview (p1 ++ p2)%list))
                      None), s')
        /\ extractions (trace s') = 2%nat)
  /\ (exists s',
        run (scrapeCapterraReviews c sd ed 2)
            (start (capterraSite c [p1; p2; p3; p4; p5] (fun _ => false)))
        = Some (Ok (Success
                      (dateFilter sd ed (map capterraReview (p1 ++ p2)%list))
                      None), s')
        /\ extractions (trace s') = 2%nat).
Proof.
  intros Htrim Hc.
  split; [apply trustRadius_cap|].
  split; [apply capterra_cap|].
  split; [apply g2_cap|].
  split.
  - destruct (trustRadius_on_site c sd ed 2 p1 [p2; p3; p4; p5] (fun _ => false))
      as (s' & E & Ecount); [lia|].
    exists s'. rewrite E, Ecount. cbn [visited Nat.ltb Nat.leb negb andb flat_map List.length].
    rewrite map_app, app_nil_r. split; reflexivity.
  - destruct (capterra_on_site c sd ed 2 p1 [p2; p3; p4; p5] (fun _ => false)
                Htrim Hc) as (s' & E & Ecount); [lia|].
    exists s'. rewrite E, Ecount. cbn [visited Nat.ltb Nat.leb negb andb flat_map List.length].
    rewrite map_app, app_nil_r. split; reflexivity.
Qed.

(** C4. When the click on "next" throws while the scraper leaves page [k]
    of a listing (with [k] below the cap and a further page to go to), the
    TrustRadius and the Capterra scrapers stop paginating and succeed with
    the date-filtered reviews of pages 1 to [k], after [k] extractions. *)
Theorem navigation_failure_keeps_pages `{Host} (c : string) (sd ed : Date)
    (maxPages k : nat) (pages : list (list Element)) :
  trim c = c -> c <> EmptyString ->
  (1 <= k)%nat -> (k < maxPages)%nat -> (k < List.length pages)%nat ->
  (exists s',
     run (scrapeTrustRadiusReviews c sd ed maxPages)
         (start (trustRadiusSite c pages (fun i => Nat.eqb i k)))
     = Some (Ok (Success
                   (dateFilter sd ed
                      (flat_map (map trustRadiusReview) (firstn k pages)))
                   None), s')
     /\ extractions (trace s') = k)
  /\ (exists s',
        run (scrapeCapterraReviews c sd ed maxPages)
            (start (capterraSite c pages (fun i => Nat.eqb i k)))
        = Some (Ok (Success
                      (dateFilter sd ed
                         (flat_map (map capterraReview) (firstn k pages)))
                      None), s')
        /\ extractions (trace s') = k).
Proof.
  intros Htrim Hc Hk Hcap Hlen.
  destruct pages as [|items rest]; [cbn [List.length] in Hlen; lia|].
  assert (Hvisited :
            visited (fun i => Nat.eqb i k) maxPages 1 (items :: rest)
            = firstn k (items :: rest)).
  { rewrite visited_click_fails_at by lia. f_equal. lia. }
  assert (Hcount : List.length (firstn k (items :: rest)) = k).
  { apply firstn_length_le. lia. }
  split.
  - destruct (trustRadius_on_site c sd ed maxPages items rest
                (fun i => Nat.eqb i k)) as (s' & E & Ecount); [lia|].
    exists s'. rewrite E, Ecount, Hvisited, Hcount. split; reflexivity.
  - destruct (capterra_on_site c sd ed maxPages items rest
                (fun i => Nat.eqb i k) Htrim Hc) as (s' & E & Ecount); [lia|].
    exists s'. rewrite E, Ecount, Hvisited, Hcount. split; reflexivity.
Qed.

(** C5. [isDateInRange] holds of three instants exactly when the date
    lies between the bounds, both included: a date equal to the start or
    to the end of a well-formed range is in the range. *)
Theorem isDateInRange_inclusive (d s e : Z) :
  (isDateInRange (instant d) (instant s) (instant e) = true
   <-> s <= d /\ d <= e)
  /\ isDateInRange (instant s) (instant s) (instant e) = (s <=? e)
  /\ isDateInRange (instant e) (instant s) (instant e) = (s <=? e).
Proof.
  unfold isDateInRange, instant, Date_ge, Date_le. cbn [getTime nge nle].
  split; [|split].
  - rewrite andb_true_iff, !Z.leb_le. reflexivity.
  - rewrite Z.leb_refl. reflexivity.
  - rewrite Z.leb_refl. apply andb_true_r.
Qed.


(** C8 (amended). In any world in which the browser launches and closes
    without error, the TrustRadius and the Capterra scraper return a result
    and let no exception of their [try] block escape: an error thrown
    inside the block ends in [{ success: false, error }] with its message,
    as an error of the first navigation does, and a lookup that finds no
    product ends in the failure that says so. The G2 scraper, which serves
    its demo data, makes no call at all and succeeds on valid dates. The
    request handler, whose [try] block encloses the call of the scraper,
    answers every request whose dates are strings or missing, whatever the
    scraper does. *)
Theorem failures_are_structured `{Host} `{Puppeteer} (c : string)
    (sd ed : Date) (maxPages fuel : nat) (s : Session)
    (stringOf : Json -> Exn string)
    (scrapeUntyped : string -> Json -> Date -> Date -> M Result)
    (req : RequestBody) :
  fst (perform (Launch true) (world s)) = Ok tt ->
  (forall w, fst (perform Close w) = Ok tt) ->
  let s1 := mkSession (snd (perform (Launch true) (world s)))
                      (trace s ++ [Launch true])%list in
  let setUp := [Launch true; NewPage; SetDefaultNavigationTimeout 60000] in
  (exists res s',
     run (scrapeTrustRadiusReviews c sd ed maxPages) s = Some (Ok res, s')
     /\ forall e s2,
          run (trustRadiusTry c sd ed maxPages) s1 = Some (Throw e, s2) ->
          res = Failure e)
  /\ (exists res s',
        run (scrapeCapterraReviews c sd ed maxPages) s = Some (Ok res, s')
        /\ forall e s2,
             run (capterraTry c sd ed maxPages) s1 = Some (Throw e, s2) ->
             res = Failure e)
  /\ (forall w e,
        worldAfter setUp (world s) = Some w ->
        fst (perform (Goto (trustRadiusProductUrl c)) w) = Throw e ->
        exists s',
          run (scrapeTrustRadiusReviews c sd ed maxPages) s
          = Some (Ok (Failure e), s'))
  /\ (forall w e,
        worldAfter setUp (world s) = Some w ->
        fst (perform (Goto (capterraSearchUrl c)) w) = Throw e ->
        exists s',
          run (scrapeCapterraReviews c sd ed maxPages) s
          = Some (Ok (Failure e), s'))
  /\ (forall w w',
        worldAfter (setUp ++ [Goto (trustRadiusProductUrl c);
                              Evaluate NotFoundIndicator]) (world s) = Some w ->
        trustRadiusNotFound (document w) = true ->
        worldAfter [Goto (trustRadiusSearchUrl c); Evaluate FindProductUrl] w
        = Some w' ->
        missing (trustRadiusProductLink c (document w')) = true ->
        exists s',
          run (scrapeTrustRadiusReviews c sd ed maxPages) s
          = Some (Ok (Failure ("Company " ++ dq ++ c ++ dq
                               ++ " not found on TrustRadius")), s'))
  /\ (forall w,
        worldAfter (setUp ++ [Goto (capterraSearchUrl c);
                              Evaluate ProductFound]) (world s) = Some w ->
        missing (capterraReviewsLink c (document w)) = true ->
        exists s',
          run (scrapeCapterraReviews c sd ed maxPages) s
          = Some (Ok (Failure ("Company " ++ dq ++ c ++ dq
                               ++ " not found on Capterra")), s'))
  /\ (isNaN (getTime sd) = false -> isNaN (getTime ed) = false ->
      exists data,
        run (scrapeG2Reviews fuel c sd ed maxPages) s
        = Some (Ok (Success data (Some mockNote)), s))
  /\ ((forall sourceLower name sd' ed',
         settles (scrapeUntyped sourceLower name sd' ed')) ->
      isText (bodyStartDate req) || falsy (bodyStartDate req) = true ->
      isText (bodyEndDate req) || falsy (bodyEndDate req) = true ->
      fulfils (postScrapeReviews stringOf scrapeUntyped fuel req)).
Proof.
  intros Hlaunch Hclose s1 setUp.
  split.
  { destruct (guarded_result true maxPages (trustRadiusTry c sd ed maxPages) s
                (trustRadiusTry_cap c sd ed maxPages) Hlaunch Hclose)
      as (res & s' & E & _ & Hthrow).
    exists res, s'. split; [exact E | exact Hthrow]. }
  split.
  { destruct (guarded_result true maxPages (capterraTry c sd ed maxPages) s
                (capterraTry_cap c sd ed maxPages) Hlaunch Hclose)
      as (res & s' & E & _ & Hthrow).
    exists res, s'. split; [exact E | exact Hthrow]. }
  split; [intros w e; apply trustRadius_navigation_throws, Hclose|].
  split; [intros w e; apply capterra_navigation_throws, Hclose|].
  split; [intros w w'; apply trustRadius_lookup_fails, Hclose|].
  split; [intros w; apply capterra_lookup_fails, Hclose|].
  split.
  { intros Hs He. eexists. apply scrapeG2_valid; assumption. }
  apply postScrapeReviews_answers.
Qed.

(** C9 (amended). For every company name and every pair of valid dates
    the G2 scraper makes no call to the browser and succeeds with the demo
    data filtered by the date range, the same whatever the company name;
    every review it returns has the source ["G2 (Demo Data)"]. *)
Theorem g2_returns_filtered_demo_data `{Host} `{Puppeteer} (fuel : nat)
    (companyName : string) (startDate endDate : Date) (maxPages : nat)
    (s : Session) :
  isNaN (getTime startDate) = false -> isNaN (getTime endDate) = false ->
  let data :=
    filter (fun review =>
              match parseDate (date review) with
              | Some reviewDate =>
                  isDateInRange (Some reviewDate) (Some startDate) (Some endDate)
              | None => false
              end) mockData in
  run (scrapeG2Reviews fuel companyName startDate endDate maxPages) s
  = Some (Ok (Success data (Some mockNote)), s)
  /\ (forall otherName,
        run (scrapeG2Reviews fuel otherName startDate endDate maxPages) s
        = run (scrapeG2Reviews fuel companyName startDate endDate maxPages) s)
  /\ (forall review, In review data -> source review = "G2 (Demo Data)")
  /\ List.length mockData = 5%nat.
Proof.
  intros Hs He data.
  assert (Hdata : data = dateFilter startDate endDate mockData) by reflexivity.
  split; [rewrite Hdata; apply scrapeG2_valid; assumption|].
  split; [intros otherName; rewrite !scrapeG2_valid by assumption; reflexivity|].
  split; [|reflexivity].
  intros review Hin. apply filter_In in Hin as [Hin _].
  cbn [mockData In] in Hin.
  repeat (destruct Hin as [<- | Hin]; [reflexivity|]). contradiction.
Qed.

(** C2, at a listing whose first page holds a review dated
    ["some time ago"]. *)
Lemma unparseable_date_is_dropped_witness :
  @parseDate utcHost
     (date (@trustRadiusReview utcHost
              (trustRadiusCard "Undated" "No date at all" "some time ago" "Bob")))
  = None
  /\ exists s',
       run (@scrapeTrustRadiusReviews utcHost simPuppeteer "Slack"
              exampleStart exampleEnd 10)
           (start (trustRadiusSite "Slack"
                     (([trustRadiusCard "First" "Solid tool" "2025-01-02" "Ann"]
                         ++ trustRadiusCard "Undated" "No date at all"
                              "some time ago" "Bob" :: [])%list
                        :: tl trustRadiusListing)
                     (fun _ => false)))
       = Some (Ok (Success
                     (@dateFilter utcHost exampleStart exampleEnd
                        (flat_map (map (@trustRadiusReview utcHost))
                           (visited (fun _ => false) 10 1
                              (([trustRadiusCard "First" "Solid tool"
                                   "2025-01-02" "Ann"] ++ [])%list
                                 :: tl trustRadiusListing))))
                     None), s').
Proof.
  split; [reflexivity|].
  apply (@unparseable_date_is_dropped utcHost "Slack" exampleStart exampleEnd 10
           (fun _ => false)
           [trustRadiusCard "First" "Solid tool" "2025-01-02" "Ann"] []
           (tl trustRadiusListing)
           (trustRadiusCard "Undated" "No date at all" "some time ago" "Bob")
           (capterraCard "Undated" "No date at all" "some time ago" "Bob"));
    [reflexivity | reflexivity | reflexivity | discriminate | lia].
Defined.

(** C3, for the company "Slack" on the simulated site. *)
Lemma page_cap_witness :
  trim "Slack" = "Slack"
  /\ extractsAtMost 2
       (@scrapeTrustRadiusReviews utcHost simPuppeteer "Slack"
          exampleStart exampleEnd 2).
Proof.
  split; [reflexivity|].
  apply (@page_cap utcHost simPuppeteer "Slack" exampleStart exampleEnd 2 0
           [] [] [] [] []); [reflexivity | discriminate].
Defined.

(** C4, at the five pages of the example with the click failing on
    page 2. *)
Lemma navigation_failure_keeps_pages_witness :
  (2 < List.length trustRadiusListing)%nat
  /\ exists s',
       run (@scrapeTrustRadiusReviews utcHost simPuppeteer "Slack"
              exampleStart exampleEnd 10)
           (start (trustRadiusSite "Slack" trustRadiusListing
                     (fun i => Nat.eqb i 2)))
       = Some (Ok (Success
                     (@dateFilter utcHost exampleStart exampleEnd
                        (flat_map (map (@trustRadiusReview utcHost))
                           (firstn 2 trustRadiusListing)))
                     None), s')
       /\ extractions (trace s') = 2%nat.
Proof.
  split; [cbn; lia|].
  apply (@navigation_failure_keeps_pages utcHost "Slack" exampleStart exampleEnd
           10 2 trustRadiusListing);
    [reflexivity | discriminate | lia | lia | cbn; lia].
Defined.



(** C7: five hours behind UTC, a date-only string comes back as the day
    before. *)
Lemma iso_roundtrip_fails_behind_utc :
  isoDateOnly "2025-01-15" = Some (2025, 1, 15)
  /\ @formatDate easternHost (@parseDate easternHost "2025-01-15") = "2025-01-14".
Proof. split; vm_compute; reflexivity. Qed.

(** A year below 1000 is printed without padding. *)
Lemma iso_roundtrip_short_year :
  @formatDate utcHost (@parseDate utcHost "0999-01-15") = "999-01-15".
Proof. vm_compute. reflexivity. Qed.

Lemma iso_roundtrip_witness :
  isoDateOnly "2025-01-15" = Some (2025, 1, 15)
  /\ @formatDate utcHost (@parseDate utcHost "2025-01-15") = "2025-01-15".
Proof.
  split; [reflexivity|].
  apply (@iso_roundtrip utcHost "2025-01-15" 2025 1 15);
    [reflexivity | lia
    | intros t; cbv [LocalTZA utcHost hostAt hostIn msPerDay]; lia].
Defined.

(** C8: when the first navigation throws and closing the browser throws
    as well, the error of the close escapes the scraper; and so does the
    error of a browser that cannot be launched. *)
Lemma failure_escapes_the_scraper :
  fst (@perform closeFails (Goto (trustRadiusProductUrl "Slack")) (fresh offline))
  = Throw ("net::ERR_ABORTED at " ++ trustRadiusProductUrl "Slack")
  /\ (exists s',
        run (@scrapeTrustRadiusReviews utcHost closeFails "Slack"
               exampleStart exampleEnd 10)
            (@mkSession closeFails (fresh offline) [])
        = Some (Throw "Protocol error: Target closed", s')
        /\ trace s' = [Launch true; NewPage; SetDefaultNavigationTimeout 60000;
                       Goto (trustRadiusProductUrl "Slack"); Close])
  /\ (exists s',
        run (@scrapeCapterraReviews utcHost closeFails "Slack"
               exampleStart exampleEnd 10)
            (@mkSession closeFails (fresh offline) [])
        = Some (Throw "Protocol error: Target closed", s')
        /\ trace s' = [Launch true; NewPage; SetDefaultNavigationTimeout 60000;
                       Goto (@capterraSearchUrl utcHost "Slack"); Close])
  /\ run (@scrapeTrustRadiusReviews utcHost launchFails "Slack"
            exampleStart exampleEnd 10)
         (@mkSession launchFails (fresh offline) [])
     = Some (Throw "Failed to launch the browser process",
             @mkSession launchFails (fresh offline) [Launch true]).
Proof.
  split; [reflexivity|]. split; [|split].
  - eexists. split; reflexivity.
  - eexists. split; reflexivity.
  - reflexivity.
Qed.

(** C8, in the simulated world: a site that is down, a site without the
    product, and a request whose company name is a number, with a scraper
    that rejects it. *)
Lemma failures_are_structured_witness :
  fst (perform (Launch true) (world (start offline))) = Ok tt
  /\ (exists s',
        run (@scrapeTrustRadiusReviews utcHost simPuppeteer "Slack"
               exampleStart exampleEnd 10) (start offline)
        = Some (Ok (Failure ("net::ERR_ABORTED at "
                             ++ trustRadiusProductUrl "Slack")), s'))
  /\ (exists s',
        run (@scrapeCapterraReviews utcHost simPuppeteer "Slack"
               exampleStart exampleEnd 10) (start siteWithoutProducts)
        = Some (Ok (Failure ("Company " ++ dq ++ "Slack" ++ dq
                             ++ " not found on Capterra")), s'))
  /\ fulfils (@postScrapeReviews utcHost simPuppeteer
                (fun _ => Ok "7")
                (fun _ _ _ _ => throw (notAFunction "companyName" "toLowerCase"))
                0
                (mkRequestBody (JNumber (Some 7%Q)) (JString "2025-01-01")
                   (JString "2025-06-30") (JString "trustradius"))).
Proof.
  pose (body := mkRequestBody (JNumber (Some 7%Q)) (JString "2025-01-01")
                  (JString "2025-06-30") (JString "trustradius")).
  pose (rejecting := fun (_ : string) (_ : Json) (_ _ : Date) =>
                       @throw simPuppeteer Result
                         (notAFunction "companyName" "toLowerCase")).
  split; [reflexivity|]. split; [|split].
  - destruct (@failures_are_structured utcHost simPuppeteer "Slack" exampleStart
                exampleEnd 10 0 (start offline) (fun _ => Ok "7") rejecting body
                eq_refl (fun w => eq_refl))
      as (_ & _ & Hnav & _).
    apply (Hnav (fresh offline)); reflexivity.
  - destruct (@failures_are_structured utcHost simPuppeteer "Slack" exampleStart
                exampleEnd 10 0 (start siteWithoutProducts) (fun _ => Ok "7")
                rejecting body eq_refl (fun w => eq_refl))
      as (_ & _ & _ & _ & _ & Hlookup & _).
    eapply Hlookup; reflexivity.
  - destruct (@failures_are_structured utcHost simPuppeteer "Slack" exampleStart
                exampleEnd 10 0 (start offline) (fun _ => Ok "7") rejecting body
                eq_refl (fun w => eq_refl))
      as (_ & _ & _ & _ & _ & _ & _ & Hhandler).
    apply Hhandler; [intros ? ? ? ? st; discriminate | reflexivity | reflexivity].
Defined.

(** C9: an Invalid Date, which [parseDate] itself can produce, makes the
    G2 scraper throw before it reaches the demo data. *)
Lemma g2_throws_on_invalid_date :
  @parseDate utcHost "200000000 days ago" = Some InvalidDate
  /\ run (@scrapeG2Reviews utcHost simPuppeteer 0 "Slack" InvalidDate
            exampleEnd 10) (start offline)
     = Some (Throw "Invalid time value", start offline).
Proof. split; [vm_compute; reflexivity | reflexivity]. Qed.

Lemma g2_returns_filtered_demo_data_witness :
  isNaN (getTime exampleStart) = false
  /\ run (@scrapeG2Reviews utcHost simPuppeteer 0 "Slack" exampleStart
            exampleEnd 10) (start offline)
     = Some (Ok (Success
                   (filter (fun review =>
                              match @parseDate utcHost (date review) with
                              | Some reviewDate =>
                                  isDateInRange (Some reviewDate)
                                    (Some exampleStart) (Some exampleEnd)
                              | None => false
                              end) mockData)
                   (Some mockNote)), start offline).
Proof.
  split; [reflexivity|].
  apply (@g2_returns_filtered_demo_data utcHost simPuppeteer 0 "Slack"
           exampleStart exampleEnd 10 (start offline));
    reflexivity.
Defined.

(** C10: a TrustRadius or Capterra review card whose title and author
    elements hold only white space is emitted with an empty title and an
    empty reviewer name; the fallbacks ['No Title'] and ['Anonymous'] only
    apply when the element is absent. *)
Theorem blank_title_is_emitted :
  outcome (run (@scrapeTrustRadiusReviews utcHost simPuppeteer "Slack"
                  exampleStart exampleEnd 10)
               (start (trustRadiusSite "Slack" [[blankTitleCard]]
                         (fun _ => false))))
  = Some (Ok (Success
                [ {| title := EmptyString;
                     description := "Does the job";
                     date := "2025-03-02";
                     rating := Some 0%Q;
                     reviewer := {| name := EmptyString; info := EmptyString |};
                     source := "TrustRadius" |} ]
                None))
  /\ outcome (run (@scrapeCapterraReviews utcHost simPuppeteer "Slack"
                     exampleStart exampleEnd 10)
                  (start (@capterraSite utcHost "Slack" [[blankTitleCapterraCard]]
                            (fun _ => false))))
     = Some (Ok (Success
                   [ {| title := EmptyString;
                        description := "Does the job";
                        date := "2025-03-02";
                        rating := Some 0%Q;
                        reviewer := {| name := EmptyString; info := EmptyString |};
                        source := "Capterra" |} ]
                   None)).
Proof. split; vm_compute; reflexivity. Qed.

(** What the G2 extraction does (its [findText] skips blank elements), and
    what every scraper does for the review text. *)
Lemma g2Review_never_blank `{Host} (reviewElement : Element) :
  title (g2Review reviewElement) <> EmptyString
  /\ description (g2Review reviewElement) <> EmptyString
  /\ name (reviewer (g2Review reviewElement)) <> EmptyString.
Proof.
  unfold g2Review. cbn [title description reviewer name]. unfold orElse.
  repeat split;
    match goal with
    | |- (if truthy ?x then _ else _) <> _ => destruct x; cbn [truthy]; discriminate
    end.
Qed.

Lemma description_never_blank `{Host} (reviewElement : Element) :
  description (trustRadiusReview reviewElement) <> EmptyString
  /\ description (capterraReview reviewElement) <> EmptyString.
Proof.
  unfold trustRadiusReview, capterraReview. cbn [description]. unfold orElse.
  split;
    match goal with
    | |- (if truthy ?x then _ else _) <> _ => destruct x; cbn [truthy]; discriminate
    end.
Qed.

(** The live branch of the G2 scraper, which the mock-data flag disables:
    its loop reads the object [hasNextPage], always truthy, and advances
    [currentPage] only below the cap, so once entered the loop never ends
    normally. *)
Lemma g2Paginate_never_returns `{Host} `{Puppeteer} (fuel maxPages : nat) :
  forall (currentPage : nat) (hasNextPage : HasNextPage)
         (allReviews : list Review) (s s' : Session) (r : Exn (list Review)),
    (currentPage <= maxPages)%nat ->
    run (g2Paginate fuel maxPages currentPage hasNextPage allReviews) s
    = Some (r, s') ->
    exists e, r = Throw e.
Proof.
  induction fuel as [|fuel IH];
    intros currentPage hasNextPage allReviews s s' r Hle Hrun;
    cbn [g2Paginate] in Hrun;
    replace (truthyHasNextPage hasNextPage) with true in Hrun
      by (destruct hasNextPage; reflexivity);
    replace (currentPage <=? maxPages)%nat with true in Hrun
      by (symmetry; apply Nat.leb_le; exact Hle);
    cbn [andb] in Hrun.
  - discriminate Hrun.
  - rewrite run_bind in Hrun.
    destruct (run (evaluate ExtractReviews g2Page) s) as [[[pageReviews|e] s1]|];
      [|injection Hrun as <- _; eauto | discriminate Hrun].
    cbv zeta in Hrun. rewrite run_bind in Hrun.
    destruct (run (evaluate NextPage (fun doc => g2ProbeNext doc g2NextSelectors)) s1)
      as [[[probe|e] s2]|];
      [|injection Hrun as <- _; eauto | discriminate Hrun].
    destruct (hasNext probe && (currentPage <? maxPages)%nat) eqn:Hif.
    + apply andb_prop in Hif as [_ Hlt]. apply Nat.ltb_lt in Hlt.
      cbv zeta in Hrun. rewrite run_bind in Hrun.
      match type of Hrun with
      | match run ?m ?st with _ => _ end = _ =>
          destruct (run m st) as [[[advanced|e] s3]|]
      end; [|injection Hrun as <- _; eauto | discriminate Hrun].
      destruct advanced; eapply IH; try exact Hrun; lia.
    + eapply IH; [|exact Hrun]. exact Hle.
Qed.

(* ===================================================================== *)
(** * 11. Further properties of the code                                  *)
(* ===================================================================== *)

(** ** White space around a date *)

Lemma trimEnd_cons (c : ascii) (s : string) :
  isSpace c = false -> trimEnd (String c s) = String c (trimEnd s).
Proof.
  intros Hc. cbn [trimEnd]. destruct (trimEnd s); [rewrite Hc|]; reflexivity.
Qed.

Lemma trimEnd_idem (s : string) : trimEnd (trimEnd s) = trimEnd s.
Proof.
  induction s as [|c s IH]; [reflexivity|].
  cbn [trimEnd]. destruct (trimEnd s) as [|d t] eqn:E.
  - destruct (isSpace c) eqn:Ec; [reflexivity|].
    cbn [trimEnd]. rewrite Ec. reflexivity.
  - change (trimEnd (String c (String d t)))
      with (match trimEnd (String d t) with
            | EmptyString => if isSpace c then EmptyString else String c EmptyString
            | u => String c u
            end).
    rewrite IH. reflexivity.
Qed.

Lemma trimStart_shape (s : string) :
  trimStart s = EmptyString
  \/ exists c t, trimStart s = String c t /\ isSpace c = false.
Proof.
  induction s as [|c s IH]; [left; reflexivity|].
  cbn [trimStart]. destruct (isSpace c) eqn:Ec; [exact IH|].
  right. exists c, s. split; [reflexivity | exact Ec].
Qed.

Lemma trim_idem (s : string) : trim (trim s) = trim s.
Proof.
  unfold trim. destruct (trimStart_shape s) as [E | (c & t & E & Hc)]; rewrite E.
  - reflexivity.
  - rewrite (trimEnd_cons c t Hc). cbn [trimStart]. rewrite Hc.
    rewrite <- (trimEnd_cons c t Hc). apply trimEnd_idem.
Qed.

Lemma trim_empty_string (s : string) : trim s <> EmptyString -> s <> EmptyString.
Proof. intros Ht ->. apply Ht. reflexivity. Qed.

(** ** Matching a character class a number of times *)

Lemma allOf_app (p : ascii -> bool) (a b : string) :
  allOf p (a ++ b) = allOf p a && allOf p b.
Proof.
  induction a as [|c a IH]; [reflexivity|].
  cbn [append allOf]. rewrite IH. apply andb_assoc.
Qed.

Lemma allOf_impl (p q : ascii -> bool) (s : string) :
  (forall c, p c = true -> q c = true) -> allOf p s = true -> allOf q s = true.
Proof.
  intros Hpq. induction s as [|c s IH]; [reflexivity|].
  cbn [allOf]. intros E. apply andb_prop in E as [Hc Hs].
  rewrite (Hpq c Hc), (IH Hs). reflexivity.
Qed.

Lemma allDigits_allOf (s : string) : allDigits s = allOf isDigit s.
Proof. induction s as [|c s IH]; [reflexivity|]. cbn. rewrite IH. reflexivity. Qed.

Lemma rmatch_exactly (p : ascii -> bool) (w : string) :
  forall tail cs k,
    allOf p w = true ->
    rmatch (exactly (String.length w) (Cls p)) (w ++ tail) cs k = k tail cs.
Proof.
  induction w as [|c w IH]; intros tail cs k Hw; [reflexivity|].
  cbn [allOf] in Hw. apply andb_prop in Hw as [Hc Hw].
  cbn [String.length exactly append rmatch]. rewrite Hc.
  apply (IH tail cs k Hw).
Qed.

Lemma rmatch_upto (p : ascii -> bool) (n : nat) :
  forall w tail cs k m,
    allOf p w = true -> (String.length w <= n)%nat ->
    ((String.length w < n)%nat -> headNot p tail) ->
    k tail cs = Some m ->
    rmatch (upto n (Cls p)) (w ++ tail) cs k = Some m.
Proof.
  induction n as [|n IH]; intros w tail cs k m Hw Hlen Htail Hk.
  - destruct w; [exact Hk | cbn [String.length] in Hlen; lia].
  - destruct w as [|c w].
    + cbn [append upto rmatch].
      assert (Hhead : headNot p tail) by (apply Htail; cbn [String.length]; lia).
      destruct tail as [|t tail]; [exact Hk|].
      cbn [headNot] in Hhead. rewrite Hhead. exact Hk.
    + cbn [allOf] in Hw. apply andb_prop in Hw as [Hc Hw].
      cbn [String.length] in Hlen, Htail.
      cbn [append upto rmatch]. rewrite Hc.
      rewrite (IH w tail cs k m); auto; [lia | intros; apply Htail; lia].
Qed.

Lemma rmatch_rep (p : ascii -> bool) (lo : nat) :
  forall hi w tail cs k m,
    allOf p w = true -> (lo <= String.length w <= hi)%nat ->
    ((String.length w < hi)%nat -> headNot p tail) ->
    k tail cs = Some m ->
    rmatch (rep lo hi (Cls p)) (w ++ tail) cs k = Some m.
Proof.
  induction lo as [|lo IH]; intros hi w tail cs k m Hw Hlen Htail Hk.
  - unfold rep. cbn [exactly rmatch]. rewrite Nat.sub_0_r.
    apply rmatch_upto; auto. lia.
  - destruct w as [|c w]; [cbn [String.length] in Hlen; lia|].
    cbn [allOf] in Hw. apply andb_prop in Hw as [Hc Hw].
    cbn [String.length] in Hlen, Htail.
    destruct hi as [|hi]; [lia|].
    unfold rep. cbn [exactly append rmatch Nat.sub]. rewrite Hc.
    apply (IH hi w tail cs k m); auto; [lia | intros; apply Htail; lia].
Qed.

(** A group around a repeated class records the text it consumed. *)
Lemma rmatch_group_rep (p : ascii -> bool) (g lo hi : nat) (w tail : string)
    (cs : captures) (k : string -> captures -> option captures) (m : captures) :
  allOf p w = true -> (lo <= String.length w <= hi)%nat ->
  ((String.length w < hi)%nat -> headNot p tail) ->
  k tail ((g, w) :: cs) = Some m ->
  rmatch (Grp g (rep lo hi (Cls p))) (w ++ tail) cs k = Some m.
Proof.
  intros Hw Hlen Htail Hk. cbn [rmatch].
  apply rmatch_rep; auto. rewrite consumed_app. exact Hk.
Qed.

Lemma rmatch_group_exactly (p : ascii -> bool) (g : nat) (w tail : string)
    (cs : captures) (k : string -> captures -> option captures) :
  allOf p w = true ->
  rmatch (Grp g (exactly (String.length w) (Cls p))) (w ++ tail) cs k
  = k tail ((g, w) :: cs).
Proof.
  intros Hw. cbn [rmatch]. rewrite rmatch_exactly by exact Hw.
  rewrite consumed_app. reflexivity.
Qed.

(** ** Where a pattern cannot match *)

Lemma search_unfold (r : regex) (s : string) :
  search r s
  = match rmatch r s [] (fun _ cs => Some cs) with
    | Some m => Some m
    | None =>
        match s with
        | String _ s' => search r s'
        | EmptyString => None
        end
    end.
Proof. destruct s; reflexivity. Qed.

(** A search skips a prefix at none of whose positions the pattern matches. *)
Lemma search_skip (r : regex) (a b : string) :
  (forall c a1 a2, a = a1 ++ String c a2 ->
     rmatch r (String c a2 ++ b) [] (fun _ cs => Some cs) = None) ->
  search r (a ++ b) = search r b.
Proof.
  induction a as [|c a IH]; intros Hnone; [reflexivity|].
  pose proof (Hnone c EmptyString a eq_refl) as E0.
  cbn [append] in *. rewrite search_unfold, E0.
  apply IH. intros c' a1 a2 E. apply (Hnone c' (String c a1) a2).
  rewrite E. reflexivity.
Qed.

(** A match consumes a prefix of the input: when what follows fails on
    every suffix, the match fails. *)
Lemma rmatch_fail (r : regex) :
  forall s cs k,
    (forall a t cs', s = a ++ t -> k t cs' = None) ->
    rmatch r s cs k = None.
Proof.
  induction r as [|p|r1 IH1 r2 IH2|r1 IH1 r2 IH2|r1 IH1|n r1 IH1];
    intros s cs k Hk.
  - apply (Hk EmptyString s cs eq_refl).
  - destruct s as [|c s]; [reflexivity|]. cbn [rmatch].
    destruct (p c); [|reflexivity].
    apply (Hk (String c EmptyString) s cs eq_refl).
  - cbn [rmatch]. apply IH1. intros a t cs' E.
    apply IH2. intros a' t' cs'' E'. apply (Hk (a ++ a') t' cs'').
    rewrite E, E', sapp_assoc. reflexivity.
  - cbn [rmatch]. rewrite IH1 by exact Hk. apply IH2, Hk.
  - cbn [rmatch]. generalize (String.length s) as fuel. intros fuel.
    revert s cs Hk. induction fuel as [|fuel IHf]; intros s cs Hk.
    + apply (Hk EmptyString s cs eq_refl).
    + rewrite starLoop_S. rewrite IH1.
      * apply (Hk EmptyString s cs eq_refl).
      * intros a t cs' E.
        destruct (String.length t <? String.length s)%nat; [|reflexivity].
        apply IHf. intros a' t' cs'' E'. apply (Hk (a ++ a') t' cs'').
        rewrite E, E', sapp_assoc. reflexivity.
  - cbn [rmatch]. apply IH1. intros a t cs' E. apply (Hk a t _ E).
Qed.

Lemma search_fail (r : regex) (s : string) :
  (forall a t, s = a ++ t -> rmatch r t [] (fun _ cs => Some cs) = None) ->
  search r s = None.
Proof.
  induction s as [|c s IH]; intros Hnone.
  - cbn [search]. rewrite (Hnone EmptyString EmptyString eq_refl). reflexivity.
  - cbn [search]. rewrite (Hnone EmptyString (String c s) eq_refl).
    apply IH. intros a t E. apply (Hnone (String c a) t). rewrite E. reflexivity.
Qed.

Lemma allOf_suffix (p : ascii -> bool) (s a t : string) :
  allOf p s = true -> s = a ++ t -> allOf p t = true.
Proof.
  intros Hs ->. rewrite allOf_app in Hs. apply andb_prop in Hs as [_ Ht]. exact Ht.
Qed.

(** The relative pattern needs white space after its digits. *)
Lemma relativeRe_needs_space (s : string) :
  allOf (fun c => negb (isSpace c)) s = true -> search relativeRe s = None.
Proof.
  intros Hs. apply search_fail. intros a t E.
  unfold relativeRe. cbn [rmatch].
  apply rmatch_fail. intros a' t' cs' E'.
  assert (Ht' : allOf (fun c => negb (isSpace c)) t' = true).
  { apply (allOf_suffix _ t a' t'); [|exact E'].
    apply (allOf_suffix _ s a t); assumption. }
  destruct t' as [|c t']; [reflexivity|].
  cbn [allOf] in Ht'. apply andb_prop in Ht' as [Hc _].
  apply negb_true_iff in Hc. unfold plus, space. cbn [rmatch]. rewrite Hc.
  reflexivity.
Qed.

(** The month-name pattern needs a letter. *)
Lemma monthNameRe_needs_letter (s : string) :
  allOf (fun c => negb (isAlpha c)) s = true -> search monthNameRe s = None.
Proof.
  intros Hs. apply search_fail. intros a t E.
  assert (Ht : allOf (fun c => negb (isAlpha c)) t = true)
    by (apply (allOf_suffix _ s a t); assumption).
  unfold monthNameRe, rep. cbn [rmatch exactly].
  destruct t as [|c t]; [reflexivity|].
  cbn [allOf] in Ht. apply andb_prop in Ht as [Hc _].
  apply negb_true_iff in Hc. rewrite Hc. reflexivity.
Qed.

(** ** Numeric dates *)

Lemma digit_not_sep (c : ascii) :
  isDigit c = true -> Ascii.eqb c "-" || Ascii.eqb c "/" = false.
Proof. by_ascii c. Qed.

Lemma digit_not_alpha (c : ascii) : isDigit c = true -> isAlpha c = false.
Proof. by_ascii c. Qed.

Lemma separator_class (c : ascii) :
  isSeparator c ->
  Ascii.eqb c "-" || Ascii.eqb c "/" = true
  /\ isDigit c = false /\ isSpace c = false /\ isAlpha c = false.
Proof. intros [-> | ->]; repeat split. Qed.

Lemma trimEnd_nospace (s : string) :
  allOf (fun c => negb (isSpace c)) s = true -> trimEnd s = s.
Proof.
  induction s as [|c s IH]; [reflexivity|].
  cbn [allOf]. intros E. apply andb_prop in E as [Hc Hs].
  apply negb_true_iff in Hc. rewrite (trimEnd_cons c s Hc), (IH Hs). reflexivity.
Qed.

Lemma trim_nospace (s : string) :
  allOf (fun c => negb (isSpace c)) s = true -> trim s = s.
Proof.
  intros Hs. unfold trim.
  assert (E : trimStart s = s).
  { destruct s as [|c s]; [reflexivity|].
    cbn [allOf] in Hs. apply andb_prop in Hs as [Hc _].
    apply negb_true_iff in Hc. cbn [trimStart]. rewrite Hc. reflexivity. }
  rewrite E. apply trimEnd_nospace, Hs.
Qed.

(** Rewriting with what is known of the characters of a string. *)
Ltac known :=
  repeat match goal with
         | H : isDigit ?c = _ |- context [isDigit ?c] => rewrite H
         | H : isSpace ?c = _ |- context [isSpace ?c] => rewrite H
         | H : isAlpha ?c = _ |- context [isAlpha ?c] => rewrite H
         | H : Ascii.eqb ?c "-" || Ascii.eqb ?c "/" = _
           |- context [Ascii.eqb ?c "-" || Ascii.eqb ?c "/"] => rewrite H
         end.

Ltac regex_eval :=
  repeat (progress
            (cbn [search rmatch exactly upto rep plus Nat.sub digit space
                  dashOrSlash chr andb orb negb allOf];
             known)).

(** What is known of a digit and of a separator. *)
Ltac classify :=
  repeat match goal with
         | H : isSeparator ?c |- _ =>
             let B := fresh "B" in let D := fresh "D" in
             let S := fresh "S" in let A := fresh "A" in
             destruct (separator_class c H) as (B & D & S & A); clear H
         | H : isDigit ?c = true |- _ =>
             lazymatch goal with
             | _ : isSpace c = false |- _ => fail
             | _ =>
                 pose proof (isDigit_not_space c H);
                 pose proof (digit_not_sep c H);
                 pose proof (digit_not_alpha c H)
             end
         end.

(** The digits of a string of one or two, or of four digits. *)
Ltac digits_of H s :=
  let A := fresh "A" in let L := fresh "L" in
  destruct H as [A L];
  do 5 (try (destruct s as [|? s]; cbn [String.length] in L; try lia));
  cbn [allDigits] in A;
  repeat match type of A with
         | _ && _ = true => let D := fresh "D" in apply andb_prop in A as [D A]
         end;
  clear A L.

Section NumericDates.
Context `{Host}.

(** A string without white space and without letters, which native parsing
    rejects, is left to the two numeric rules. *)
Lemma parseDate_numeric (s : string) :
  s <> EmptyString ->
  allOf (fun c => negb (isSpace c)) s = true ->
  allOf (fun c => negb (isAlpha c)) s = true ->
  Date_parse s = NaN ->
  parseDate s = parseNumeric s.
Proof.
  intros Hne Hsp Hal Hnat. unfold parseDate.
  destruct s as [|c s]; [contradiction|]. cbn [truthy negb].
  rewrite trim_nospace by exact Hsp.
  unfold newDateFromString. cbn [getTime]. rewrite Hnat. cbn [isNaN negb].
  rewrite relativeRe_needs_space, monthNameRe_needs_letter by assumption.
  reflexivity.
Qed.

End NumericDates.

Lemma search_year_first (ys ms ds : string) (s1 s2 : ascii) :
  digitString 4 4 ys -> digitString 1 2 ms -> digitString 1 2 ds ->
  isSeparator s1 -> isSeparator s2 ->
  let s := ys ++ String s1 (ms ++ String s2 ds) in
  search numericRe s = Some [(3%nat, ds); (2%nat, ms); (1%nat, ys)]
  /\ s <> EmptyString
  /\ allOf (fun c => negb (isSpace c)) s = true
  /\ allOf (fun c => negb (isAlpha c)) s = true.
Proof.
  intros Hy Hm Hd S1 S2.
  digits_of Hy ys; digits_of Hm ms; digits_of Hd ds; classify;
    cbn [append]; unfold numericRe; regex_eval;
    (split; [reflexivity|]); (split; [discriminate|]); split; reflexivity.
Qed.

Lemma search_day_first (ds ms ys : string) (s1 s2 : ascii) :
  digitString 1 2 ds -> digitString 1 2 ms -> digitString 4 4 ys ->
  isSeparator s1 -> isSeparator s2 ->
  let s := ds ++ String s1 (ms ++ String s2 ys) in
  search numericRe s = None
  /\ search euroRe s = Some [(3%nat, ys); (2%nat, ms); (1%nat, ds)]
  /\ s <> EmptyString
  /\ allOf (fun c => negb (isSpace c)) s = true
  /\ allOf (fun c => negb (isAlpha c)) s = true.
Proof.
  intros Hd Hm Hy S1 S2.
  digits_of Hy ys; digits_of Hm ms; digits_of Hd ds; classify;
    cbn [append]; unfold numericRe, euroRe; regex_eval;
    (split; [reflexivity|]); (split; [reflexivity|]);
    (split; [discriminate|]); split; reflexivity.
Qed.

Section NumericRules.
Context `{Host}.

(** X1. A numeric date with the year first, four digits, a separator
    ([-] or [/]), one or two digits, a separator and one or two digits,
    which native parsing rejects, is read by the year-first rule: the result
    is [new Date(year, month - 1, day)] of the three numbers as written,
    whatever their values. *)
Theorem numeric_year_first (ys ms ds : string) (s1 s2 : ascii) :
  digitString 4 4 ys -> digitString 1 2 ms -> digitString 1 2 ds ->
  isSeparator s1 -> isSeparator s2 ->
  Date_parse (ys ++ String s1 (ms ++ String s2 ds)) = NaN ->
  parseDate (ys ++ String s1 (ms ++ String s2 ds))
  = Some (newDateYMD (parseInt ys) (nsub (parseInt ms) (Some 1)) (parseInt ds)).
Proof.
  intros Hy Hm Hd S1 S2 Hnat.
  destruct (search_year_first ys ms ds s1 s2 Hy Hm Hd S1 S2)
    as (Hsearch & Hne & Hsp & Hal).
  rewrite parseDate_numeric by assumption.
  unfold parseNumeric. rewrite Hsearch. reflexivity.
Qed.

(** X2. A numeric date with the day first, one or two digits, a
    separator, one or two digits, a separator and four digits, which native
    parsing rejects, is passed over by the year-first rule and read by the
    day-first rule: the result is [new Date(year, month - 1, day)]. *)
Theorem numeric_day_first (ds ms ys : string) (s1 s2 : ascii) :
  digitString 1 2 ds -> digitString 1 2 ms -> digitString 4 4 ys ->
  isSeparator s1 -> isSeparator s2 ->
  Date_parse (ds ++ String s1 (ms ++ String s2 ys)) = NaN ->
  parseDate (ds ++ String s1 (ms ++ String s2 ys))
  = Some (newDateYMD (parseInt ys) (nsub (parseInt ms) (Some 1)) (parseInt ds)).
Proof.
  intros Hd Hm Hy S1 S2 Hnat.
  destruct (search_day_first ds ms ys s1 s2 Hd Hm Hy S1 S2)
    as (Hnone & Hsearch & Hne & Hsp & Hal).
  rewrite parseDate_numeric by assumption.
  unfold parseNumeric. rewrite Hnone, Hsearch. reflexivity.
Qed.

End NumericRules.

(** ** The calendar fields of a time value *)

Lemma DayWithinYear_range (t : Z) :
  0 <= DayWithinYear t < 365 + InLeapYear (YearFromTime t).
Proof.
  unfold DayWithinYear, YearFromTime.
  pose proof (YearFromDay_spec (Day t)) as S.
  pose proof (DaysInYear_step (YearFromDay (Day t))) as St.
  rewrite InLeapYear_DaysInYear in St. lia.
Qed.

Lemma fields_valid (t : Z) :
  validYMD (YearFromTime t) (MonthFromTime t) (DateFromTime t).
Proof.
  pose proof (DayWithinYear_range t) as R.
  pose proof (InLeapYear_cases (YearFromTime t)) as L.
  unfold validYMD, DateFromTime, MonthFromTime.
  set (dwy := DayWithinYear t) in *. set (leap := InLeapYear (YearFromTime t)) in *.
  clearbody dwy leap. unfold monthOfDayInYear.
  repeat match goal with
         | |- context [?a <? ?b] => destruct (Z.ltb_spec a b)
         end;
    cbn [monthStart DaysInMonth Z.eqb Pos.eqb orb]; lia.
Qed.

Lemma MakeDay_fields (t : Z) :
  MakeDay (YearFromTime t) (MonthFromTime t) (DateFromTime t) = Day t.
Proof. rewrite MakeDay_same_month. lia. Qed.

Lemma MakeDay_bounds (y m d : Z) :
  0 <= y <= 9999 -> validYMD y m d ->
  -719528 <= MakeDay y m d <= 2932532 + 335 + 31.
Proof.
  intros Ry [Rm Rd].
  pose proof (DayFromYear_bounds y Ry) as By.
  pose proof (InLeapYear_cases y) as L.
  pose proof (monthStart_bounds m (InLeapYear y)) as Bm.
  pose proof (DaysInMonth_bounds m (InLeapYear y)) as Bd.
  unfold MakeDay. replace (m / 12) with 0 by zdiv.
  replace (m mod 12) with m by zdiv. rewrite Z.add_0_r. lia.
Qed.

Section LocalDates.
Context `{Host}.

(** The date object of a local calendar day, and its fields. *)
Lemma newDateYMD_valid (z y m d : Z) :
  100 <= y <= 9999 -> validYMD y m d ->
  fixedOffset z -> - msPerDay < z < msPerDay ->
  newDateYMD (Some y) (Some m) (Some d)
  = mkDate (Some (MakeDay y m d * msPerDay - z)).
Proof.
  intros Ry V Hz Htz. unfold newDateYMD.
  destruct (Z.leb_spec 0 y); [|lia]. destruct (Z.leb_spec y 99); [lia|].
  cbn [andb]. unfold UTC, MakeDate. rewrite Hz, Z.add_0_r. unfold TimeClip.
  assert (Bd : -719528 <= MakeDay y m d <= 2932532 + 335 + 31)
    by (apply MakeDay_bounds; [lia | exact V]).
  destruct (Z.leb_spec (Z.abs (MakeDay y m d * msPerDay - z)) maxTime)
    as [_|Hbad]; [reflexivity|].
  unfold msPerDay, maxTime in *. lia.
Qed.

Lemma local_fields (z y m d : Z) :
  validYMD y m d -> fixedOffset z ->
  let t := LocalTime (MakeDay y m d * msPerDay - z) in
  YearFromTime t = y /\ MonthFromTime t = m /\ DateFromTime t = d.
Proof.
  intros V Hz t.
  assert (Hday : Day t = MakeDay y m d).
  { subst t. unfold Day, LocalTime. rewrite Hz.
    replace (MakeDay y m d * msPerDay - z + z)
      with (MakeDay y m d * msPerDay) by lia.
    apply Z.div_mul. discriminate. }
  destruct (civil_roundtrip y m d V) as (Ey & Em & Ed).
  assert (Hm : MonthFromTime t = m).
  { unfold MonthFromTime, DayWithinYear, YearFromTime. rewrite Hday, Ey. exact Em. }
  unfold DateFromTime. rewrite Hm.
  unfold DayWithinYear, YearFromTime. rewrite Hday, Ey. auto.
Qed.

(** X3. In every time zone that keeps one offset, of less than a day,
    the date object of a calendar day given by its local fields, with a
    year from 100 to 9999, is formatted as that year, month and day, the
    month and the day padded to two digits. *)
Theorem local_date_formats_to_its_fields (z y m d : Z) :
  100 <= y <= 9999 -> validYMD y m d ->
  fixedOffset z -> - msPerDay < z < msPerDay ->
  formatDate (Some (newDateYMD (Some y) (Some m) (Some d)))
  = decimal y ++ "-" ++ padStart2 (decimal (m + 1)) ++ "-" ++ padStart2 (decimal d).
Proof.
  intros Ry V Hz Htz. rewrite (newDateYMD_valid z) by assumption.
  destruct (local_fields z y m d V Hz) as (Ey & Em & Ed).
  unfold formatDate, getFullYear, getMonth, getDate. cbn [getTime isNaN nadd].
  rewrite Ey, Em, Ed. unfold NumberToString. destruct V as [Rm Rd].
  destruct (Z.ltb_spec y 0); [lia|].
  destruct (Z.ltb_spec (m + 1) 0); [lia|].
  destruct (Z.ltb_spec d 0); [lia|].
  reflexivity.
Qed.

End LocalDates.

(** ** Formatting, then parsing *)

Lemma isoDateOnly_digits (a b c e m1 m2 d1 d2 : Z) :
  0 <= a <= 9 -> 0 <= b <= 9 -> 0 <= c <= 9 -> 0 <= e <= 9 ->
  0 <= m1 <= 9 -> 0 <= m2 <= 9 -> 0 <= d1 <= 9 -> 0 <= d2 <= 9 ->
  let y := 1000 * a + 100 * b + 10 * c + e in
  let m := 10 * m1 + m2 in
  let d := 10 * d1 + d2 in
  validYMD y (m - 1) d ->
  isoDateOnly
    (String (digitChar a) (String (digitChar b) (String (digitChar c)
      (String (digitChar e) (String "-" (String (digitChar m1)
        (String (digitChar m2) (String "-" (String (digitChar d1)
          (String (digitChar d2) EmptyString))))))))))
  = Some (y, m, d).
Proof.
  intros Ha Hb Hc He Hm1 Hm2 Hd1 Hd2 y m d [Rm Rd].
  unfold isoDateOnly.
  rewrite !isDigit_digitChar, !digitVal_digitChar by assumption.
  cbn [andb Ascii.eqb Bool.eqb].
  fold y m d.
  destruct (Z.leb_spec 1 m); [|lia]. destruct (Z.leb_spec m 12); [|lia].
  destruct (Z.leb_spec 1 d); [|lia].
  destruct (Z.leb_spec d (DaysInMonth (m - 1) (InLeapYear y))); [|lia].
  reflexivity.
Qed.

Section FormatThenParse.
Context `{Host}.

(** X4. Formatting an instant whose local year has four digits and
    parsing the result does not give the instant back but midnight UTC of
    its local calendar day. *)
Theorem format_then_parse (t : Z) :
  1000 <= YearFromTime (LocalTime t) <= 9999 ->
  parseDate (formatDate (instant t)) = instant (Day (LocalTime t) * msPerDay).
Proof.
  intros Ry. unfold instant, formatDate, getFullYear, getMonth, getDate.
  cbn [getTime isNaN nadd].
  set (lt := LocalTime t) in *.
  pose proof (fields_valid lt) as V. pose proof (MakeDay_fields lt) as Hday.
  set (y := YearFromTime lt) in *. set (m := MonthFromTime lt) in *.
  set (d := DateFromTime lt) in *. clearbody y m d.
  pose proof (DaysInMonth_bounds m (InLeapYear y) (ltac:(pose proof (InLeapYear_cases y); lia))) as Bd.
  destruct V as [Rm Rd]. unfold NumberToString.
  destruct (Z.ltb_spec y 0); [lia|].
  destruct (Z.ltb_spec (m + 1) 0); [lia|].
  destruct (Z.ltb_spec d 0); [lia|].
  assert (Dy : exists a b c e,
             y = 1000 * a + 100 * b + 10 * c + e
             /\ 1 <= a <= 9 /\ 0 <= b <= 9 /\ 0 <= c <= 9 /\ 0 <= e <= 9).
  { exists (y / 1000), (y / 100 mod 10), (y / 10 mod 10), (y mod 10).
    repeat split; zdiv. }
  assert (Dm : exists m1 m2,
             m + 1 = 10 * m1 + m2 /\ 0 <= m1 <= 9 /\ 0 <= m2 <= 9).
  { exists ((m + 1) / 10), ((m + 1) mod 10). repeat split; zdiv. }
  assert (Dd : exists d1 d2, d = 10 * d1 + d2 /\ 0 <= d1 <= 9 /\ 0 <= d2 <= 9).
  { exists (d / 10), (d mod 10). repeat split; zdiv. }
  destruct Dy as (a & b & c & e & Ey & Ha & Hb & Hc & He).
  destruct Dm as (m1 & m2 & Em & Hm1 & Hm2).
  destruct Dd as (d1 & d2 & Ed & Hd1 & Hd2).
  assert (V : validYMD (1000 * a + 100 * b + 10 * c + e)
                       (10 * m1 + m2 - 1) (10 * d1 + d2)).
  { rewrite <- Ey, <- Em, <- Ed. replace (m + 1 - 1) with m by lia.
    split; assumption. }
  pose proof (isoDateOnly_digits a b c e m1 m2 d1 d2 ltac:(lia) Hb Hc He
                Hm1 Hm2 Hd1 Hd2 V)
    as Eiso.
  destruct (parseDate_isoDateOnly _ _ _ _ Eiso) as (E & _ & _).
  rewrite Em. rewrite Ey at 1. rewrite Ed at 1.
  rewrite decimal_four, !padStart2_decimal by assumption.
  cbn [append]. rewrite E. do 3 f_equal.
  rewrite <- Ey, <- Em, <- Ed. replace (m + 1 - 1) with m by lia.
  rewrite Hday. reflexivity.
Qed.

End FormatThenParse.

(** ** Relative expressions in any letter case *)

Lemma lower_cases (c k : ascii) :
  lowerChar c = k -> isLower k = true ->
  c = k \/ c = ascii_of_nat (code k - 32).
Proof.
  intros <-.
  destruct c as [[|] [|] [|] [|] [|] [|] [|] [|]];
    (intros E; discriminate E) || (intros _; (left; reflexivity) || (right; reflexivity)).
Qed.

(** The spellings of a unit word: each letter in either case. *)
Ltac spellings w E :=
  repeat (destruct w as [|? w]; cbn [toLowerCase] in E; [discriminate E|];
          let Ec := fresh "Ec" in
          injection E as Ec E;
          apply lower_cases in Ec; [| reflexivity];
          destruct Ec as [-> | ->]);
  destruct w; cbn [toLowerCase] in E; first [discriminate E | clear E].

(** The pattern is not anchored: what follows the expression is ignored. *)
Lemma search_relative_inside (c : ascii) (ds w after : string) :
  isDigit c = true -> allDigits ds = true ->
  In (toLowerCase w)
     ["day"; "days"; "week"; "weeks"; "month"; "months"; "year"; "years"] ->
  search relativeRe (String c ds ++ " " ++ w ++ " ago" ++ after)
  = Some [(2%nat, w); (1%nat, String c ds)].
Proof.
  intros Hc Hds Hw. rewrite search_unfold.
  assert (E : rmatch relativeRe (String c ds ++ " " ++ w ++ " ago" ++ after) []
                (fun _ cs => Some cs)
              = Some [(2%nat, consumed (w ++ " ago" ++ after) (" ago" ++ after));
                      (1%nat, consumed (String c ds ++ " " ++ w ++ " ago" ++ after)
                                       (" " ++ w ++ " ago" ++ after))]).
  { cbn [In] in Hw.
    repeat (destruct Hw as [Hw | Hw]; [symmetry in Hw|]); [.. | contradiction];
      spellings w Hw;
      unfold relativeRe, plus, digit;
      cbn [append]; cbn [rmatch]; rewrite Hc;
      (apply starLoop_digits; [exact Hds | reflexivity | rewrite slength_app; lia |]);
      reflexivity. }
  rewrite E, !consumed_app. reflexivity.
Qed.

Lemma search_relative (c : ascii) (ds w : string) :
  isDigit c = true -> allDigits ds = true ->
  In (toLowerCase w)
     ["day"; "days"; "week"; "weeks"; "month"; "months"; "year"; "years"] ->
  search relativeRe (String c ds ++ " " ++ w ++ " ago")
  = Some [(2%nat, w); (1%nat, String c ds)].
Proof.
  intros Hc Hds Hw.
  exact (search_relative_inside c ds w EmptyString Hc Hds Hw).
Qed.

Lemma trim_relative (c : ascii) (ds w : string) :
  isDigit c = true ->
  trim (String c ds ++ " " ++ w ++ " ago") = String c ds ++ " " ++ w ++ " ago".
Proof.
  intros Hc.
  assert (E : String c ds ++ " " ++ w ++ " ago"
              = String c ((ds ++ " " ++ w ++ " ag") ++ String "o" EmptyString)).
  { cbn [append]. rewrite !sapp_assoc. cbn [append]. rewrite !sapp_assoc.
    reflexivity. }
  rewrite E. apply trim_fixed; [apply isDigit_not_space, Hc | reflexivity].
Qed.

(** The calendar fields of a time value are those of its day. *)
Lemma fields_of_day (a b : Z) :
  Day a = Day b ->
  YearFromTime a = YearFromTime b /\ MonthFromTime a = MonthFromTime b
  /\ DateFromTime a = DateFromTime b.
Proof.
  intros E.
  unfold DateFromTime, MonthFromTime, DayWithinYear, YearFromTime.
  rewrite E. auto.
Qed.

Lemma fields_of_day_and_time (y m d tod : Z) :
  validYMD y m d -> 0 <= tod < msPerDay ->
  let t := MakeDay y m d * msPerDay + tod in
  YearFromTime t = y /\ MonthFromTime t = m /\ DateFromTime t = d
  /\ TimeWithinDay t = tod.
Proof.
  intros V Htod t.
  assert (Hday : Day t = MakeDay y m d).
  { subst t. unfold Day. unfold msPerDay in *. zdiv. }
  destruct (civil_roundtrip y m d V) as (Ey & Em & Ed).
  assert (Hm : MonthFromTime t = m).
  { unfold MonthFromTime, DayWithinYear, YearFromTime. rewrite Hday, Ey. exact Em. }
  repeat split.
  - unfold YearFromTime. rewrite Hday. exact Ey.
  - exact Hm.
  - unfold DateFromTime. rewrite Hm.
    unfold DayWithinYear, YearFromTime. rewrite Hday, Ey. exact Ed.
  - subst t. unfold TimeWithinDay. unfold msPerDay in *. zdiv.
Qed.

Section Relative.
Context `{Host}.

(** On a host whose native parsing rejects the expression, ["<N> <unit>
    ago"] is handled by the relative rule, whatever the letter case of the
    unit. *)
Lemma parseDate_relative (n : Z) (w : string) :
  0 <= n ->
  In (toLowerCase w)
     ["day"; "days"; "week"; "weeks"; "month"; "months"; "year"; "years"] ->
  Date_parse (ago n w) = NaN ->
  parseDate (ago n w)
  = Some (let unit := toLowerCase w in
          let now := newDateNow in
          if String.eqb unit "day" || String.eqb unit "days" then
            setDate now (nsub (getDate now) (Some n))
          else if String.eqb unit "week" || String.eqb unit "weeks" then
            setDate now (nsub (getDate now) (Some (n * 7)))
          else if String.eqb unit "month" || String.eqb unit "months" then
            setMonth now (nsub (getMonth now) (Some n))
          else setFullYear now (nsub (getFullYear now) (Some n))).
Proof.
  intros Hn Hw Hnat. unfold ago in *.
  destruct (decimal_shape n Hn) as (c & ds & E & Hc & Hds & Hval).
  assert (Hint : parseInt (String c ds) = Some n)
    by (rewrite parseInt_digits, Hval by assumption; reflexivity).
  rewrite E in *. clear E.
  unfold parseDate. rewrite trim_relative by exact Hc.
  replace (truthy (String c ds ++ " " ++ w ++ " ago")) with true by reflexivity.
  cbn [negb]. unfold newDateFromString. cbn [getTime]. rewrite Hnat.
  cbn [isNaN negb]. rewrite search_relative by assumption.
  cbn [capture Nat.eqb]. rewrite Hint. cbn [nmul]. cbv zeta.
  f_equal. cbn [In] in Hw.
  repeat (destruct Hw as [Hw | Hw]; [rewrite <- Hw; reflexivity|]).
  contradiction.
Qed.

(** X5. On a host whose native parsing rejects the expression,
    ["<N> day ago"], ["<N> days ago"], ["<N> week ago"] and ["<N> weeks
    ago"], the unit in any letter case, move the local calendar day of the
    clock back by [N] days, respectively [7 * N] days, and keep the local
    time of day: the date object holds the clock moved back by that many
    days and by the change of the zone's offset between the two ends, or is
    the Invalid Date when that time value is out of range. Where the
    offset is the same at both ends, this is the clock moved back by
    exactly that many days. *)
Theorem relative_days_and_weeks (n k : Z) (w : string) :
  0 <= n ->
  In (toLowerCase w) ["day"; "days"] /\ k = 1
  \/ In (toLowerCase w) ["week"; "weeks"] /\ k = 7 ->
  Date_parse (ago n w) = NaN ->
  let offsetThen := LocalTZA (LocalTime clock - k * n * msPerDay) false in
  parseDate (ago n w)
  = Some (mkDate (TimeClip (clock - k * n * msPerDay
                            + (LocalTZA clock true - offsetThen))))
  /\ (offsetThen = LocalTZA clock true ->
      parseDate (ago n w) = Some (mkDate (TimeClip (clock - k * n * msPerDay)))).
Proof.
  intros Hn Hw Hnat offsetThen.
  assert (E : parseDate (ago n w)
              = Some (mkDate (TimeClip (daysBefore (k * n) clock)))).
  { rewrite parseDate_relative; [|exact Hn| |exact Hnat].
    - cbn [In] in Hw.
      destruct Hw as [[[<- | [<- | []]] ->] | [[<- | [<- | []]] ->]];
        cbn [String.eqb Ascii.eqb Bool.eqb orb]; cbv zeta;
        rewrite setDate_daysBefore; do 4 f_equal; lia.
    - cbn [In] in *. destruct Hw as [[Hw _] | [Hw _]]; tauto. }
  rewrite E, daysBefore_offsets. fold offsetThen. split; [reflexivity|].
  intros ->. do 3 f_equal. lia.
Qed.

(** X6. Twelve months are a year: ["<12 K> months ago"] and ["<K> years
    ago"] (singular or plural, any letter case) parse to the same date. *)
Theorem twelve_months_are_a_year (k : Z) (wm wy : string) :
  0 <= k ->
  In (toLowerCase wm) ["month"; "months"] ->
  In (toLowerCase wy) ["year"; "years"] ->
  Date_parse (ago (12 * k) wm) = NaN -> Date_parse (ago k wy) = NaN ->
  parseDate (ago (12 * k) wm) = parseDate (ago k wy).
Proof.
  intros Hk Hm Hy Nm Ny.
  rewrite !parseDate_relative; try assumption; try lia;
    [| cbn [In] in *; tauto | cbn [In] in *; tauto].
  f_equal.
  assert (Em : setMonth newDateNow (nsub (getMonth newDateNow) (Some (12 * k)))
               = setFullYear newDateNow (nsub (getFullYear newDateNow) (Some k))).
  { unfold setMonth, setFullYear, getMonth, getFullYear, newDateNow.
    cbn [getTime nsub]. do 4 f_equal.
    pose proof (monthOfDayInYear_range
                  (DayWithinYear (LocalTime clock))
                  (InLeapYear (YearFromTime (LocalTime clock)))) as Rm.
    fold (MonthFromTime (LocalTime clock)) in Rm.
    unfold MakeDay.
    replace ((MonthFromTime (LocalTime clock) - 12 * k) / 12) with (- k) by zdiv.
    replace ((MonthFromTime (LocalTime clock) - 12 * k) mod 12)
      with (MonthFromTime (LocalTime clock)) by zdiv.
    replace (MonthFromTime (LocalTime clock) / 12) with 0 by zdiv.
    replace (MonthFromTime (LocalTime clock) mod 12)
      with (MonthFromTime (LocalTime clock)) by zdiv.
    replace (YearFromTime (LocalTime clock) - k + 0)
      with (YearFromTime (LocalTime clock) + - k) by lia.
    reflexivity. }
  cbn [In] in Hm, Hy.
  destruct Hm as [<- | [<- | []]]; destruct Hy as [<- | [<- | []]];
    cbn [String.eqb Ascii.eqb Bool.eqb orb]; cbv zeta; exact Em.
Qed.

(** X7. ["<N> years ago"] keeps the local month and day of the month of
    the clock and moves the local year back by [N], unless the clock reads
    29 February (years from 0 to 9999). The zone's offsets are below a day,
    and its clock changes carry no local time over midnight: a local time
    turned into an instant and back stays on its calendar day, as it does
    in every zone that keeps one offset. *)
Theorem years_ago_keeps_the_calendar_day (n y m d : Z) (w : string) :
  getFullYear newDateNow = Some y -> getMonth newDateNow = Some m ->
  getDate newDateNow = Some d ->
  0 <= n <= y -> y <= 9999 -> ~ (m = 1 /\ d = 29) ->
  (forall x, - msPerDay < LocalTZA x false < msPerDay) ->
  (forall x, Day (LocalTime (UTC x)) = Day x) ->
  In (toLowerCase w) ["year"; "years"] ->
  Date_parse (ago n w) = NaN ->
  exists r,
    parseDate (ago n w) = Some r
    /\ getFullYear r = Some (y - n) /\ getMonth r = Some m /\ getDate r = Some d.
Proof.
  intros Ey Em Ed Hn Hy Hleap Htz Hday Hw Hnat.
  rewrite parseDate_relative;
    [| lia | cbn [In] in *; tauto | exact Hnat].
  assert (Eu : (let unit := toLowerCase w in
                let now := newDateNow in
                if String.eqb unit "day" || String.eqb unit "days" then
                  setDate now (nsub (getDate now) (Some n))
                else if String.eqb unit "week" || String.eqb unit "weeks" then
                  setDate now (nsub (getDate now) (Some (n * 7)))
                else if String.eqb unit "month" || String.eqb unit "months" then
                  setMonth now (nsub (getMonth now) (Some n))
                else setFullYear now (nsub (getFullYear now) (Some n)))
               = setFullYear newDateNow (Some (y - n))).
  { cbv zeta. rewrite Ey. cbn [nsub]. cbn [In] in Hw.
    destruct Hw as [<- | [<- | []]]; reflexivity. }
  rewrite Eu. clear Eu.
  unfold getFullYear, getMonth, getDate, newDateNow in Ey, Em, Ed.
  cbn [getTime] in Ey, Em, Ed.
  injection Ey as Ey. injection Em as Em. injection Ed as Ed.
  pose proof (fields_valid (LocalTime clock)) as V. rewrite Ey, Em, Ed in V.
  assert (V' : validYMD (y - n) m d).
  { destruct V as [Rm Rd]. split; [exact Rm|].
    pose proof (InLeapYear_cases y). pose proof (InLeapYear_cases (y - n)).
    unfold DaysInMonth in *. destruct (Z.eqb_spec m 1); lia. }
  assert (Htod : 0 <= TimeWithinDay (LocalTime clock) < msPerDay).
  { unfold TimeWithinDay. apply Z.mod_pos_bound. reflexivity. }
  destruct (fields_of_day_and_time (y - n) m d _ V' Htod) as (Fy & Fm & Fd & _).
  assert (Bd : -719528 <= MakeDay (y - n) m d <= 2932532 + 335 + 31)
    by (apply MakeDay_bounds; [lia | exact V']).
  unfold setFullYear, newDateNow. cbn [getTime]. rewrite Em, Ed.
  unfold MakeDate, TimeClip.
  set (tod := TimeWithinDay (LocalTime clock)) in *.
  set (x := MakeDay (y - n) m d * msPerDay + tod) in *.
  destruct (Z.leb_spec (Z.abs (UTC x)) maxTime) as [_|Hbad];
    [| unfold UTC in Hbad; pose proof (Htz x);
       unfold x, msPerDay, maxTime in *; lia].
  eexists. split; [reflexivity|].
  unfold getFullYear, getMonth, getDate. cbn [getTime].
  destruct (fields_of_day (LocalTime (UTC x)) x (Hday x)) as (-> & -> & ->).
  rewrite Fy, Fm, Fd. auto.
Qed.

End Relative.

(** ** Dates with a month name *)

Lemma lower_is_alpha (c : ascii) : isLower (lowerChar c) = true -> isAlpha c = true.
Proof.
  destruct c as [[|] [|] [|] [|] [|] [|] [|] [|]];
    (intros E; discriminate E) || (intros _; reflexivity).
Qed.

Lemma toLowerCase_letters (w k : string) :
  toLowerCase w = k -> allOf isLower k = true ->
  allOf isAlpha w = true /\ String.length w = String.length k.
Proof.
  revert k. induction w as [|c w IH]; intros k E Hk.
  - subst k. split; reflexivity.
  - cbn [toLowerCase] in E. subst k. cbn [allOf] in Hk.
    apply andb_prop in Hk as [Hc Hk].
    destruct (IH _ eq_refl Hk) as [Hw Hl].
    cbn [allOf String.length]. rewrite (lower_is_alpha c Hc), Hw, Hl.
    split; reflexivity.
Qed.

Lemma months_key_shape (w : string) (idx : Z) :
  lookup (toLowerCase w) months = Some idx ->
  allOf isAlpha w = true /\ (3 <= String.length w <= 9)%nat.
Proof.
  unfold months. cbn [lookup].
  repeat match goal with
         | |- context [String.eqb ?k (toLowerCase w)] =>
             destruct (String.eqb_spec k (toLowerCase w)) as [E|_];
             [ symmetry in E; intros _;
               destruct (toLowerCase_letters w _ E eq_refl) as [Hw Hl];
               rewrite Hl; split; [exact Hw | cbn [String.length]; lia] |]
         end.
  discriminate.
Qed.

Lemma alpha_class (c : ascii) :
  isAlpha c = true -> isDigit c = false /\ isSpace c = false.
Proof. by_ascii c; split; reflexivity. Qed.

Lemma digit_lower_neq (c k : ascii) :
  isDigit c = true -> isDigit k = false -> Ascii.eqb (lowerChar c) k = false.
Proof.
  intros Hc Hk. destruct (Ascii.eqb_spec (lowerChar c) k) as [E|]; [|reflexivity].
  subst k. revert Hc Hk. by_ascii c.
Qed.

Lemma digit_neq (k c : ascii) :
  isDigit c = true -> isDigit k = false -> Ascii.eqb k c = false.
Proof.
  intros Hc Hk. destruct (Ascii.eqb_spec k c) as [E|]; [|reflexivity].
  subst k. congruence.
Qed.

(** Class tests on literal characters. *)
Ltac literal :=
  repeat match goal with
         | |- context [isDigit (Ascii ?a ?b ?c ?d ?e ?f ?g ?h)] =>
             let v := eval vm_compute in (isDigit (Ascii a b c d e f g h)) in
             change (isDigit (Ascii a b c d e f g h)) with v
         | |- context [isSpace (Ascii ?a ?b ?c ?d ?e ?f ?g ?h)] =>
             let v := eval vm_compute in (isSpace (Ascii a b c d e f g h)) in
             change (isSpace (Ascii a b c d e f g h)) with v
         | |- context [isAlpha (Ascii ?a ?b ?c ?d ?e ?f ?g ?h)] =>
             let v := eval vm_compute in (isAlpha (Ascii a b c d e f g h)) in
             change (isAlpha (Ascii a b c d e f g h)) with v
         | |- context [Ascii.eqb (Ascii ?a ?b ?c ?d ?e ?f ?g ?h)
                                 (Ascii ?a' ?b' ?c' ?d' ?e' ?f' ?g' ?h')] =>
             let v := eval vm_compute in
                        (Ascii.eqb (Ascii a b c d e f g h)
                                   (Ascii a' b' c' d' e' f' g' h')) in
             change (Ascii.eqb (Ascii a b c d e f g h)
                               (Ascii a' b' c' d' e' f' g' h')) with v
         | |- context [lowerChar (Ascii ?a ?b ?c ?d ?e ?f ?g ?h)] =>
             let v := eval vm_compute in (lowerChar (Ascii a b c d e f g h)) in
             change (lowerChar (Ascii a b c d e f g h)) with v
         end.

Ltac known_digits :=
  repeat match goal with
         | H : isDigit ?c = true |- context [Ascii.eqb (lowerChar ?c) ?k] =>
             rewrite (digit_lower_neq c k H eq_refl)
         | H : isDigit ?c = true |- context [Ascii.eqb ?k ?c] =>
             rewrite (digit_neq k c H eq_refl)
         end.

Ltac regex_run :=
  repeat (progress
            (cbn [search rmatch exactly upto rep plus Nat.sub digit space
                  dashOrSlash chr wordi alts map andb orb negb
                  starLoop String.length Nat.ltb Nat.leb];
             known; known_digits; literal)).

Lemma rmatch_cat (r1 r2 : regex) (s : string) (cs : captures)
    (k : string -> captures -> option captures) :
  rmatch (Cat r1 r2) s cs k = rmatch r1 s cs (fun s1 cs1 => rmatch r2 s1 cs1 k).
Proof. reflexivity. Qed.

Lemma trimEnd_app (a b : string) :
  trimEnd b <> EmptyString -> trimEnd (a ++ b) = a ++ trimEnd b.
Proof.
  intros Hb. induction a as [|c a IH]; [reflexivity|].
  cbn [append trimEnd]. rewrite IH.
  destruct (a ++ trimEnd b) as [|x t] eqn:E; [|reflexivity].
  destruct a; [contradiction | discriminate E].
Qed.

Section MonthNames.
Context `{Host}.

(** X8. A date with a month name, ["<Month> <D>, <YYYY>"] or ["<Month>
    <D> <YYYY>"], the month being a key of the table in any letter case,
    which native parsing rejects, is read by the month-name rule as
    [new Date(year, monthIndex, day)]. *)
Theorem month_name_dates (w ds ys : string) (comma : bool) (idx : Z) :
  lookup (toLowerCase w) months = Some idx ->
  digitString 1 2 ds -> digitString 4 4 ys ->
  Date_parse (w ++ " " ++ ds ++ beforeYear comma ++ ys) = NaN ->
  parseDate (w ++ " " ++ ds ++ beforeYear comma ++ ys)
  = Some (newDateYMD (parseInt ys) (Some idx) (parseInt ds)).
Proof.
  intros Hidx Hd Hy Hnat.
  destruct (months_key_shape w idx Hidx) as [Hw Lw].
  set (rest := " " ++ ds ++ beforeYear comma ++ ys) in *.
  assert (Hrest : trimEnd rest = rest
                  /\ search relativeRe rest = None
                  /\ rmatch (Cat (plus space)
                               (Cat (Grp 2 (rep 1 2 digit))
                                  (Cat (plus (Alt (chr ",") space))
                                     (Grp 3 (exactly 4 digit)))))
                        rest [(1%nat, w)] (fun _ cs => Some cs)
                     = Some [(3%nat, ys); (2%nat, ds); (1%nat, w)]
                  /\ headNot isAlpha rest /\ rest <> EmptyString).
  { subst rest. clear Hnat.
    digits_of Hd ds; digits_of Hy ys; classify; destruct comma;
      cbn [append beforeYear];
      (split; [repeat (progress (cbn [trimEnd]; known; literal)); reflexivity|]);
      (split; [unfold relativeRe; regex_run; reflexivity|]);
      (split; [regex_run; reflexivity|]);
      (split; [reflexivity | discriminate]). }
  destruct Hrest as (Htrim & Hrel & Hmatch & Hhead & Hne).
  clearbody rest.
  assert (Hc : forall a1 c a2, w = a1 ++ String c a2 -> isAlpha c = true).
  { intros a1 c a2 E. rewrite E, allOf_app in Hw.
    apply andb_prop in Hw as [_ Hw]. cbn [allOf] in Hw.
    apply andb_prop in Hw as [Hc _]. exact Hc. }
  assert (Htrim' : trim (w ++ rest) = w ++ rest).
  { unfold trim. destruct w as [|c w']; [cbn [String.length] in Lw; lia|].
    destruct (alpha_class c (Hc EmptyString c w' eq_refl)) as [_ Sc].
    cbn [append trimStart]. rewrite Sc.
    change (String c (w' ++ rest)) with (String c w' ++ rest).
    rewrite trimEnd_app, Htrim; [reflexivity|]. rewrite Htrim. exact Hne. }
  unfold parseDate. rewrite Htrim'.
  replace (truthy (w ++ rest)) with true
    by (destruct w; [cbn [String.length] in Lw; lia | reflexivity]).
  cbn [negb]. unfold newDateFromString. cbn [getTime]. rewrite Hnat.
  cbn [isNaN negb].
  rewrite (search_skip relativeRe w rest), Hrel.
  - rewrite search_unfold. unfold monthNameRe at 1. rewrite rmatch_cat.
    rewrite (rmatch_group_rep isAlpha 1 3 9 w rest [] _
               [(3%nat, ys); (2%nat, ds); (1%nat, w)]); auto.
    cbn [capture Nat.eqb]. rewrite Hidx. reflexivity.
  - intros c a1 a2 E. destruct (alpha_class c (Hc a1 c a2 E)) as [Dc _].
    unfold relativeRe, plus, digit. cbn [append rmatch]. rewrite Dc. reflexivity.
Qed.

End MonthNames.

(** ** Further properties of [parseDate] and [isDateInRange] *)

Lemma decimal_four_digits (y : Z) :
  1000 <= y <= 9999 -> digitString 4 4 (decimal y).
Proof.
  intros Ry.
  replace y with (1000 * (y / 1000) + 100 * (y / 100 mod 10)
                  + 10 * (y / 10 mod 10) + y mod 10) by zdiv.
  rewrite decimal_four by zdiv. split; [|cbn [String.length]; lia].
  cbn [allDigits]. rewrite !isDigit_digitChar by zdiv. reflexivity.
Qed.

Lemma decimal_two_digits (n : Z) : 0 <= n <= 99 -> digitString 1 2 (decimal n).
Proof.
  intros Rn. unfold decimal. destruct (Z.ltb_spec n 10).
  - rewrite decimalDigits_last by lia. split; [|cbn [String.length]; lia].
    cbn [allDigits]. rewrite isDigit_digitChar by lia. reflexivity.
  - assert (Hlog : 3 <= Z.log2 n).
    { change 3 with (Z.log2 10). apply Z.log2_le_mono. lia. }
    destruct (Z.to_nat (Z.log2 n)) as [|k] eqn:Ek; [lia|].
    rewrite decimalDigits_step by lia. rewrite decimalDigits_last by zdiv.
    split; [|cbn [String.length]; lia].
    cbn [allDigits]. rewrite !isDigit_digitChar by zdiv. reflexivity.
Qed.

Section MoreDates.
Context `{Host}.

Lemma parseDate_slashDate (y m d : Z) :
  1000 <= y <= 9999 -> 0 <= m <= 99 -> 0 <= d <= 99 ->
  Date_parse (slashDate y m d) = NaN ->
  parseDate (slashDate y m d)
  = Some (newDateYMD (Some y) (Some (m - 1)) (Some d)).
Proof.
  intros Ry Rm Rd Hnat. unfold slashDate in *. cbn [append] in *.
  destruct (search_year_first (decimal y) (decimal m) (decimal d) "/" "/")
    as (Hsearch & Hne & Hsp & Hal);
    [ apply decimal_four_digits, Ry | apply decimal_two_digits, Rm
    | apply decimal_two_digits, Rd | right; reflexivity | right; reflexivity |].
  rewrite parseDate_numeric by assumption.
  unfold parseNumeric. rewrite Hsearch. cbn [capture Nat.eqb].
  rewrite !parseInt_decimal by lia. reflexivity.
Qed.

(** X9. The numeric rules validate nothing: a month number from 13 to 24
    is not rejected but read as the month twelve below it of the following
    year. *)
Theorem numeric_months_roll_over (y m d : Z) :
  1000 <= y <= 9998 -> 1 <= m <= 12 -> 1 <= d <= 99 ->
  Date_parse (slashDate y (m + 12) d) = NaN ->
  Date_parse (slashDate (y + 1) m d) = NaN ->
  parseDate (slashDate y (m + 12) d) = parseDate (slashDate (y + 1) m d).
Proof.
  intros Ry Rm Rd N1 N2.
  rewrite !parseDate_slashDate by (assumption || lia).
  f_equal. unfold newDateYMD.
  destruct (Z.leb_spec y 99); [lia|]. destruct (Z.leb_spec (y + 1) 99); [lia|].
  rewrite !andb_false_r. do 3 f_equal. unfold MakeDay.
  replace ((m + 12 - 1) / 12) with 1 by zdiv.
  replace ((m + 12 - 1) mod 12) with (m - 1) by zdiv.
  replace ((m - 1) / 12) with 0 by zdiv.
  replace ((m - 1) mod 12) with (m - 1) by zdiv.
  rewrite Z.add_0_r. reflexivity.
Qed.

(** X10. [parseDate] sees its argument through [trim]: a string and its
    trimmed form parse alike, and a string of white space only parses to
    [null] (on a host whose native parsing rejects the empty string). *)
Theorem parseDate_ignores_surrounding_space (s : string) :
  (trim s <> EmptyString -> parseDate s = parseDate (trim s))
  /\ (trim s = EmptyString -> Date_parse EmptyString = NaN -> parseDate s = None).
Proof.
  split.
  - intros Ht. unfold parseDate. rewrite trim_idem.
    destruct s as [|c s]; [exfalso; apply Ht; reflexivity|].
    destruct (trim (String c s)) as [|c' s']; [exfalso; apply Ht; reflexivity|].
    reflexivity.
  - intros Ht Hnat. unfold parseDate. rewrite Ht.
    destruct s as [|c s]; [reflexivity|]. cbn [truthy negb].
    unfold newDateFromString. cbn [getTime]. rewrite Hnat. reflexivity.
Qed.

End MoreDates.

(** ** What a scraper returns, in any world *)

Section Returns.
Context `{Puppeteer}.

Lemma returns_ret {A : Type} (P : A -> Prop) (a : A) : P a -> returns P (ret a).
Proof. intros Ha s a' s' [=]. subst. exact Ha. Qed.

Lemma returns_bind {A B : Type} (Q : A -> Prop) (P : B -> Prop)
    (m : M A) (f : A -> M B) :
  returns Q m -> (forall a, Q a -> returns P (f a)) -> returns P (bind m f).
Proof.
  intros Hm Hf s b s' E. rewrite run_bind in E.
  destruct (run m s) as [[[a|e] s1]|] eqn:Em; try discriminate.
  apply (Hf a (Hm s a s1 Em) s1 b s' E).
Qed.

Lemma returns_any {A : Type} (m : M A) : returns (fun _ => True) m.
Proof. intros s a s' _. exact I. Qed.

Lemma returns_then {A B : Type} (P : B -> Prop) (m : M A) (f : A -> M B) :
  (forall a, returns P (f a)) -> returns P (bind m f).
Proof.
  intros Hf. apply (returns_bind (fun _ => True)); [apply returns_any|].
  intros a _. apply Hf.
Qed.

Lemma returns_tryCatch {A : Type} (P : A -> Prop) (m : M A)
    (handler : Error -> M A) :
  returns P m -> (forall e, returns P (handler e)) ->
  returns P (tryCatch m handler).
Proof.
  intros Hm Hh s a s' E. unfold tryCatch in E. cbn [run] in E.
  destruct (run m s) as [[[a1|e] s1]|] eqn:Em; try discriminate.
  - injection E as -> ->. apply (Hm s a s' Em).
  - apply (Hh e s1 a s' E).
Qed.

Lemma returns_finally {A : Type} (P : A -> Prop) (m : M A) (cleanup : M unit) :
  returns P m -> returns P (finally_ m cleanup).
Proof.
  intros Hm s a s' E. unfold finally_ in E. cbn [run] in E.
  destruct (run m s) as [[r s1]|] eqn:Em; try discriminate.
  destruct (run cleanup s1) as [[[u|e] s2]|]; try discriminate.
  injection E as -> ->. apply (Hm s a s1 Em).
Qed.

Lemma returns_evaluate {A : Type} (script : Script) (f : Document -> A) :
  returns (fun a => exists doc, a = f doc) (evaluate script f).
Proof.
  intros s a s' E. unfold evaluate in E. rewrite run_bind in E.
  destruct (run (call (Evaluate script)) s) as [[[u|e] s1]|]; try discriminate.
  cbn [run] in E. injection E as <- <-. eexists. reflexivity.
Qed.

(** The loop only accumulates what the page function extracts. *)
Lemma paginate_returns (Q : Review -> Prop) (waitSelector nextSelector : string)
    (extractPage : Document -> list Review) (maxPages : nat) :
  (forall doc, Forall Q (extractPage doc)) ->
  forall (k currentPage : nat) (hasNextPage : bool) (allReviews : list Review),
    (2 * (S maxPages - currentPage) + Nat.b2n hasNextPage <= k)%nat ->
    Forall Q allReviews ->
    returns (Forall Q)
      (paginate waitSelector nextSelector extractPage maxPages currentPage
                hasNextPage allReviews).
Proof.
  intros Hpage.
  induction k as [|k IH]; intros currentPage hasNextPage allReviews Hk Hacc;
    rewrite paginate_equation_1; unfold paginate_unfold_clause_1;
    destruct (sumbool_of_bool (hasNextPage && (currentPage <=? maxPages)%nat))
      as [Hloop|Hloop];
    try (apply returns_ret; exact Hacc).
  - apply andb_prop in Hloop as [-> Hle]. apply Nat.leb_le in Hle.
    cbn [Nat.b2n] in Hk. lia.
  - apply andb_prop in Hloop as [-> Hle]. apply Nat.leb_le in Hle.
    cbn [Nat.b2n] in Hk.
    apply returns_then. intros _.
    apply (returns_bind (fun a => exists doc, a = extractPage doc));
      [apply returns_evaluate|].
    intros pageReviews [doc ->]. cbv zeta.
    assert (Hacc' : Forall Q (allReviews ++ extractPage doc)%list)
      by (apply Forall_app; split; [exact Hacc | apply Hpage]).
    apply returns_then. intros hasNext.
    destruct (sumbool_of_bool (hasNext && (currentPage <? maxPages)%nat))
      as [Hnext|Hnext].
    + apply andb_prop in Hnext as [-> Hlt]. apply Nat.ltb_lt in Hlt.
      apply returns_then. intros navigated. cbv zeta.
      apply IH; [destruct navigated; cbn [Nat.b2n]; lia | exact Hacc'].
    + apply IH; [cbn [Nat.b2n]; lia | exact Hacc'].
Qed.

End Returns.

Section ScrapedReviews.
Context `{Host} `{Puppeteer}.

Lemma dateFilter_keeps (Q : Review -> Prop) (sd ed : Date) (reviews : list Review) :
  Forall Q reviews ->
  Forall (fun r => Q r /\ keptBy sd ed r) (dateFilter sd ed reviews).
Proof.
  intros HQ. apply Forall_forall. intros r Hr.
  unfold dateFilter in Hr. apply filter_In in Hr as [Hin Hkeep].
  split; [exact (proj1 (Forall_forall Q reviews) HQ r Hin)|].
  unfold keptBy, isDateInRange. destruct (parseDate (date r)); [exact Hkeep | discriminate].
Qed.

Lemma guarded_returns (P : Result -> Prop) (headless : bool) (block : M Result) :
  returns P block -> (forall e, P (Failure e)) ->
  returns P
    (_ <- call (Launch headless) ;;
     finally_ (tryCatch block (fun error => ret (Failure error))) (call Close)).
Proof.
  intros Hb Hf. apply returns_then. intros _.
  apply returns_finally, returns_tryCatch; [exact Hb|].
  intros e. apply returns_ret, Hf.
Qed.

Lemma listing_returns (Q : Review -> Prop) (waitSelector nextSelector : string)
    (extractPage : Document -> list Review) (sd ed : Date) (maxPages : nat) :
  (forall doc, Forall Q (extractPage doc)) ->
  returns (everyReview (fun r => Q r /\ keptBy sd ed r))
    (allReviews <- paginate waitSelector nextSelector extractPage maxPages 1 true [] ;;
     ret (Success (dateFilter sd ed allReviews) None)).
Proof.
  intros Hpage. apply (returns_bind (Forall Q)).
  - apply (paginate_returns Q _ _ _ maxPages Hpage (2 * maxPages + 1));
      [cbn [Nat.b2n]; lia | constructor].
  - intros all Hall. apply returns_ret. cbn [everyReview].
    apply dateFilter_keeps, Hall.
Qed.

Lemma trustRadiusTry_returns (c : string) (sd ed : Date) (maxPages : nat) :
  returns (everyReview (fun r => (source r = "TrustRadius"
                                  /\ description r <> EmptyString)
                                 /\ keptBy sd ed r))
    (trustRadiusTry c sd ed maxPages).
Proof.
  assert (Hpage : forall doc,
             Forall (fun r => source r = "TrustRadius"
                              /\ description r <> EmptyString)
                    (trustRadiusPage doc)).
  { intros doc. unfold trustRadiusPage. apply Forall_forall. intros r Hr.
    apply in_map_iff in Hr as (e & <- & _).
    split; [reflexivity | apply description_never_blank]. }
  pose proof (listing_returns _ ".review-card, .review-container" trustRadiusNext
                _ sd ed maxPages Hpage) as Hscrape.
  unfold trustRadiusTry.
  do 4 (apply returns_then; intros ?).
  match goal with |- context [if ?b then _ else _] => destruct b end.
  - do 2 (apply returns_then; intros ?).
    match goal with |- context [if ?b then _ else _] => destruct b end.
    + apply returns_ret. exact I.
    + do 2 (apply returns_then; intros ?). exact Hscrape.
  - do 2 (apply returns_then; intros ?). exact Hscrape.
Qed.

Lemma capterraTry_returns (c : string) (sd ed : Date) (maxPages : nat) :
  returns (everyReview (fun r => (source r = "Capterra"
                                  /\ description r <> EmptyString)
                                 /\ keptBy sd ed r))
    (capterraTry c sd ed maxPages).
Proof.
  assert (Hpage : forall doc,
             Forall (fun r => source r = "Capterra"
                              /\ description r <> EmptyString)
                    (capterraPage doc)).
  { intros doc. unfold capterraPage. apply Forall_forall. intros r Hr.
    apply in_map_iff in Hr as (e & <- & _).
    split; [reflexivity | apply description_never_blank]. }
  pose proof (listing_returns _ ".review" capterraNext _ sd ed maxPages Hpage)
    as Hscrape.
  unfold capterraTry.
  do 4 (apply returns_then; intros ?).
  match goal with |- context [if ?b then _ else _] => destruct b end.
  - apply returns_ret. exact I.
  - apply returns_then; intros ?. exact Hscrape.
Qed.

(** X11. In any world, every review a TrustRadius or Capterra scrape
    succeeds with has a date that [parseDate] reads inside the requested
    range, a non-empty description and the source of its scraper. *)
Theorem scraped_reviews_are_in_range (c : string) (sd ed : Date) (maxPages : nat)
    (s s' : Session) (data : list Review) (note : option string) :
  (run (scrapeTrustRadiusReviews c sd ed maxPages) s
   = Some (Ok (Success data note), s') ->
   Forall (fun r => isDateInRange (parseDate (date r)) (Some sd) (Some ed) = true
                    /\ description r <> EmptyString
                    /\ source r = "TrustRadius") data)
  /\ (run (scrapeCapterraReviews c sd ed maxPages) s
      = Some (Ok (Success data note), s') ->
      Forall (fun r => isDateInRange (parseDate (date r)) (Some sd) (Some ed) = true
                       /\ description r <> EmptyString
                       /\ source r = "Capterra") data).
Proof.
  split; intros E.
  - pose proof (guarded_returns _ true _ (trustRadiusTry_returns c sd ed maxPages)
                  (fun _ => I) s _ s' E) as Hall.
    cbn [everyReview] in Hall. revert Hall. apply Forall_impl.
    intros r [[Hs Hd] Hk]. repeat split; assumption.
  - pose proof (guarded_returns _ true _ (capterraTry_returns c sd ed maxPages)
                  (fun _ => I) s _ s' E) as Hall.
    cbn [everyReview] in Hall. revert Hall. apply Forall_impl.
    intros r [[Hs Hd] Hk]. repeat split; assumption.
Qed.

End ScrapedReviews.

(** ** The calls a scraper makes, in any world *)

Section Emits.
Context `{Puppeteer}.

Lemma emits_ret {A : Type} (P : Command -> Prop) (a : A) : emits P (ret a).
Proof.
  intros s r s' [=]. subst. exists []. rewrite app_nil_r. split; constructor.
Qed.

Lemma emits_call (P : Command -> Prop) (c : Command) : P c -> emits P (call c).
Proof.
  intros Hc s r s' E. rewrite run_call in E. injection E as <- <-.
  exists [c]. split; [reflexivity | repeat constructor; exact Hc].
Qed.

Lemma emits_url (P : Command -> Prop) : emits P url.
Proof.
  intros s r s' [=]. subst. exists []. rewrite app_nil_r. split; constructor.
Qed.

Lemma emits_bind {A B : Type} (P : Command -> Prop) (m : M A) (f : A -> M B) :
  emits P m -> (forall a, emits P (f a)) -> emits P (bind m f).
Proof.
  intros Hm Hf s r s' E. rewrite run_bind in E.
  destruct (run m s) as [[[a|e] s1]|] eqn:Em; try discriminate.
  - destruct (Hm s _ s1 Em) as (t1 & E1 & P1).
    destruct (Hf a s1 r s' E) as (t2 & E2 & P2).
    exists (t1 ++ t2)%list. rewrite E2, E1, app_assoc.
    split; [reflexivity | apply Forall_app; split; assumption].
  - injection E as <- <-. apply (Hm s _ s1 Em).
Qed.

Lemma emits_tryCatch {A : Type} (P : Command -> Prop) (m : M A)
    (handler : Error -> M A) :
  emits P m -> (forall e, emits P (handler e)) -> emits P (tryCatch m handler).
Proof.
  intros Hm Hh s r s' E. unfold tryCatch in E. cbn [run] in E.
  destruct (run m s) as [[[a|e] s1]|] eqn:Em; try discriminate.
  - injection E as <- <-. apply (Hm s _ s1 Em).
  - destruct (Hm s _ s1 Em) as (t1 & E1 & P1).
    destruct (Hh e s1 r s' E) as (t2 & E2 & P2).
    exists (t1 ++ t2)%list. rewrite E2, E1, app_assoc.
    split; [reflexivity | apply Forall_app; split; assumption].
Qed.

Lemma emits_attempt {A : Type} (P : Command -> Prop) (m : M A) :
  emits P m -> emits P (attempt m).
Proof.
  intros Hm s r s' E. unfold attempt in E. cbn [run] in E.
  destruct (run m s) as [[[a|e] s1]|] eqn:Em; try discriminate;
    injection E as <- <-; apply (Hm s _ s1 Em).
Qed.

Lemma emits_evaluate {A : Type} (P : Command -> Prop) (script : Script)
    (f : Document -> A) :
  P (Evaluate script) -> emits P (evaluate script f).
Proof.
  intros Hc. unfold evaluate. apply emits_bind; [apply emits_call, Hc|].
  intros _ s r s' E. cbn [run] in E. injection E as <- <-.
  exists []. rewrite app_nil_r. split; constructor.
Qed.

Lemma paginate_emits (waitSelector nextSelector : string)
    (extractPage : Document -> list Review) (maxPages : nat) :
  forall (k currentPage : nat) (hasNextPage : bool) (allReviews : list Review),
    (2 * (S maxPages - currentPage) + Nat.b2n hasNextPage <= k)%nat ->
    emits pageCall
      (paginate waitSelector nextSelector extractPage maxPages currentPage
                hasNextPage allReviews).
Proof.
  induction k as [|k IH]; intros currentPage hasNextPage allReviews Hk;
    rewrite paginate_equation_1; unfold paginate_unfold_clause_1;
    destruct (sumbool_of_bool (hasNextPage && (currentPage <=? maxPages)%nat))
      as [Hloop|Hloop];
    try apply emits_ret.
  - apply andb_prop in Hloop as [-> Hle]. apply Nat.leb_le in Hle.
    cbn [Nat.b2n] in Hk. lia.
  - apply andb_prop in Hloop as [-> Hle]. apply Nat.leb_le in Hle.
    cbn [Nat.b2n] in Hk.
    apply emits_bind; [apply emits_attempt, emits_call; exact I|]. intros _.
    apply emits_bind; [apply emits_evaluate; exact I|]. intros pageReviews.
    cbv zeta.
    apply emits_bind; [apply emits_evaluate; exact I|]. intros hasNext.
    destruct (sumbool_of_bool (hasNext && (currentPage <? maxPages)%nat))
      as [Hnext|Hnext].
    + apply andb_prop in Hnext as [-> Hlt]. apply Nat.ltb_lt in Hlt.
      apply emits_bind; [apply emits_attempt, emits_call; exact I|].
      intros navigated. cbv zeta.
      apply IH. destruct navigated; cbn [Nat.b2n]; lia.
    + apply IH. cbn [Nat.b2n]. lia.
Qed.

End Emits.

Section Frame.
Context `{Host} `{Puppeteer}.

Ltac page_step_with n :=
  first
    [ apply emits_ret
    | apply emits_url
    | apply emits_call; exact I
    | apply emits_evaluate; exact I
    | apply (paginate_emits _ _ _ n (2 * n + 1)%nat); cbn [Nat.b2n]; lia ].

Lemma trustRadiusTry_emits (c : string) (sd ed : Date) (maxPages : nat) :
  emits pageCall (trustRadiusTry c sd ed maxPages).
Proof.
  assert (Hscrape :
            emits pageCall
              (allReviews <- paginate ".review-card, .review-container"
                               trustRadiusNext trustRadiusPage maxPages 1 true [] ;;
               ret (Success (dateFilter sd ed allReviews) None)))
    by (apply emits_bind; [page_step_with maxPages | intros ?; page_step_with maxPages]).
  unfold trustRadiusTry.
  do 4 (apply emits_bind; [page_step_with maxPages | intros ?]).
  match goal with |- context [if ?b then _ else _] => destruct b end.
  - do 2 (apply emits_bind; [page_step_with maxPages | intros ?]).
    match goal with |- context [if ?b then _ else _] => destruct b end.
    + page_step_with maxPages.
    + do 2 (apply emits_bind; [page_step_with maxPages | intros ?]). exact Hscrape.
  - do 2 (apply emits_bind; [page_step_with maxPages | intros ?]). exact Hscrape.
Qed.

Lemma capterraTry_emits (c : string) (sd ed : Date) (maxPages : nat) :
  emits pageCall (capterraTry c sd ed maxPages).
Proof.
  unfold capterraTry.
  do 4 (apply emits_bind; [page_step_with maxPages | intros ?]).
  match goal with |- context [if ?b then _ else _] => destruct b end.
  - page_step_with maxPages.
  - apply emits_bind; [page_step_with maxPages | intros ?].
    apply emits_bind; [page_step_with maxPages | intros ?; page_step_with maxPages].
Qed.

(** The frame around a [try] block: the launch first, the close last,
    whatever the block does in between. *)
Lemma guarded_trace (P : Command -> Prop) (headless : bool) (n : nat)
    (block : M Result) (s : Session) :
  extractsAtMost n block -> emits P block ->
  fst (perform (Launch headless) (world s)) = Ok tt ->
  exists r s' t,
    run (_ <- call (Launch headless) ;;
         finally_ (tryCatch block (fun error => ret (Failure error)))
                  (call Close)) s
    = Some (r, s')
    /\ trace s' = (trace s ++ Launch headless :: t ++ [Close])%list
    /\ Forall P t.
Proof.
  intros Hb Hp Hlaunch.
  rewrite run_bind, run_call, Hlaunch.
  set (s1 := mkSession _ _).
  destruct (Hb s1) as (rb & s2 & E & _).
  destruct (Hp s1 rb s2 E) as (t & Et & Pt).
  unfold finally_, tryCatch. cbn [run]. rewrite E.
  assert (Etrace : (trace s2 ++ [Close] = trace s ++ Launch headless :: t ++ [Close])%list).
  { rewrite Et. subst s1. cbn [trace]. rewrite <- !app_assoc. reflexivity. }
  destruct rb as [res|e]; [|cbn [ret run]]; rewrite run_call;
    destruct (perform Close (world s2)) as [[u|e'] w]; cbn [fst snd];
    eexists _, _, t; (split; [reflexivity|]); cbn [trace]; auto.
Qed.

(** X12. In any world in which the browser launches, a TrustRadius or
    Capterra scrape settles, and the calls it has made are the launch, then
    calls on the page only, then the close of the browser: on every path,
    also when the [try] block throws. *)
Theorem browser_is_always_closed (c : string) (sd ed : Date) (maxPages : nat)
    (s : Session) :
  fst (perform (Launch true) (world s)) = Ok tt ->
  (exists r s' t,
     run (scrapeTrustRadiusReviews c sd ed maxPages) s = Some (r, s')
     /\ trace s' = (trace s ++ Launch true :: t ++ [Close])%list
     /\ Forall pageCall t)
  /\ (exists r s' t,
        run (scrapeCapterraReviews c sd ed maxPages) s = Some (r, s')
        /\ trace s' = (trace s ++ Launch true :: t ++ [Close])%list
        /\ Forall pageCall t).
Proof.
  intros Hlaunch. split.
  - apply (guarded_trace pageCall true maxPages);
      [apply trustRadiusTry_cap | apply trustRadiusTry_emits | exact Hlaunch].
  - apply (guarded_trace pageCall true maxPages);
      [apply capterraTry_cap | apply capterraTry_emits | exact Hlaunch].
Qed.

(** X13. The launch and the close of the browser lie outside the [try]
    block: when the launch throws, the scraper rejects with that error
    after this single call; when the close throws, the scraper rejects with
    that error whatever the [try] block produced. *)
Theorem errors_outside_try_are_thrown (c : string) (sd ed : Date)
    (maxPages : nat) (s : Session) (e : Error) :
  (fst (perform (Launch true) (world s)) = Throw e ->
   let s1 := mkSession (snd (perform (Launch true) (world s)))
                       (trace s ++ [Launch true])%list in
   run (scrapeTrustRadiusReviews c sd ed maxPages) s = Some (Throw e, s1)
   /\ run (scrapeCapterraReviews c sd ed maxPages) s = Some (Throw e, s1))
  /\ (fst (perform (Launch true) (world s)) = Ok tt ->
      (forall w, fst (perform Close w) = Throw e) ->
      (exists s', run (scrapeTrustRadiusReviews c sd ed maxPages) s
                  = Some (Throw e, s'))
      /\ (exists s', run (scrapeCapterraReviews c sd ed maxPages) s
                     = Some (Throw e, s'))).
Proof.
  split.
  - intros Hlaunch s1. unfold scrapeTrustRadiusReviews, scrapeCapterraReviews.
    rewrite !run_bind, !run_call, Hlaunch. split; reflexivity.
  - intros Hlaunch Hclose.
    assert (Hframe : forall block : M Result,
               extractsAtMost maxPages block ->
               exists s',
                 run (_ <- call (Launch true) ;;
                      finally_ (tryCatch block (fun error => ret (Failure error)))
                               (call Close)) s
                 = Some (Throw e, s')).
    { intros block Hb. rewrite run_bind, run_call, Hlaunch.
      set (s1 := mkSession _ _).
      destruct (Hb s1) as (rb & s2 & E & _).
      unfold finally_, tryCatch. cbn [run]. rewrite E.
      destruct rb as [res|e']; [|cbn [ret run]]; rewrite run_call, Hclose;
        eexists; reflexivity. }
    split; apply Hframe; [apply trustRadiusTry_cap | apply capterraTry_cap].
Qed.

End Frame.

(** ** The request handler *)

Section HandlerLemmas.
Context `{Host} `{Puppeteer}.

Lemma returns_impl {A : Type} (P Q : A -> Prop) (m : M A) :
  (forall a, P a -> Q a) -> returns P m -> returns Q m.
Proof. intros HPQ Hm s a s' E. apply HPQ, (Hm s a s' E). Qed.

Lemma everyReview_impl (P Q : Review -> Prop) (result : Result) :
  (forall r, P r -> Q r) -> everyReview P result -> everyReview Q result.
Proof.
  intros HPQ. destruct result as [data note|e]; [|trivial].
  cbn [everyReview]. apply Forall_impl, HPQ.
Qed.

Lemma trustRadius_returns_kept (c : string) (sd ed : Date) (maxPages : nat) :
  returns (everyReview (keptBy sd ed)) (scrapeTrustRadiusReviews c sd ed maxPages).
Proof.
  apply guarded_returns; [|intros e; exact I].
  eapply returns_impl; [|apply trustRadiusTry_returns].
  intros result. apply everyReview_impl. intros r [_ Hk]. exact Hk.
Qed.

Lemma capterra_returns_kept (c : string) (sd ed : Date) (maxPages : nat) :
  returns (everyReview (keptBy sd ed)) (scrapeCapterraReviews c sd ed maxPages).
Proof.
  apply guarded_returns; [|intros e; exact I].
  eapply returns_impl; [|apply capterraTry_returns].
  intros result. apply everyReview_impl. intros r [_ Hk]. exact Hk.
Qed.

Lemma g2_returns_kept (fuel : nat) (c : string) (sd ed : Date) (maxPages : nat) :
  returns (everyReview (keptBy sd ed)) (scrapeG2Reviews fuel c sd ed maxPages).
Proof.
  intros s result s' E.
  destruct (isNaN (getTime sd) || isNaN (getTime ed)) eqn:Hnan.
  - rewrite scrapeG2_invalid in E by exact Hnan. discriminate E.
  - apply orb_false_elim in Hnan as [Hs He].
    rewrite scrapeG2_valid in E by assumption. injection E as <- <-.
    cbn [everyReview].
    pose proof (dateFilter_keeps (fun _ => True) sd ed mockData) as Hk.
    eapply Forall_impl; [|apply Hk, Forall_forall; trivial].
    intros r [_ Hr]. exact Hr.
Qed.

(** X14. Whatever JSON values the body of a request holds, the request is
    answered with status 400 and an error message, without any call to the
    browser or to the file system, when its company name, start date, end
    date or source is missing or falsy, when both dates are strings and
    one of them does not parse, or when the name and the dates are strings
    and the source is a string other than [g2], [capterra] and
    [trustradius] (in any letter case). When the four fields are truthy
    and a date is not a string, the request is not answered: [parseDate]
    throws a [TypeError] before the [try] block is entered. *)
Theorem invalid_requests_are_rejected (stringOf : Json -> Exn string)
    (scrapeUntyped : string -> Json -> Date -> Date -> M Result)
    (fuel : nat) (req : RequestBody) (s : Session) :
  let companyName := bodyCompanyName req in
  let startDate := bodyStartDate req in
  let endDate := bodyEndDate req in
  let source := bodySource req in
  let handler := postScrapeReviews stringOf scrapeUntyped fuel req in
  (falsy companyName = true \/ falsy startDate = true
   \/ falsy endDate = true \/ falsy source = true
   \/ (exists a b,
         startDate = JString a /\ endDate = JString b
         /\ (parseDate a = None \/ parseDate b = None))
   \/ (exists name a b w,
         companyName = JString name /\ startDate = JString a
         /\ endDate = JString b /\ source = JString w
         /\ ~ In (toLowerCase w) ["g2"; "capterra"; "trustradius"]) ->
   exists message,
     run handler s = Some (Ok (mkResponse 400 (ErrorOnly message)), s))
  /\ (falsy companyName = false -> falsy startDate = false ->
      falsy endDate = false -> falsy source = false ->
      isText startDate = false \/ isText endDate = false ->
      run handler s = Some (Throw (notAFunction "dateStr" "trim"), s)).
Proof.
  intros companyName startDate endDate source handler.
  subst handler. unfold postScrapeReviews.
  fold companyName startDate endDate source.
  split.
  - intros Hbad.
    destruct (falsy companyName) eqn:Fc; [eexists; reflexivity|].
    destruct (falsy startDate) eqn:Fs; [eexists; reflexivity|].
    destruct (falsy endDate) eqn:Fe; [eexists; reflexivity|].
    destruct (falsy source) eqn:Fw; [eexists; reflexivity|].
    cbn [orb].
    destruct Hbad as [E | [E | [E | [E | [Hdates | Hsource]]]]];
      try discriminate E.
    + destruct Hdates as (a & b & Ea & Eb & Hnone).
      rewrite Ea, Eb in *. unfold parseDateOf. rewrite Fs, Fe.
      rewrite !run_bind. cbn [ret run].
      destruct (parseDate a) as [sd|]; [|eexists; reflexivity].
      destruct (parseDate b) as [ed|]; [|eexists; reflexivity].
      destruct Hnone; discriminate.
    + destruct Hsource as (name & a & b & w & Ec & Ea & Eb & Ew & Hw).
      rewrite Ec, Ea, Eb, Ew in *. unfold parseDateOf. rewrite Fs, Fe.
      rewrite !run_bind. cbn [ret run].
      destruct (parseDate a) as [sd|]; [|eexists; reflexivity].
      destruct (parseDate b) as [ed|]; [|eexists; reflexivity].
      unfold tryCatch. cbn [run bind interpolate ret].
      cbn [In] in Hw.
      destruct (String.eqb_spec (toLowerCase w) "g2") as [E|_];
        [symmetry in E; tauto|].
      destruct (String.eqb_spec (toLowerCase w) "capterra") as [E|_];
        [symmetry in E; tauto|].
      destruct (String.eqb_spec (toLowerCase w) "trustradius") as [E|_];
        [symmetry in E; tauto|].
      eexists. reflexivity.
  - intros -> Fs Fe -> Htext. rewrite Fs, Fe. cbn [orb].
    destruct (isText startDate) eqn:Ts.
    + destruct Htext as [E|Te]; [discriminate E|].
      rewrite (parseDateOf_other endDate Fe Te).
      destruct startDate; try discriminate Ts.
      unfold parseDateOf at 1. rewrite Fs. reflexivity.
    + rewrite (parseDateOf_other startDate Fs Ts). reflexivity.
Qed.

(** X15. A response with status 200 carries at least one review, the
    count of its reviews and the path of the file; all its reviews are
    dated inside the range of the parsed request dates, and the last call
    made was the writing of that file. *)
Theorem ok_responses_carry_reviews_in_range (fuel : nat) (req : Request)
    (s s' : Session) (resp : Response) :
  run (scrapeReviewsHandler fuel req) s = Some (Ok resp, s') ->
  status resp = 200 ->
  exists data path sd ed t,
    body resp = Reviews data (List.length data) path
    /\ data <> []
    /\ parseDate (reqStartDate req) = Some sd
    /\ parseDate (reqEndDate req) = Some ed
    /\ Forall (fun r => isDateInRange (parseDate (date r)) (Some sd) (Some ed)
                        = true) data
    /\ trace s' = (t ++ [WriteFile path])%list.
Proof.
  intros E H200. unfold scrapeReviewsHandler in E.
  destruct (negb (truthy (reqCompanyName req)));
    [injection E as <- <-; discriminate H200|].
  destruct (negb (truthy (reqStartDate req)) || negb (truthy (reqEndDate req)));
    [injection E as <- <-; discriminate H200|].
  destruct (negb (truthy (reqSource req)));
    [injection E as <- <-; discriminate H200|].
  destruct (parseDate (reqStartDate req)) as [sd|];
    [|injection E as <- <-; discriminate H200].
  destruct (parseDate (reqEndDate req)) as [ed|];
    [|injection E as <- <-; discriminate H200].
  cbv zeta in E.
  match type of E with
  | context [bind _ ?respond] =>
      assert (Hrespond :
                forall scraper : M Result,
                  returns (everyReview (keptBy sd ed)) scraper ->
                  run (tryCatch (bind scraper respond)
                         (fun error => ret (mkResponse 500 (Failed error)))) s
                  = Some (Ok resp, s') ->
                  exists data path t,
                    body resp = Reviews data (List.length data) path
                    /\ data <> []
                    /\ Forall (keptBy sd ed) data
                    /\ trace s' = (t ++ [WriteFile path])%list)
  end.
  { intros scraper Hret Er. unfold tryCatch in Er. cbn [run] in Er.
    rewrite run_bind in Er.
    destruct (run scraper s) as [[[result|e] s1]|] eqn:Es;
      [| injection Er as <- <-; discriminate H200 | discriminate Er].
    pose proof (Hret s result s1 Es) as Hall.
    destruct result as [[|r data] note|err];
      [ injection Er as <- <-; discriminate H200
      | | injection Er as <- <-; discriminate H200 ].
    rewrite run_bind, run_call in Er.
    destruct (perform (WriteFile _) (world s1)) as [[u|e] w];
      cbn [fst snd run ret] in Er; injection Er as <- <-;
      [|discriminate H200].
    exists (r :: data), (outputFile (reqCompanyName req) (toLowerCase (reqSource req))),
      (trace s1).
    cbn [body trace].
    split; [reflexivity|]. split; [discriminate|].
    split; [exact Hall | reflexivity]. }
  assert (Hdone :
            (exists data path t,
                body resp = Reviews data (List.length data) path
                /\ data <> []
                /\ Forall (keptBy sd ed) data
                /\ trace s' = (t ++ [WriteFile path])%list) ->
            exists data path sd0 ed0 t,
              body resp = Reviews data (List.length data) path
              /\ data <> []
              /\ Some sd = Some sd0 /\ Some ed = Some ed0
              /\ Forall (fun r => isDateInRange (parseDate (date r))
                                    (Some sd0) (Some ed0) = true) data
              /\ trace s' = (t ++ [WriteFile path])%list).
  { intros (data & path & t & Hb & Hne & Hall & Ht).
    exists data, path, sd, ed, t. repeat split; assumption. }
  destruct (String.eqb _ "g2");
    [apply Hdone, (Hrespond _ (g2_returns_kept fuel _ sd ed 10) E)|].
  destruct (String.eqb _ "capterra");
    [apply Hdone, (Hrespond _ (capterra_returns_kept _ sd ed 10) E)|].
  destruct (String.eqb _ "trustradius");
    [apply Hdone, (Hrespond _ (trustRadius_returns_kept _ sd ed 10) E)|].
  unfold tryCatch in E. cbn [run ret] in E. injection E as <- <-.
  discriminate H200.
Qed.

(** X16. A request for the source [g2] never reaches a browser: however
    it settles, the only call it may have made is one [writeFile]. *)
Theorem g2_requests_never_open_a_browser (fuel : nat) (req : Request)
    (s s' : Session) (r : Exn Response) :
  toLowerCase (reqSource req) = "g2" ->
  run (scrapeReviewsHandler fuel req) s = Some (r, s') ->
  s' = s
  \/ exists path,
       s' = mkSession (snd (perform (WriteFile path) (world s)))
                      (trace s ++ [WriteFile path])%list.
Proof.
  intros Hg2 E. unfold scrapeReviewsHandler in E.
  destruct (negb (truthy (reqCompanyName req)));
    [injection E as <- <-; left; reflexivity|].
  destruct (negb (truthy (reqStartDate req)) || negb (truthy (reqEndDate req)));
    [injection E as <- <-; left; reflexivity|].
  destruct (negb (truthy (reqSource req)));
    [injection E as <- <-; left; reflexivity|].
  destruct (parseDate (reqStartDate req)) as [sd|];
    [|injection E as <- <-; left; reflexivity].
  destruct (parseDate (reqEndDate req)) as [ed|];
    [|injection E as <- <-; left; reflexivity].
  cbv zeta in E. rewrite Hg2 in E.
  change (String.eqb "g2" "g2") with true in E. cbv iota in E.
  unfold tryCatch in E. cbn [run] in E. rewrite run_bind in E.
  destruct (scrapeG2_no_calls fuel (reqCompanyName req) sd ed 10 s) as (rg & Eg).
  rewrite Eg in E.
  destruct rg as [[[|rv data] note|err]|e];
    try (injection E as <- <-; left; reflexivity).
  rewrite run_bind, run_call in E.
  destruct (perform (WriteFile _) (world s)) as [[u|e] w] eqn:Ew;
    cbn [fst snd run ret] in E; injection E as <- <-;
    right; eexists; rewrite Ew; reflexivity.
Qed.

(** X17. The handler calls every scraper with the default page cap: in
    any world every request settles after at most ten page extractions. *)
Theorem handler_extracts_at_most_ten_pages (fuel : nat) (req : Request) :
  extractsAtMost 10 (scrapeReviewsHandler fuel req).
Proof.
  assert (Hret : forall resp : Response, extractsAtMost 10 (ret resp))
    by (intros resp; eapply extractsAtMost_weaken; [|apply extractsAtMost_ret]; lia).
  unfold scrapeReviewsHandler.
  destruct (negb (truthy (reqCompanyName req))); [apply Hret|].
  destruct (negb (truthy (reqStartDate req)) || negb (truthy (reqEndDate req)));
    [apply Hret|].
  destruct (negb (truthy (reqSource req))); [apply Hret|].
  destruct (parseDate (reqStartDate req)) as [parsedStartDate|]; [|apply Hret].
  destruct (parseDate (reqEndDate req)) as [parsedEndDate|]; [|apply Hret].
  apply extractsAtMost_weaken with (10 + 0)%nat; [lia|].
  apply extractsAtMost_tryCatch; [|intros e; apply extractsAtMost_ret].
  cbv zeta.
  match goal with
  | |- context [bind _ ?respond] =>
      assert (Hrespond : forall result, extractsAtMost 0 (respond result))
  end.
  { intros [[|r data] note|error]; try apply extractsAtMost_ret.
    apply extractsAtMost_weaken with (0 + 0)%nat; [lia|].
    apply extractsAtMost_bind;
      [apply (extractsAtMost_call (WriteFile _))
      |intros _; apply extractsAtMost_ret]. }
  destruct (String.eqb _ "g2").
  { apply extractsAtMost_weaken with (0 + 0)%nat; [lia|].
    apply extractsAtMost_bind; [apply g2_cap | exact Hrespond]. }
  destruct (String.eqb _ "capterra").
  { apply extractsAtMost_weaken with (10 + 0)%nat; [lia|].
    apply extractsAtMost_bind; [apply capterra_cap | exact Hrespond]. }
  destruct (String.eqb _ "trustradius").
  { apply extractsAtMost_weaken with (10 + 0)%nat; [lia|].
    apply extractsAtMost_bind; [apply trustRadius_cap | exact Hrespond]. }
  apply Hret.
Qed.

End HandlerLemmas.

(** ** The live branch of the G2 scraper *)

Section LiveG2.
Context `{Host} `{Puppeteer}.

Lemma g2Try_returns_no_reviews (fuel : nat) (c : string) (sd ed : Date)
    (maxPages : nat) :
  (1 <= maxPages)%nat ->
  returns (fun result => exists e, result = Failure e)
    (g2Try fuel c sd ed maxPages).
Proof.
  intros Hmax. unfold g2Try.
  do 6 (apply returns_then; intros ?).
  match goal with |- context [if ?b then _ else _] => destruct b end.
  - apply returns_ret. eexists. reflexivity.
  - apply returns_then; intros ?.
    apply (returns_bind (fun _ => False)); [|intros ? []].
    intros s0 r0 s1 E.
    destruct (g2Paginate_never_returns fuel maxPages 1 InitiallyTrue [] s0 s1 _
                Hmax E) as [e He].
    discriminate He.
Qed.

(** X18. The live branch of the G2 scraper, which the mock-data flag
    disables, cannot return reviews for a page cap of at least one: it
    fails, throws or does not settle, because its loop tests the object
    [hasNextPage], which is always truthy. *)
Theorem live_g2_never_returns_reviews (fuel : nat) (c : string) (sd ed : Date)
    (maxPages : nat) (s : Session) :
  (1 <= maxPages)%nat ->
  match run (scrapeG2Live fuel c sd ed maxPages) s with
  | Some (Ok (Success _ _), _) => False
  | _ => True
  end.
Proof.
  intros Hmax.
  destruct (run (scrapeG2Live fuel c sd ed maxPages) s)
    as [[[[data note|e]|e] s']|] eqn:E; try exact I.
  assert (Hret : returns (fun result => exists e, result = Failure e)
                   (scrapeG2Live fuel c sd ed maxPages)).
  { unfold scrapeG2Live. apply guarded_returns.
    - apply g2Try_returns_no_reviews, Hmax.
    - intros e. eexists. reflexivity. }
  destruct (Hret s _ s' E) as [e He]. discriminate He.
Qed.

End LiveG2.

(** ** What the extraction puts in a review *)

Lemma findText_trimmed (reviewElement : Element) (selectors : list string) :
  trim (findText reviewElement selectors) = findText reviewElement selectors.
Proof.
  induction selectors as [|sel rest IH]; [reflexivity|].
  cbn [findText]. destruct (querySelector reviewElement sel) as [el|]; [|exact IH].
  destruct (truthy (trim (innerText el))); [apply trim_idem | exact IH].
Qed.

Lemma textOrElse_trimmed (element : option Element) (fallback : string) :
  trim fallback = fallback ->
  trim (textOrElse element fallback) = textOrElse element fallback.
Proof. intros Hf. destruct element; [apply trim_idem | exact Hf]. Qed.

Lemma orElse_trimmed (a b : string) :
  trim a = a -> trim b = b -> trim (orElse a b) = orElse a b.
Proof. intros Ha Hb. unfold orElse. destruct (truthy a); assumption. Qed.

Section Fields.
Context `{Host}.

(** X19. Every review the G2 extraction builds has a non-empty title,
    description and reviewer name, and the source ["G2"]. *)
Theorem g2_reviews_are_never_blank (doc : Document) :
  Forall (fun r => title r <> EmptyString /\ description r <> EmptyString
                   /\ name (reviewer r) <> EmptyString /\ source r = "G2")
         (g2Page doc).
Proof.
  unfold g2Page. apply Forall_forall. intros r Hr.
  apply in_map_iff in Hr as (e & <- & _).
  destruct (g2Review_never_blank e) as (Ht & Hd & Hn).
  repeat split; assumption.
Qed.

(** X20. The title, the date, the reviewer name and the reviewer info of
    every review the three extractions build carry no white space at
    either end. *)
Theorem extracted_fields_are_trimmed (reviewElement : Element) (r : Review) :
  In r [trustRadiusReview reviewElement; capterraReview reviewElement;
        g2Review reviewElement] ->
  trim (title r) = title r /\ trim (date r) = date r
  /\ trim (name (reviewer r)) = name (reviewer r)
  /\ trim (info (reviewer r)) = info (reviewer r).
Proof.
  cbn [In]. intros [<- | [<- | [<- | []]]];
    cbn [title date reviewer name info trustRadiusReview capterraReview g2Review];
    repeat split;
    first [ apply textOrElse_trimmed; reflexivity
          | apply orElse_trimmed; [apply findText_trimmed | reflexivity] ].
Qed.

End Fields.

(** ** The company name in a URL and in a file name *)

Lemma lowerChar_not_upper (c : ascii) : isUpper (lowerChar c) = false.
Proof. by_ascii c. Qed.

Lemma lowerChar_space (c : ascii) : isSpace (lowerChar c) = isSpace c.
Proof. by_ascii c. Qed.

Lemma replaceSpaceRuns_class (p : ascii -> bool) (sep : string) :
  allOf p sep = true ->
  forall (s : string) (inRun : bool),
    allOf (fun c => isSpace c || p c) s = true ->
    allOf p (replaceSpaceRuns sep inRun s) = true.
Proof.
  intros Hsep. induction s as [|c s IH]; intros inRun Hs; [reflexivity|].
  cbn [allOf] in Hs. apply andb_prop in Hs as [Hc Hs].
  cbn [replaceSpaceRuns]. destruct (isSpace c) eqn:Ec.
  - destruct inRun; [apply IH, Hs|].
    rewrite allOf_app, Hsep, (IH true Hs). reflexivity.
  - cbn [orb] in Hc. cbn [allOf]. rewrite Hc, (IH false Hs). reflexivity.
Qed.

Lemma replaceSpaceRuns_nospace (sep : string) (s : string) (inRun : bool) :
  allOf (fun c => negb (isSpace c)) s = true ->
  replaceSpaceRuns sep inRun s = s.
Proof.
  revert inRun. induction s as [|c s IH]; intros inRun Hs; [reflexivity|].
  cbn [allOf] in Hs. apply andb_prop in Hs as [Hc Hs].
  apply negb_true_iff in Hc. cbn [replaceSpaceRuns]. rewrite Hc, (IH false Hs).
  reflexivity.
Qed.

(** X21. The company name as it enters a TrustRadius or G2 URL has no
    white space and no capital ASCII letter; as it enters the name of the
    output file it has no white space; a name without white space is only
    lower-cased. *)
Theorem company_slug_is_clean (companyName : string) :
  let slug := replaceSpaceRuns "-" false (toLowerCase companyName) in
  allOf (fun c => negb (isSpace c) && negb (isUpper c)) slug = true
  /\ allOf (fun c => negb (isSpace c))
           (replaceSpaceRuns "_" false companyName) = true
  /\ (allOf (fun c => negb (isSpace c)) companyName = true ->
      slug = toLowerCase companyName).
Proof.
  cbv zeta. repeat split.
  - apply replaceSpaceRuns_class; [reflexivity|].
    induction companyName as [|c s IH]; [reflexivity|].
    cbn [toLowerCase allOf]. rewrite IH, lowerChar_not_upper.
    destruct (isSpace (lowerChar c)); reflexivity.
  - apply replaceSpaceRuns_class; [reflexivity|].
    induction companyName as [|c s IH]; [reflexivity|].
    cbn [allOf]. rewrite IH. destruct (isSpace c); reflexivity.
  - intros Hs. apply replaceSpaceRuns_nospace.
    induction companyName as [|c s IH]; [reflexivity|].
    cbn [allOf] in Hs. apply andb_prop in Hs as [Hc Hs].
    cbn [toLowerCase allOf]. rewrite lowerChar_space, Hc, (IH Hs). reflexivity.
Qed.

(** ** The [/scrape] handler *)

(** X22. Whatever [scrapeSite] does, the [/scrape] handler never
    rejects; a response with status 200 carries what [scrapeSite] resolved
    to, which is then neither [null], nor an empty string, array or object;
    without a URL the answer is status 400 and [scrapeSite] is not
    called. *)
Theorem scraped_content_is_never_empty `{Puppeteer}
    (scrapeSite : string -> Json -> M Json) (req : ScrapeRequest)
    (s s' : Session) (r : Exn ScrapeResponse) :
  run (scrapeHandler scrapeSite req) s = Some (r, s') ->
  exists resp,
    r = Ok resp
    /\ (scrapeStatus resp = 200 ->
        exists data,
          scrapeBody resp = Scraped data
          /\ reqUrl req <> EmptyString
          /\ run (scrapeSite (reqUrl req) (reqSelectors req)) s = Some (Ok data, s')
          /\ data <> JNull /\ data <> JString EmptyString
          /\ data <> JArray [] /\ data <> JObject [])
    /\ (reqUrl req = EmptyString ->
        resp = mkScrapeResponse 400 (UrlRequired "URL is required") /\ s' = s).
Proof.
  intros E. unfold scrapeHandler in E.
  destruct (reqUrl req) as [|c url] eqn:Eu.
  - cbn in E. injection E as <- <-. eexists. split; [reflexivity|].
    split; [discriminate | auto].
  - cbn [truthy negb] in E. cbv zeta in E. unfold tryCatch in E. cbn [run] in E.
    rewrite run_bind in E.
    destruct (run (scrapeSite (String c url) (reqSelectors req)) s)
      as [[[data|e] s1]|] eqn:Es; [| | discriminate E].
    + destruct (noContent data) eqn:En; cbn [ret run] in E; injection E as <- <-;
        (eexists; split; [reflexivity|]); (split; [|discriminate]).
      * discriminate.
      * intros _. exists data. repeat split; try discriminate;
          intros ->; discriminate En.
    + cbn [ret run] in E. injection E as <- <-.
      eexists; split; [reflexivity|]. split; discriminate.
Qed.

(** ** The "next page" probe of the G2 scraper *)

(** X23. The "next page" probe of the G2 scraper reports a next page
    only with the selector, one of its list, of a control that is present
    and neither disabled nor of class [disabled]; otherwise it reports no
    selector. *)
Theorem g2ProbeNext_reports_enabled_controls (doc : Document)
    (nextSelectors : list string) :
  let probe := g2ProbeNext doc nextSelectors in
  if hasNext probe then
    exists sel nextButton,
      selector probe = Some sel /\ In sel nextSelectors
      /\ documentQuerySelector doc sel = Some nextButton
      /\ disabled nextButton = false
      /\ ~ In "disabled" (classList nextButton)
  else selector probe = None.
Proof.
  induction nextSelectors as [|sel rest IH]; [reflexivity|].
  cbn [g2ProbeNext]. cbv zeta in *.
  assert (Hrest :
            if hasNext (g2ProbeNext doc rest)
            then exists sel0 nextButton,
                selector (g2ProbeNext doc rest) = Some sel0
                /\ In sel0 (sel :: rest)
                /\ documentQuerySelector doc sel0 = Some nextButton
                /\ disabled nextButton = false
                /\ ~ In "disabled" (classList nextButton)
            else selector (g2ProbeNext doc rest) = None).
  { destruct (hasNext (g2ProbeNext doc rest)); [|exact IH].
    destruct IH as (sel0 & b & Es & Hin & Hq & Hd & Hc).
    exists sel0, b. repeat split; auto. right. exact Hin. }
  destruct (documentQuerySelector doc sel) as [nextButton|] eqn:Eq; [|exact Hrest].
  destruct (negb (disabled nextButton)
            && negb (existsb (String.eqb "disabled") (classList nextButton)))
    eqn:Eok; [|exact Hrest].
  apply andb_prop in Eok as [Hd Hc].
  apply negb_true_iff in Hd. apply negb_true_iff in Hc.
  cbn [hasNext selector]. exists sel, nextButton.
  repeat split; auto; [left; reflexivity|].
  intros Hin. assert (Hex : existsb (String.eqb "disabled") (classList nextButton) = true).
  { apply existsb_exists. exists "disabled". split; [exact Hin | reflexivity]. }
  congruence.
Qed.

(** ** A relative expression inside a sentence *)

Lemma trimStart_app (p x : string) :
  headNot isSpace x -> trimStart (p ++ x) = trimStart p ++ x.
Proof.
  intros Hx. induction p as [|c p IH].
  - destruct x as [|d x]; [reflexivity|]. cbn [headNot] in Hx.
    cbn [append trimStart]. rewrite Hx. reflexivity.
  - cbn [append trimStart]. destruct (isSpace c); [exact IH | reflexivity].
Qed.

Lemma trimEnd_after (y q : string) (z : ascii) :
  isSpace z = false ->
  trimEnd ((y ++ String z EmptyString) ++ q) = (y ++ String z EmptyString) ++ trimEnd q.
Proof.
  intros Hz. rewrite !sapp_assoc. cbn [append].
  rewrite trimEnd_app; rewrite (trimEnd_cons z q Hz); [reflexivity | discriminate].
Qed.

Lemma trimStart_class (p : ascii -> bool) (s : string) :
  allOf p s = true -> allOf p (trimStart s) = true.
Proof.
  induction s as [|c s IH]; [reflexivity|].
  intros Hs. cbn [trimStart]. destruct (isSpace c); [|exact Hs].
  cbn [allOf] in Hs. apply andb_prop in Hs as [_ Hs]. apply IH, Hs.
Qed.

Section InsideText.
Context `{Host}.

(** X24. The relative pattern is not anchored: a relative expression is
    found inside a sentence. Text without digits before it and any text
    after it change nothing, as long as native parsing rejects the
    sentence too. *)
Theorem relative_expression_inside_text (n : Z) (w before after : string) :
  0 <= n ->
  In (toLowerCase w)
     ["day"; "days"; "week"; "weeks"; "month"; "months"; "year"; "years"] ->
  allOf (fun c => negb (isDigit c)) before = true ->
  Date_parse (trim (before ++ ago n w ++ after)) = NaN ->
  Date_parse (ago n w) = NaN ->
  parseDate (before ++ ago n w ++ after) = parseDate (ago n w).
Proof.
  intros Hn Hw Hbefore Hnat Hnat0.
  rewrite (parseDate_relative n w Hn Hw Hnat0).
  unfold ago in *.
  destruct (decimal_shape n Hn) as (c & ds & E & Hc & Hds & Hval).
  assert (Hint : parseInt (String c ds) = Some n)
    by (rewrite parseInt_digits, Hval by assumption; reflexivity).
  rewrite E in *. clear E.
  set (p := trimStart before).
  set (q := trimEnd after).
  assert (Htrim : trim (before ++ (String c ds ++ " " ++ w ++ " ago") ++ after)
                  = p ++ String c ds ++ " " ++ w ++ " ago" ++ q).
  { unfold trim. rewrite trimStart_app
      by (cbn [append headNot]; apply isDigit_not_space, Hc).
    fold p.
    replace (p ++ (String c ds ++ " " ++ w ++ " ago") ++ after)
      with (((p ++ String c ds ++ " " ++ w ++ " ag") ++ String "o" EmptyString)
            ++ after)
      by (cbn [append]; rewrite !sapp_assoc; cbn [append]; rewrite !sapp_assoc;
          cbn [append]; rewrite !sapp_assoc; reflexivity).
    rewrite trimEnd_after by reflexivity. fold q.
    cbn [append]. rewrite !sapp_assoc. cbn [append]. rewrite !sapp_assoc.
    cbn [append]. rewrite !sapp_assoc. reflexivity. }
  rewrite Htrim in Hnat.
  assert (Hp : allOf (fun c => negb (isDigit c)) p = true)
    by (apply trimStart_class, Hbefore).
  assert (Hsearch : search relativeRe (p ++ String c ds ++ " " ++ w ++ " ago" ++ q)
                    = Some [(2%nat, w); (1%nat, String c ds)]).
  { rewrite search_skip; [apply search_relative_inside; assumption|].
    intros c0 a1 a2 Ea. rewrite Ea, allOf_app in Hp.
    apply andb_prop in Hp as [_ Hp]. cbn [allOf] in Hp.
    apply andb_prop in Hp as [Hc0 _]. apply negb_true_iff in Hc0.
    unfold relativeRe, plus, digit. cbn [append rmatch]. rewrite Hc0.
    reflexivity. }
  unfold parseDate. rewrite Htrim.
  replace (truthy (before ++ (String c ds ++ " " ++ w ++ " ago") ++ after))
    with true by (destruct before; reflexivity).
  cbn [negb]. unfold newDateFromString. cbn [getTime]. rewrite Hnat.
  cbn [isNaN negb]. rewrite Hsearch.
  cbn [capture Nat.eqb]. rewrite Hint. cbn [nmul]. cbv zeta.
  f_equal. cbn [In] in Hw.
  repeat (destruct Hw as [Hw | Hw]; [rewrite <- Hw; reflexivity|]).
  contradiction.
Qed.

End InsideText.

(** ** A listing read from its first page *)

(** X25. On a site whose listing has a "next" control on every page but
    the last and whose clicks succeed, a TrustRadius or Capterra scrape
    with page cap [maxPages] returns the date-filtered reviews of the first
    [maxPages] pages (of all pages when there are fewer), in page order,
    after as many extractions as pages read. *)
Theorem listing_is_read_in_page_order `{Host} (c : string) (sd ed : Date)
    (maxPages : nat) (pages : list (list Element)) :
  trim c = c -> c <> EmptyString -> (1 <= maxPages)%nat -> pages <> [] ->
  (exists s',
     run (scrapeTrustRadiusReviews c sd ed maxPages)
         (start (trustRadiusSite c pages (fun _ => false)))
     = Some (Ok (Success
                   (dateFilter sd ed
                      (flat_map (map trustRadiusReview) (firstn maxPages pages)))
                   None), s')
     /\ extractions (trace s') = Nat.min maxPages (List.length pages))
  /\ (exists s',
        run (scrapeCapterraReviews c sd ed maxPages)
            (start (capterraSite c pages (fun _ => false)))
        = Some (Ok (Success
                      (dateFilter sd ed
                         (flat_map (map capterraReview) (firstn maxPages pages)))
                      None), s')
        /\ extractions (trace s') = Nat.min maxPages (List.length pages)).
Proof.
  intros Htrim Hne Hmax Hpages.
  destruct pages as [|items rest]; [contradiction|].
  assert (Hv : visited (fun _ => false) maxPages 1 (items :: rest)
               = firstn maxPages (items :: rest)).
  { rewrite visited_all_clicks_succeed; [|reflexivity|exact Hmax].
    f_equal. lia. }
  split.
  - destruct (trustRadius_on_site c sd ed maxPages items rest (fun _ => false) Hmax)
      as (s' & E & Hx).
    exists s'. rewrite Hv in E, Hx. split; [exact E|].
    rewrite Hx. apply length_firstn.
  - destruct (capterra_on_site c sd ed maxPages items rest (fun _ => false)
                Htrim Hne Hmax) as (s' & E & Hx).
    exists s'. rewrite Hv in E, Hx. split; [exact E|].
    rewrite Hx. apply length_firstn.
Qed.

(** ** Filtering twice *)

(** X26. The date filter of the scrapers composes: filtering by a range
    what was filtered by a wider range, in either order, is filtering by
    the narrower range. *)
Theorem narrower_range_filters_again `{Host} (sd ed sd' ed' : Date)
    (reviews : list Review) :
  Date_le sd' sd = true -> Date_le ed ed' = true ->
  dateFilter sd ed (dateFilter sd' ed' reviews) = dateFilter sd ed reviews
  /\ dateFilter sd' ed' (dateFilter sd ed reviews) = dateFilter sd ed reviews.
Proof.
  intros Hs He.
  assert (Hin : forall d : Date,
             Date_ge d sd && Date_le d ed = true ->
             Date_ge d sd' && Date_le d ed' = true).
  { intros d Hd. apply andb_prop in Hd as [H1 H2].
    unfold Date_ge, Date_le, nge, nle in *.
    destruct (getTime d) as [td|], (getTime sd) as [ts|], (getTime ed) as [te|],
      (getTime sd') as [ts'|], (getTime ed') as [te'|]; try discriminate.
    apply Z.leb_le in H1, H2, Hs, He.
    apply andb_true_intro. split; apply Z.leb_le; lia. }
  unfold dateFilter. split.
  - induction reviews as [|r reviews IH]; [reflexivity|].
    cbn [filter]. destruct (parseDate (date r)) as [d|] eqn:Ed.
    + destruct (Date_ge d sd' && Date_le d ed') eqn:Eouter.
      * cbn [filter]. rewrite Ed, IH. reflexivity.
      * rewrite IH. destruct (Date_ge d sd && Date_le d ed) eqn:Einner;
          [|reflexivity].
        rewrite (Hin d Einner) in Eouter. discriminate Eouter.
    + exact IH.
  - induction reviews as [|r reviews IH]; [reflexivity|].
    cbn [filter]. destruct (parseDate (date r)) as [d|] eqn:Ed; [|exact IH].
    destruct (Date_ge d sd && Date_le d ed) eqn:Einner; [|exact IH].
    cbn [filter]. rewrite Ed, (Hin d Einner), IH. reflexivity.
Qed.

(** ** TrustRadius through its search *)

Section ThroughSearch.
Context `{Host}.

Lemma searchUrl_is_not_productUrl (c : string) :
  String.eqb (trustRadiusSearchUrl c) (trustRadiusProductUrl c) = false.
Proof. reflexivity. Qed.

(** X27. When the direct product address of TrustRadius shows a "not
    found" page, the scraper searches for the company, follows the first
    link whose text contains the company name (in any letter case), loads
    that product page and then its reviews, and returns the date-filtered
    reviews of that listing. *)
Theorem trustRadius_falls_back_to_search (c : string) (sd ed : Date)
    (maxPages : nat) (links : list Element) (link : Element)
    (items : list Element) (rest : list (list Element)) (fails : nat -> bool) :
  find (fun candidate =>
          includes (toLowerCase c) (toLowerCase (textContent candidate))) links
  = Some link ->
  href link <> EmptyString ->
  href link ++ "/reviews" <> trustRadiusProductUrl c ->
  href link ++ "/reviews" <> trustRadiusSearchUrl c ->
  (1 <= maxPages)%nat ->
  exists s' t,
    run (scrapeTrustRadiusReviews c sd ed maxPages)
        (start (trustRadiusSearchSite c links (href link) (items :: rest) fails))
    = Some (Ok (Success
                  (dateFilter sd ed
                     (flat_map (map trustRadiusReview)
                               (visited fails maxPages 1 (items :: rest))))
                  None), s')
    /\ trace s'
       = ([Launch true; NewPage; SetDefaultNavigationTimeout 60000;
           Goto (trustRadiusProductUrl c); Evaluate NotFoundIndicator;
           Goto (trustRadiusSearchUrl c); Evaluate FindProductUrl;
           Goto (href link); Goto (href link ++ "/reviews")] ++ t)%list.
Proof.
  intros Hfind Hhref Hr1 Hr2 Hmax.
  set (st := trustRadiusSearchSite c links (href link) (items :: rest) fails).
  assert (Wdirect : web st (trustRadiusProductUrl c)
                    = Some [mkDocument "Page Not Found" (fun _ => [])]).
  { subst st. cbn [web trustRadiusSearchSite]. rewrite String.eqb_refl.
    reflexivity. }
  assert (Wsearch : web st (trustRadiusSearchUrl c)
                    = Some [mkDocument "Search"
                              (fun sel =>
                                 if String.eqb sel ".product-card a, .search-result-item a"
                                 then links else [])]).
  { subst st. cbn [web trustRadiusSearchSite].
    rewrite searchUrl_is_not_productUrl, String.eqb_refl. reflexivity. }
  assert (Wreviews : web st (href link ++ "/reviews")
                     = Some (listingPages ".review-card, .review-container"
                               trustRadiusNext (items :: rest))).
  { subst st. cbn [web trustRadiusSearchSite].
    destruct (String.eqb_spec (href link ++ "/reviews") (trustRadiusProductUrl c));
      [contradiction|].
    destruct (String.eqb_spec (href link ++ "/reviews") (trustRadiusSearchUrl c));
      [contradiction|].
    rewrite String.eqb_refl. reflexivity. }
  assert (Wproduct : exists d, web st (href link) = Some [d]).
  { subst st. cbn [web trustRadiusSearchSite].
    destruct (String.eqb (href link) (trustRadiusProductUrl c)); [eexists; reflexivity|].
    destruct (String.eqb (href link) (trustRadiusSearchUrl c)); [eexists; reflexivity|].
    destruct (String.eqb_spec (href link) (href link ++ "/reviews")) as [E|_].
    - exfalso. symmetry in E. revert E. apply sapp_neq. discriminate.
    - rewrite String.eqb_refl. eexists. reflexivity. }
  destruct Wproduct as [dproduct Wproduct].
  assert (Htry : exists s2 t,
             run (trustRadiusTry c sd ed maxPages)
                 (mkSession (fresh st) ([] ++ [Launch true]))
             = Some (Ok (Success
                           (dateFilter sd ed
                              (flat_map (map trustRadiusReview)
                                 (visited fails maxPages 1 (items :: rest))))
                           None), s2)
             /\ trace s2
                = ([Launch true; NewPage; SetDefaultNavigationTimeout 60000;
                    Goto (trustRadiusProductUrl c); Evaluate NotFoundIndicator;
                    Goto (trustRadiusSearchUrl c); Evaluate FindProductUrl;
                    Goto (href link); Goto (href link ++ "/reviews")] ++ t)%list).
  { unfold trustRadiusTry.
    rewrite run_bind, sim_call_other by exact I.
    rewrite run_bind, sim_call_other by exact I.
    cbv zeta. fold (trustRadiusProductUrl c). fold (trustRadiusSearchUrl c).
    rewrite run_bind.
    erewrite sim_goto by (cbn [world site fresh]; exact Wdirect).
    rewrite run_bind, sim_evaluate. cbn [world shown trace site].
    change (trustRadiusNotFound (mkDocument "Page Not Found" (fun _ => [])))
      with true.
    cbv iota.
    rewrite run_bind.
    erewrite sim_goto by (cbn [world site fresh]; exact Wsearch).
    rewrite run_bind, sim_evaluate. cbn [world shown trace site].
    unfold trustRadiusProductLink.
    cbn [documentQuerySelectorAll]. rewrite String.eqb_refl. rewrite Hfind.
    unfold missing.
    destruct (href link) as [|h0 hrest] eqn:Eh; [contradiction|].
    cbn [truthy negb].
    rewrite run_bind.
    erewrite sim_goto by (cbn [world site fresh]; exact Wproduct).
    rewrite run_bind.
    erewrite sim_goto
      by (cbn [world site fresh]; rewrite Wreviews, listingPages_cons; reflexivity).
    cbn [world site trace fresh].
    rewrite run_bind.
    match goal with
    | |- context [run (paginate _ _ _ _ _ _ _) (mkSession (mkSim _ _ _ ?addr _) ?t)] =>
        destruct (paginate_listing ".review-card, .review-container"
                    ".review-card, .review-container" trustRadiusNext
                    trustRadiusReview trustRadiusPage st maxPages
                    trustRadiusPage_listing trustRadiusNext_listing
                    rest items 1%nat [] t addr Hmax)
          as (s2 & Erun & Ecount);
        destruct (paginate_emits _ _ _ maxPages (2 * maxPages + 1) 1 true []
                    ltac:(cbn [Nat.b2n]; lia) _ _ _ Erun) as (tp & Etrace & _)
    end.
    rewrite Erun. cbv zeta. cbn [ret run app].
    exists s2, tp. split; [reflexivity|].
    rewrite Etrace. reflexivity. }
  destruct Htry as (s2 & t & Etry & Etrace).
  unfold scrapeTrustRadiusReviews.
  exists (mkSession (world s2) (trace s2 ++ [Close])), (t ++ [Close])%list. split.
  - apply (sim_guarded true _ (start st) _ s2). exact Etry.
  - cbn [trace]. rewrite Etrace, <- app_assoc. reflexivity.
Qed.

End ThroughSearch.

(** ** The further properties at concrete inputs *)

Lemma numeric_year_first_witness :
  @Date_parse utcHost "2025/3/5" = NaN
  /\ @parseDate utcHost "2025/3/5"
     = Some (@newDateYMD utcHost (parseInt "2025") (nsub (parseInt "3") (Some 1))
               (parseInt "5")).
Proof.
  split; [reflexivity|].
  apply (@numeric_year_first utcHost "2025" "3" "5" "/" "/");
    try (split; [reflexivity | cbn [String.length]; lia]);
    try (right; reflexivity); reflexivity.
Defined.

Lemma numeric_day_first_witness :
  @Date_parse utcHost "15-01-2023" = NaN
  /\ @parseDate utcHost "15-01-2023"
     = Some (@newDateYMD utcHost (parseInt "2023") (nsub (parseInt "01") (Some 1))
               (parseInt "15")).
Proof.
  split; [reflexivity|].
  apply (@numeric_day_first utcHost "15" "01" "2023" "-" "-");
    try (split; [reflexivity | cbn [String.length]; lia]);
    try (left; reflexivity); reflexivity.
Defined.

Lemma local_date_formats_to_its_fields_witness :
  validYMD 2025 0 15
  /\ @formatDate easternHost
       (Some (@newDateYMD easternHost (Some 2025) (Some 0) (Some 15)))
     = "2025-01-15".
Proof.
  assert (V : validYMD 2025 0 15)
    by (split; [lia | change (DaysInMonth 0 (InLeapYear 2025)) with 31; lia]).
  split; [exact V|].
  apply (@local_date_formats_to_its_fields easternHost (-18000000) 2025 0 15);
    [lia | exact V | intros t isUTC; reflexivity | unfold msPerDay; lia].
Defined.

Lemma format_then_parse_witness :
  1000 <= YearFromTime (@LocalTime easternHost 1793667600000) <= 9999
  /\ @parseDate easternHost (@formatDate easternHost (instant 1793667600000))
     = instant (Day (@LocalTime easternHost 1793667600000) * msPerDay).
Proof.
  assert (R : 1000 <= YearFromTime (@LocalTime easternHost 1793667600000) <= 9999)
    by (change (YearFromTime (@LocalTime easternHost 1793667600000)) with 2026; lia).
  split; [exact R|].
  apply (@format_then_parse easternHost 1793667600000 R).
Defined.

Lemma relative_days_and_weeks_witness :
  @Date_parse newYorkHost (ago 2 "Weeks") = NaN
  /\ @parseDate newYorkHost (ago 2 "Weeks")
     = instant (@clock newYorkHost - 7 * 2 * msPerDay - 3600000).
Proof.
  split; [reflexivity|].
  rewrite (proj1 (@relative_days_and_weeks newYorkHost 2 7 "Weeks"
                    ltac:(lia)
                    (or_intror (conj (or_intror (or_introl eq_refl)) eq_refl))
                    eq_refl)).
  reflexivity.
Defined.

Lemma twelve_months_are_a_year_witness :
  @Date_parse utcHost (ago (12 * 1) "months") = NaN
  /\ @parseDate utcHost (ago (12 * 1) "months") = @parseDate utcHost (ago 1 "year").
Proof.
  split; [reflexivity|].
  apply (@twelve_months_are_a_year utcHost 1 "months" "year");
    [lia | right; left; reflexivity | left; reflexivity | reflexivity | reflexivity].
Defined.

Lemma years_ago_keeps_the_calendar_day_witness :
  @getFullYear newYorkHost (@newDateNow newYorkHost) = Some 2026
  /\ exists r,
       @parseDate newYorkHost (ago 1 "year") = Some r
       /\ @getFullYear newYorkHost r = Some (2026 - 1)
       /\ @getMonth newYorkHost r = Some 10 /\ @getDate newYorkHost r = Some 2.
Proof.
  split; [reflexivity|].
  apply (@years_ago_keeps_the_calendar_day newYorkHost 1 2026 10 2 "year");
    [ reflexivity | reflexivity | reflexivity | lia | lia | lia
    | intros x; cbv [LocalTZA newYorkHost hostIn newYorkZone msPerDay];
      destruct (x <? _); lia
    | intros x; f_equal;
      cbv [LocalTime UTC LocalTZA newYorkHost hostIn newYorkZone];
      destruct (Z.ltb_spec x (1793512800000 + -14400000));
        [ destruct (Z.ltb_spec (x - -14400000) 1793512800000)
        | destruct (Z.ltb_spec (x - -18000000) 1793512800000) ]; lia
    | left; reflexivity | reflexivity ].
Defined.

Lemma month_name_dates_witness :
  lookup (toLowerCase "June") months = Some 5
  /\ @parseDate utcHost "June 15, 2025"
     = Some (@newDateYMD utcHost (parseInt "2025") (Some 5) (parseInt "15")).
Proof.
  split; [reflexivity|].
  apply (@month_name_dates utcHost "June" "15" "2025" true 5);
    [ reflexivity | split; [reflexivity | cbn [String.length]; lia]
    | split; [reflexivity | cbn [String.length]; lia] | reflexivity ].
Defined.

Lemma numeric_months_roll_over_witness :
  @Date_parse utcHost (slashDate 2025 (1 + 12) 15) = NaN
  /\ @parseDate utcHost (slashDate 2025 (1 + 12) 15)
     = @parseDate utcHost (slashDate (2025 + 1) 1 15).
Proof.
  split; [reflexivity|].
  apply (@numeric_months_roll_over utcHost 2025 1 15);
    [lia | lia | lia | reflexivity | reflexivity].
Defined.

Lemma parseDate_ignores_surrounding_space_witness :
  trim "  2 days ago " <> EmptyString
  /\ @parseDate utcHost "  2 days ago " = @parseDate utcHost (trim "  2 days ago ")
  /\ @parseDate utcHost "   " = None.
Proof.
  assert (T : trim "  2 days ago " <> EmptyString) by discriminate.
  split; [exact T|]. split.
  - apply (proj1 (@parseDate_ignores_surrounding_space utcHost "  2 days ago ") T).
  - apply (proj2 (@parseDate_ignores_surrounding_space utcHost "   "));
      reflexivity.
Defined.

Lemma scraped_reviews_are_in_range_witness :
  exists s' data,
    run (@scrapeTrustRadiusReviews utcHost simPuppeteer "Slack"
           exampleStart exampleEnd 10)
        (start (trustRadiusSite "Slack" trustRadiusListing (fun _ => false)))
    = Some (Ok (Success data None), s')
    /\ Forall (fun r => isDateInRange (@parseDate utcHost (date r))
                          (Some exampleStart) (Some exampleEnd) = true
                        /\ description r <> EmptyString
                        /\ source r = "TrustRadius") data.
Proof.
  destruct (@trustRadius_on_site utcHost "Slack" exampleStart exampleEnd 10
              (hd [] trustRadiusListing) (tl trustRadiusListing)
              (fun _ => false) ltac:(lia)) as (s' & E & _).
  eexists s', _. split; [exact E|].
  apply (proj1 (@scraped_reviews_are_in_range utcHost simPuppeteer "Slack"
                  exampleStart exampleEnd 10 _ s' _ None) E).
Defined.

Lemma browser_is_always_closed_witness :
  fst (perform (Launch true) (world (start offline))) = Ok tt
  /\ exists r s' t,
       run (@scrapeCapterraReviews utcHost simPuppeteer "Slack"
              exampleStart exampleEnd 10) (start offline)
       = Some (r, s')
       /\ trace s' = (trace (start offline) ++ Launch true :: t ++ [Close])%list
       /\ Forall pageCall t.
Proof.
  split; [reflexivity|].
  apply (proj2 (@browser_is_always_closed utcHost simPuppeteer "Slack"
                  exampleStart exampleEnd 10 (start offline) eq_refl)).
Defined.

Lemma errors_outside_try_are_thrown_witness :
  run (@scrapeTrustRadiusReviews utcHost launchFails "Slack"
         exampleStart exampleEnd 10)
      (@mkSession launchFails (fresh offline) [])
  = Some (Throw "Failed to launch the browser process",
          @mkSession launchFails (fresh offline) [Launch true])
  /\ exists s',
       run (@scrapeTrustRadiusReviews utcHost closeFails "Slack"
              exampleStart exampleEnd 10)
           (@mkSession closeFails (fresh offline) [])
       = Some (Throw "Protocol error: Target closed", s').
Proof.
  split.
  - apply (proj1 (@errors_outside_try_are_thrown utcHost launchFails "Slack"
                    exampleStart exampleEnd 10
                    (@mkSession launchFails (fresh offline) [])
                    "Failed to launch the browser process")).
    reflexivity.
  - apply (proj2 (@errors_outside_try_are_thrown utcHost closeFails "Slack"
                    exampleStart exampleEnd 10
                    (@mkSession closeFails (fresh offline) [])
                    "Protocol error: Target closed"));
      [reflexivity | intros w; reflexivity].
Defined.

Lemma invalid_requests_are_rejected_witness :
  (exists message,
     run (@postScrapeReviews utcHost simPuppeteer (fun _ => Ok "7")
            (fun _ _ _ _ => diverge) 0
            (mkRequestBody (JString "Slack") (JString "2025-01-01")
               (JString "next week") (JNumber (Some 7%Q))))
         (start offline)
     = Some (Ok (mkResponse 400 (ErrorOnly message)), start offline))
  /\ run (@postScrapeReviews utcHost simPuppeteer (fun _ => Ok "7")
            (fun _ _ _ _ => diverge) 0
            (mkRequestBody (JString "Slack") (JNumber (Some 20250101%Q))
               (JString "next week") (JString "g2")))
         (start offline)
     = Some (Throw "dateStr.trim is not a function", start offline).
Proof.
  split.
  - apply (proj1 (@invalid_requests_are_rejected utcHost simPuppeteer
                    (fun _ => Ok "7") (fun _ _ _ _ => diverge) 0
                    (mkRequestBody (JString "Slack") (JString "2025-01-01")
                       (JString "next week") (JNumber (Some 7%Q)))
                    (start offline))).
    do 4 right. left. exists "2025-01-01", "next week".
    split; [reflexivity|]. split; [reflexivity|]. right. reflexivity.
  - apply (proj2 (@invalid_requests_are_rejected utcHost simPuppeteer
                    (fun _ => Ok "7") (fun _ _ _ _ => diverge) 0
                    (mkRequestBody (JString "Slack") (JNumber (Some 20250101%Q))
                       (JString "next week") (JString "g2"))
                    (start offline)));
      [reflexivity | reflexivity | reflexivity | reflexivity | left; reflexivity].
Defined.

Lemma ok_responses_carry_reviews_in_range_witness :
  exists resp s',
    run (@scrapeReviewsHandler utcHost simPuppeteer 0
           (mkRequest "Slack" "2025-01-01" "2025-06-30" "G2")) (start offline)
    = Some (Ok resp, s')
    /\ status resp = 200
    /\ exists data path sd ed t,
         body resp = Reviews data (List.length data) path
         /\ data <> []
         /\ @parseDate utcHost "2025-01-01" = Some sd
         /\ @parseDate utcHost "2025-06-30" = Some ed
         /\ Forall (fun r => isDateInRange (@parseDate utcHost (date r))
                               (Some sd) (Some ed) = true) data
         /\ trace s' = (t ++ [WriteFile path])%list.
Proof.
  eexists _, _. split; [vm_compute; reflexivity|]. split; [reflexivity|].
  eapply (@ok_responses_carry_reviews_in_range utcHost simPuppeteer 0
            (mkRequest "Slack" "2025-01-01" "2025-06-30" "G2") (start offline));
    [vm_compute; reflexivity | reflexivity].
Defined.

Lemma g2_requests_never_open_a_browser_witness :
  toLowerCase "G2" = "g2"
  /\ exists r s',
       run (@scrapeReviewsHandler utcHost simPuppeteer 0
              (mkRequest "Slack" "2025-01-01" "2025-06-30" "G2")) (start offline)
       = Some (r, s')
       /\ (s' = start offline
           \/ exists path,
                s' = mkSession (snd (perform (WriteFile path) (world (start offline))))
                               (trace (start offline) ++ [WriteFile path])%list).
Proof.
  split; [reflexivity|].
  eexists _, _. split; [vm_compute; reflexivity|].
  eapply (@g2_requests_never_open_a_browser utcHost simPuppeteer 0
            (mkRequest "Slack" "2025-01-01" "2025-06-30" "G2") (start offline));
    [reflexivity | vm_compute; reflexivity].
Defined.

Lemma live_g2_never_returns_reviews_witness :
  (1 <= 10)%nat
  /\ match run (@scrapeG2Live utcHost simPuppeteer 3 "Slack" exampleStart
                  exampleEnd 10) (start offline) with
     | Some (Ok (Success _ _), _) => False
     | _ => True
     end.
Proof.
  split; [lia|].
  apply (@live_g2_never_returns_reviews utcHost simPuppeteer 3 "Slack"
           exampleStart exampleEnd 10 (start offline)).
  lia.
Defined.

Lemma extracted_fields_are_trimmed_witness :
  trim (title (@trustRadiusReview utcHost blankTitleCard))
  = title (@trustRadiusReview utcHost blankTitleCard).
Proof.
  apply (@extracted_fields_are_trimmed utcHost blankTitleCard
           (@trustRadiusReview utcHost blankTitleCard)).
  left. reflexivity.
Defined.

Lemma company_slug_is_clean_witness :
  allOf (fun c => negb (isSpace c)) "Slack" = true
  /\ replaceSpaceRuns "-" false (toLowerCase "Slack") = toLowerCase "Slack".
Proof.
  split; [reflexivity|].
  apply (proj2 (proj2 (company_slug_is_clean "Slack"))). reflexivity.
Defined.

Lemma scraped_content_is_never_empty_witness :
  exists resp,
    @Ok ScrapeResponse (mkScrapeResponse 200 (Scraped (JArray [JString "Hello"])))
    = Ok resp
    /\ (scrapeStatus resp = 200 ->
        exists data,
          scrapeBody resp = Scraped data
          /\ "https://example.com" <> EmptyString
          /\ run (@ret simPuppeteer Json (JArray [JString "Hello"])) (start offline)
             = Some (Ok data, start offline)
          /\ data <> JNull /\ data <> JString EmptyString
          /\ data <> JArray [] /\ data <> JObject [])
    /\ ("https://example.com" = EmptyString ->
        resp = mkScrapeResponse 400 (UrlRequired "URL is required")
        /\ start offline = start offline).
Proof.
  apply (@scraped_content_is_never_empty simPuppeteer
           (fun _ _ => ret (JArray [JString "Hello"]))
           (mkScrapeRequest "https://example.com" JNull)
           (start offline) (start offline)).
  reflexivity.
Defined.

Lemma relative_expression_inside_text_witness :
  @Date_parse utcHost (trim ("Reviewed " ++ ago 3 "days" ++ " by Ann")) = NaN
  /\ @parseDate utcHost ("Reviewed " ++ ago 3 "days" ++ " by Ann")
     = @parseDate utcHost (ago 3 "days").
Proof.
  split; [reflexivity|].
  apply (@relative_expression_inside_text utcHost 3 "days" "Reviewed " " by Ann");
    [lia | right; left; reflexivity | reflexivity | reflexivity | reflexivity].
Defined.

Lemma listing_is_read_in_page_order_witness :
  trustRadiusListing <> []
  /\ exists s',
       run (@scrapeTrustRadiusReviews utcHost simPuppeteer "Slack"
              exampleStart exampleEnd 3)
           (start (trustRadiusSite "Slack" trustRadiusListing (fun _ => false)))
       = Some (Ok (Success
                     (@dateFilter utcHost exampleStart exampleEnd
                        (flat_map (map (@trustRadiusReview utcHost))
                                  (firstn 3 trustRadiusListing)))
                     None), s')
       /\ extractions (trace s') = Nat.min 3 (List.length trustRadiusListing).
Proof.
  assert (N : trustRadiusListing <> []) by discriminate.
  split; [exact N|].
  apply (proj1 (@listing_is_read_in_page_order utcHost "Slack" exampleStart
                  exampleEnd 3 trustRadiusListing eq_refl
                  ltac:(discriminate) ltac:(lia) N)).
Defined.

Lemma narrower_range_filters_again_witness :
  Date_le exampleStart (mkDate (Some 1740787200000)) = true
  /\ @dateFilter utcHost (mkDate (Some 1740787200000)) (mkDate (Some 1748736000000))
       (@dateFilter utcHost exampleStart exampleEnd mockData)
     = @dateFilter utcHost (mkDate (Some 1740787200000))
         (mkDate (Some 1748736000000)) mockData.
Proof.
  split; [reflexivity|].
  apply (proj1 (@narrower_range_filters_again utcHost
                  (mkDate (Some 1740787200000)) (mkDate (Some 1748736000000))
                  exampleStart exampleEnd mockData eq_refl eq_refl)).
Defined.

Lemma trustRadius_falls_back_to_search_witness :
  exists s' t,
    run (@scrapeTrustRadiusReviews utcHost simPuppeteer "Slack"
           exampleStart exampleEnd 10)
        (start (@trustRadiusSearchSite utcHost "Slack"
                  [mkElement "Zoom" "Zoom" "https://www.trustradius.com/products/zoom"
                     false [] (fun _ => None) (fun _ => []);
                   mkElement "Slack by Salesforce" "Slack by Salesforce"
                     "https://www.trustradius.com/products/slack-app"
                     false [] (fun _ => None) (fun _ => [])]
                  "https://www.trustradius.com/products/slack-app"
                  trustRadiusListing (fun _ => false)))
    = Some (Ok (Success
                  (@dateFilter utcHost exampleStart exampleEnd
                     (flat_map (map (@trustRadiusReview utcHost))
                               (visited (fun _ => false) 10 1 trustRadiusListing)))
                  None), s')
    /\ trace s'
       = ([Launch true; NewPage; SetDefaultNavigationTimeout 60000;
           Goto (trustRadiusProductUrl "Slack"); Evaluate NotFoundIndicator;
           Goto (@trustRadiusSearchUrl utcHost "Slack"); Evaluate FindProductUrl;
           Goto "https://www.trustradius.com/products/slack-app";
           Goto ("https://www.trustradius.com/products/slack-app" ++ "/reviews")]
          ++ t)%list.
Proof.
  apply (@trustRadius_falls_back_to_search utcHost "Slack" exampleStart exampleEnd
           10
           [mkElement "Zoom" "Zoom" "https://www.trustradius.com/products/zoom"
              false [] (fun _ => None) (fun _ => []);
            mkElement "Slack by Salesforce" "Slack by Salesforce"
              "https://www.trustradius.com/products/slack-app"
              false [] (fun _ => None) (fun _ => [])]
           (mkElement "Slack by Salesforce" "Slack by Salesforce"
              "https://www.trustradius.com/products/slack-app"
              false [] (fun _ => None) (fun _ => []))
           (hd [] trustRadiusListing) (tl trustRadiusListing) (fun _ => false));
    [reflexivity | discriminate | discriminate | discriminate | lia].
Defined.
